(** * GitHub repository summary bot: change detection and state persistence

    A shallow embedding of [repo_summary_bot.py] (class [GitHubRepoBot]):
    the formatting of fetched changes, the generation fallback, the two
    SQLite tables and the check cycle [check_repo_for_changes] /
    [check_all_repos].  The hosting API, the generation API and the clock
    are oracles; the database, the standard output and the outbound calls
    are threaded through an explicit state. *)

From Stdlib Require Import ZArith List String Ascii Bool Lia Sorted Permutation.
From stdpp Require Import gmap strings sorting.
Import ListNotations.

Local Open Scope string_scope.
Local Open Scope list_scope.
Local Open Scope Z_scope.

(** ** Strings *)

Module Str.

(** The line feed, Python's ["\n"]. *)
Definition nl : string := String "010" "".

(** [sep.join(parts)]. *)
Fixpoint join (sep : string) (parts : list string) : string :=
  match parts with
  | [] => ""
  | [p] => p
  | p :: rest => p +:+ sep +:+ join sep rest
  end.

(** [s.split("\n")[0]]: the text before the first line feed. *)
Fixpoint first_line (s : string) : string :=
  match s with
  | EmptyString => ""
  | String c rest =>
      if Ascii.eqb c "010" then "" else String c (first_line rest)
  end.

(** [c.upper()] on ASCII letters. *)
Definition upper_char (c : ascii) : ascii :=
  let n := nat_of_ascii c in
  if ((97 <=? n)%nat && (n <=? 122)%nat)%bool
  then ascii_of_nat (n - 32) else c.

(** [s.upper()]. *)
Fixpoint upper (s : string) : string :=
  match s with
  | EmptyString => ""
  | String c rest => String (upper_char c) (upper rest)
  end.

(** [s.replace(old, new)] for a one-character [old]: every occurrence is
    replaced. *)
Fixpoint replace_char (old : ascii) (new : string) (s : string) : string :=
  match s with
  | EmptyString => ""
  | String c rest =>
      if Ascii.eqb c old then new +:+ replace_char old new rest
      else String c (replace_char old new rest)
  end.

(** [needle in s]. *)
Fixpoint contains (needle s : string) : bool :=
  if String.prefix needle s then true
  else match s with
       | EmptyString => false
       | String _ rest => contains needle rest
       end.

(** Python truthiness of a [str]: only the empty string is falsy. *)
Definition truthy (s : string) : bool :=
  match s with EmptyString => false | String _ _ => true end.

(** *** Decimal numerals *)

Definition digit_char (d : Z) : ascii := ascii_of_nat (48 + Z.to_nat d).

Fixpoint dec_digits (fuel : nat) (n : Z) (acc : string) : string :=
  match fuel with
  | O => acc
  | S fuel' =>
      let acc' := String (digit_char (n mod 10)) acc in
      if n <? 10 then acc' else dec_digits fuel' (n / 10) acc'
  end.

(** The decimal digits of a natural number. *)
Definition dec (n : Z) : string :=
  dec_digits (S (Z.to_nat (Z.log2 n))) n "".

Fixpoint zeros (k : nat) : string :=
  match k with O => "" | S k' => String "0" (zeros k') end.

Definition zfill (width : nat) (s : string) : string :=
  zeros (width - String.length s) +:+ s.

(** ["%0<width>d" % n] *)
Definition fmt_d (width : nat) (n : Z) : string :=
  if n <? 0 then "-" +:+ zfill (width - 1) (dec (- n))
  else zfill width (dec n).

End Str.

(** ** Data returned by the hosting API

    The JSON objects of the commits and pulls endpoints, restricted to the
    keys the bot reads: [c["sha"]], [c["commit"]["message"]],
    [c["commit"]["author"]["name"]], [c["commit"]["author"]["date"]] and
    [pr["state"]], [pr["title"]], [pr["user"]["login"]],
    [pr["updated_at"]]. *)

Record commit := Commit {
  sha : string;
  message : string;
  author_name : string;
  author_date : string
}.

Record pull := Pull {
  state : string;
  title : string;
  user_login : string;
  updated_at : string
}.

(** ** format_changes_for_ai *)

(** [f"- {commit_msg} (by {author} on {date})"] *)
Definition commit_line (c : commit) : string :=
  "- " +:+ Str.first_line (message c) +:+ " (by " +:+ author_name c
       +:+ " on " +:+ author_date c +:+ ")".

(** [f"- [{state.upper()}] {title} (by {author}, updated {updated})"] *)
Definition pull_line (pr : pull) : string :=
  "- [" +:+ Str.upper (state pr) +:+ "] " +:+ title pr +:+ " (by "
        +:+ user_login pr +:+ ", updated " +:+ updated_at pr +:+ ")".

(** The lines of the commit section: the header and at most ten commits. *)
Definition commit_section (commits : list commit) : list string :=
  match commits with
  | [] => []
  | _ :: _ => "Recent Commits:" :: map commit_line (firstn 10 commits)
  end.

(** The lines of the pull-request section: the header, which opens with a
    line feed, and at most five pull requests. *)
Definition pull_section (pulls : list pull) : list string :=
  match pulls with
  | [] => []
  | _ :: _ =>
      (Str.nl +:+ "Recent Pull Requests:") :: map pull_line (firstn 5 pulls)
  end.

(** The [content] list built by [format_changes_for_ai]. *)
Definition format_content (commits : list commit) (pulls : list pull)
  : list string :=
  commit_section commits ++ pull_section pulls.

Definition format_changes_for_ai (commits : list commit) (pulls : list pull)
  : string :=
  Str.join Str.nl (format_content commits pulls).

(** ** Python exceptions and results *)

Inductive exn :=
| RequestException (detail : string)
| TypeError (detail : string)
| ValueError (detail : string)
| OverflowError (detail : string).

Inductive result (A : Type) :=
| Ok (a : A)
| Raise (e : exn).
Arguments Ok {A} a.
Arguments Raise {A} e.

(** ** The [datetime] values the bot manipulates

    A model of the part of Python's [datetime] module the bot calls:
    [isoformat], [fromisoformat], subtraction of a [timedelta] of whole days
    and the ordering of two datetimes.  The calendar functions follow
    [Lib/datetime.py]. *)

Module Datetime.

(** A datetime is its calendar fields and an optional UTC offset, in
    microseconds; [None] is a naive datetime. *)
Record datetime := DT {
  year : Z; month : Z; day : Z;
  hour : Z; minute : Z; second : Z; microsecond : Z;
  tzinfo : option Z
}.

Definition MINYEAR : Z := 1.
Definition MAXYEAR : Z := 9999.
Definition MAXORDINAL : Z := 3652059.
Definition US_PER_SECOND : Z := 1000000.
Definition US_PER_DAY : Z := 86400 * US_PER_SECOND.

Definition is_leap (y : Z) : bool :=
  (y mod 4 =? 0) && (negb (y mod 100 =? 0) || (y mod 400 =? 0)).

(** [_DAYS_IN_MONTH] *)
Definition DAYS_IN_MONTH (m : Z) : Z :=
  match m with
  | 1 => 31 | 2 => 28 | 3 => 31 | 4 => 30 | 5 => 31 | 6 => 30
  | 7 => 31 | 8 => 31 | 9 => 30 | 10 => 31 | 11 => 30 | 12 => 31
  | _ => -1
  end.

(** [_DAYS_BEFORE_MONTH] *)
Definition DAYS_BEFORE_MONTH (m : Z) : Z :=
  match m with
  | 1 => 0 | 2 => 31 | 3 => 59 | 4 => 90 | 5 => 120 | 6 => 151
  | 7 => 181 | 8 => 212 | 9 => 243 | 10 => 273 | 11 => 304 | 12 => 334
  | _ => -1
  end.

Definition days_before_year (y : Z) : Z :=
  let y := y - 1 in y * 365 + y / 4 - y / 100 + y / 400.

Definition days_in_month (y m : Z) : Z :=
  if (m =? 2) && is_leap y then 29 else DAYS_IN_MONTH m.

Definition days_before_month (y m : Z) : Z :=
  DAYS_BEFORE_MONTH m + (if (2 <? m) && is_leap y then 1 else 0).

Definition ymd2ord (y m d : Z) : Z :=
  days_before_year y + days_before_month y m + d.

Definition DI400Y : Z := 146097.
Definition DI100Y : Z := 36524.
Definition DI4Y : Z := 1461.

(** [_ord2ymd]: the (year, month, day) of a proleptic Gregorian ordinal. *)
Definition ord2ymd (n : Z) : Z * Z * Z :=
  let n := n - 1 in
  let n400 := n / DI400Y in
  let n := n mod DI400Y in
  let y := n400 * 400 + 1 in
  let n100 := n / DI100Y in
  let n := n mod DI100Y in
  let n4 := n / DI4Y in
  let n := n mod DI4Y in
  let n1 := n / 365 in
  let n := n mod 365 in
  let y := y + n100 * 100 + n4 * 4 + n1 in
  if (n1 =? 4) || (n100 =? 4) then (y - 1, 12, 31)
  else
    let leapyear := (n1 =? 3) && (negb (n4 =? 24) || (n100 =? 3)) in
    let m := Z.shiftr (n + 50) 5 in
    let preceding :=
      DAYS_BEFORE_MONTH m + (if (2 <? m) && leapyear then 1 else 0) in
    if n <? preceding then
      let m' := m - 1 in
      let preceding' :=
        preceding
        - (DAYS_IN_MONTH m' + (if (m' =? 2) && leapyear then 1 else 0)) in
      (y, m', n - preceding' + 1)
    else (y, m, n - preceding + 1).

(** [toordinal()] *)
Definition toordinal (d : datetime) : Z := ymd2ord (year d) (month d) (day d).

(** Microseconds elapsed on the datetime's own wall clock since
    0001-01-01T00:00:00 minus one day (ordinal 0). *)
Definition wall_us (d : datetime) : Z :=
  ((toordinal d * 24 + hour d) * 60 + minute d) * 60 * US_PER_SECOND
  + second d * US_PER_SECOND + microsecond d.

(** The field ranges the [datetime] constructor checks. *)
Definition check_date_fields (y m d : Z) : bool :=
  (MINYEAR <=? y) && (y <=? MAXYEAR) && (1 <=? m) && (m <=? 12)
  && (1 <=? d) && (d <=? days_in_month y m).

Definition check_time_fields (h mi s us : Z) : bool :=
  (0 <=? h) && (h <=? 23) && (0 <=? mi) && (mi <=? 59)
  && (0 <=? s) && (s <=? 59) && (0 <=? us) && (us <=? 999999).

Definition valid (d : datetime) : bool :=
  check_date_fields (year d) (month d) (day d)
  && check_time_fields (hour d) (minute d) (second d) (microsecond d).

(** [d - timedelta(days=n)]: through the ordinal, as [datetime.__add__]
    does; [OverflowError] outside years 1..9999. *)
Definition sub_days (d : datetime) (n : Z) : result datetime :=
  let total := wall_us d - n * US_PER_DAY in
  let days := total / US_PER_DAY in
  let rest := total mod US_PER_DAY in
  let secs := rest / US_PER_SECOND in
  let us := rest mod US_PER_SECOND in
  if (0 <? days) && (days <=? MAXORDINAL) then
    let '(y, m, dd) := ord2ymd days in
    Ok (DT y m dd (secs / 3600) (secs mod 3600 / 60) (secs mod 60) us
           (tzinfo d))
  else Raise (OverflowError "date value out of range").

(** Comparison of two tuples, component by component. *)
Definition lex (c1 c2 : comparison) : comparison :=
  match c1 with Eq => c2 | _ => c1 end.

(** Lexicographic comparison of the calendar fields. *)
Definition compare_fields (a b : datetime) : comparison :=
  lex (year a ?= year b)
 (lex (month a ?= month b)
 (lex (day a ?= day b)
 (lex (hour a ?= hour b)
 (lex (minute a ?= minute b)
 (lex (second a ?= second b)
      (microsecond a ?= microsecond b)))))).

(** [datetime._cmp] for the ordering operators: two naive datetimes, or
    two aware ones with the same offset, compare by fields; two aware
    ones with different offsets compare as instants; a naive and an aware
    one do not compare. *)
Definition cmp (a b : datetime) : result comparison :=
  match tzinfo a, tzinfo b with
  | None, None => Ok (compare_fields a b)
  | Some oa, Some ob =>
      if oa =? ob then Ok (compare_fields a b)
      else Ok (wall_us a - oa ?= wall_us b - ob)
  | _, _ =>
      Raise (TypeError "can't compare offset-naive and offset-aware datetimes")
  end.

(** [a > b] *)
Definition gt (a b : datetime) : result bool :=
  match cmp a b with
  | Ok Gt => Ok true
  | Ok _ => Ok false
  | Raise e => Raise e
  end.

(** *** Printing *)

Import Str.

(** [_format_time], with [timespec='auto']. *)
Definition format_time (h mi s us : Z) : string :=
  fmt_d 2 h +:+ ":" +:+ fmt_d 2 mi +:+ ":" +:+ fmt_d 2 s
  +:+ (if us =? 0 then "" else "." +:+ fmt_d 6 us).

(** [_format_offset] *)
Definition format_offset (off : option Z) : string :=
  match off with
  | None => ""
  | Some o =>
      let sign := if o <? 0 then "-" else "+" in
      let o := Z.abs o in
      let hh := o / (3600 * US_PER_SECOND) in
      let r := o mod (3600 * US_PER_SECOND) in
      let mm := r / (60 * US_PER_SECOND) in
      let ss := r mod (60 * US_PER_SECOND) in
      sign +:+ fmt_d 2 hh +:+ ":" +:+ fmt_d 2 mm
      +:+ (if ss =? 0 then ""
           else ":" +:+ fmt_d 2 (ss / US_PER_SECOND)
                +:+ (if ss mod US_PER_SECOND =? 0 then ""
                     else "." +:+ fmt_d 6 (ss mod US_PER_SECOND)))
  end.

(** [d.isoformat(sep)] *)
Definition isoformat_sep (sep : ascii) (d : datetime) : string :=
  fmt_d 4 (year d) +:+ "-" +:+ fmt_d 2 (month d) +:+ "-"
  +:+ fmt_d 2 (day d) +:+ String sep ""
  +:+ format_time (hour d) (minute d) (second d) (microsecond d)
  +:+ format_offset (tzinfo d).

(** [d.isoformat()] *)
Definition isoformat (d : datetime) : string := isoformat_sep "T" d.

(** [str(d)] *)
Definition str (d : datetime) : string := isoformat_sep " " d.

(** *** Parsing

    [datetime.fromisoformat] for the grammar documented for Python 3.7 to
    3.10, [YYYY-MM-DD[*HH[:MM[:SS[.fff[fff]]]][+HH:MM[:SS[.ffffff]]]]],
    with ASCII decimal digits; every other string is a [ValueError]. *)

Definition digit_of (c : ascii) : option Z :=
  let n := Z.of_nat (nat_of_ascii c) in
  if (48 <=? n) && (n <=? 57) then Some (n - 48) else None.

Fixpoint parse_digits (s : string) (acc : Z) : option Z :=
  match s with
  | EmptyString => Some acc
  | String c rest =>
      match digit_of c with
      | Some d => parse_digits rest (10 * acc + d)
      | None => None
      end
  end.

(** [int(s[pos:pos+len])] for a slice of exactly [len] digits. *)
Definition int_at (s : string) (pos len : nat) : option Z :=
  let sl := substring pos len s in
  if (String.length sl =? len)%nat && (0 <? len)%nat
  then parse_digits sl 0 else None.

Definition char_at (s : string) (pos : nat) : option ascii := String.get pos s.

Definition is_char (c : ascii) (o : option ascii) : bool :=
  match o with Some c' => Ascii.eqb c c' | None => false end.

(** [_parse_isoformat_date] on [date_string[0:10]]. *)
Definition parse_isoformat_date (dstr : string) : option (Z * Z * Z) :=
  match int_at dstr 0 4, int_at dstr 5 2, int_at dstr 8 2 with
  | Some y, Some m, Some d =>
      if is_char "-" (char_at dstr 4) && is_char "-" (char_at dstr 7)
      then Some (y, m, d) else None
  | _, _, _ => None
  end.

(** The optional fraction [.fff[fff]] starting at [pos]. *)
Definition parse_fraction (tstr : string) (pos : nat) : option Z :=
  let len := String.length tstr in
  if (pos <? len)%nat then
    if is_char "." (char_at tstr pos) then
      let rem := (len - (pos + 1))%nat in
      if (rem =? 3)%nat then
        match int_at tstr (pos + 1) 3 with
        | Some f => Some (f * 1000)
        | None => None
        end
      else if (rem =? 6)%nat then int_at tstr (pos + 1) 6
      else None
    else None
  else Some 0.

(** [_parse_hh_mm_ss_ff]: [HH[:MM[:SS[.fff[fff]]]]]. *)
Definition parse_hh_mm_ss_ff (tstr : string) : option (Z * Z * Z * Z) :=
  match int_at tstr 0 2 with
  | None => None
  | Some hh =>
      match char_at tstr 2 with
      | None => Some (hh, 0, 0, 0)
      | Some c =>
          if negb (Ascii.eqb c ":") then None else
          match int_at tstr 3 2 with
          | None => None
          | Some mm =>
              match char_at tstr 5 with
              | None => Some (hh, mm, 0, 0)
              | Some c =>
                  if negb (Ascii.eqb c ":") then None else
                  match int_at tstr 6 2 with
                  | None => None
                  | Some ss =>
                      match parse_fraction tstr 8 with
                      | Some us => Some (hh, mm, ss, us)
                      | None => None
                      end
                  end
              end
          end
      end
  end.

(** Where the offset starts: one past the first ['-'], else one past the
    first ['+'], else [0]. *)
Definition tz_pos (tstr : string) : nat :=
  match String.index 0 "-" tstr with
  | Some i => S i
  | None =>
      match String.index 0 "+" tstr with
      | Some i => S i
      | None => O
      end
  end.

(** [_parse_isoformat_time] *)
Definition parse_isoformat_time (tstr : string)
  : option (Z * Z * Z * Z * option Z) :=
  let len := String.length tstr in
  if (len <? 2)%nat then None else
  let p := tz_pos tstr in
  let timestr := if (0 <? p)%nat then substring 0 (p - 1) tstr else tstr in
  match parse_hh_mm_ss_ff timestr with
  | None => None
  | Some comps =>
      if (0 <? p)%nat then
        let tzstr := substring p (len - p) tstr in
        let l := String.length tzstr in
        if negb ((l =? 5) || (l =? 8) || (l =? 15))%nat then None else
        match parse_hh_mm_ss_ff tzstr with
        | None => None
        | Some (h, m, s, us) =>
            let td := ((h * 60 + m) * 60 + s) * US_PER_SECOND + us in
            let sign := if is_char "-" (char_at tstr (p - 1)) then -1 else 1 in
            if td <? US_PER_DAY then Some (comps, Some (sign * td)) else None
        end
      else Some (comps, None)
  end.

Definition invalid (date_string : string) : exn :=
  ValueError ("Invalid isoformat string: '" +:+ date_string +:+ "'").

(** [datetime.fromisoformat(date_string)] *)
Definition fromisoformat (date_string : string) : result datetime :=
  let dstr := substring 0 10 date_string in
  let tstr := substring 11 (String.length date_string - 11) date_string in
  match parse_isoformat_date dstr with
  | None => Raise (invalid date_string)
  | Some (y, m, d) =>
      match
        (if Str.truthy tstr then parse_isoformat_time tstr
         else Some (0, 0, 0, 0, None))
      with
      | None => Raise (invalid date_string)
      | Some (h, mi, s, us, tz) =>
          if check_date_fields y m d && check_time_fields h mi s us
          then Ok (DT y m d h mi s us tz)
          else Raise (ValueError "field out of range")
      end
  end.

End Datetime.

(** ** The two tables

    [repo_states(repo_name PRIMARY KEY, last_commit_sha, last_check_timestamp)]
    and [summaries(id AUTOINCREMENT, repo_name, summary, changes_count,
    timestamp)]. *)

Record summary_row := SummaryRow {
  row_id : nat;
  row_repo_name : string;
  row_summary : string;
  changes_count : nat;
  row_timestamp : string
}.

Record database := Database {
  repo_states : gmap string (string * string);
  summaries : list summary_row
}.

(** The tables after [init_database] on a fresh file. *)
Definition empty_database : database := Database ∅ [].

(** The id an [AUTOINCREMENT] column gives the next row: one more than the
    largest id in the table (no row is ever deleted). *)
Definition next_id (rows : list summary_row) : nat :=
  S (fold_right Nat.max O (map row_id rows)).

(** ** The outside world

    Every reading of a clock and every call of an external API consumes one
    tick; the oracle says what the world answers at that tick. *)

Record oracle := Oracle {
  (** [datetime.utcnow()] *)
  utcnow : nat -> Datetime.datetime;
  (** [datetime.now()] *)
  now : nat -> Datetime.datetime;
  (** [requests.get(url, params).json()] on the commits endpoint, after
      [raise_for_status()] *)
  commits_json : nat -> string -> list (string * string) -> result (list commit);
  (** the same on the pulls endpoint *)
  pulls_json : nat -> string -> list (string * string) -> result (list pull);
  (** [client.chat.completions.create(model, messages).choices[0].message.content] *)
  chat_completion : nat -> string -> string -> result string
}.

(** What the bot does to the outside world, in order. *)
Inductive event :=
| Print (line : string)
| HttpGet (url : string) (params : list (string * string))
| ChatCreate (model : string) (prompt : string).

Record world := World {
  db : database;
  tick : nat;
  trace : list event
}.

(** ** A state and exception monad *)

Definition M (A : Type) : Type := world -> result A * world.

Definition ret {A} (a : A) : M A := fun s => (Ok a, s).

Definition bind {A B} (m : M A) (k : A -> M B) : M B :=
  fun s =>
    match m s with
    | (Ok a, s') => k a s'
    | (Raise e, s') => (Raise e, s')
    end.

Definition lift {A} (r : result A) : M A := fun s => (r, s).

Notation "'let*' x ':=' m 'in' k" := (bind m (fun x => k))
  (at level 10, x name, m at level 100, k at level 200).
Notation "m ';;' k" := (bind m (fun _ => k))
  (at level 100, k at level 200, right associativity).

(** [str(e)] *)
Definition exn_str (e : exn) : string :=
  match e with
  | RequestException d | TypeError d | ValueError d | OverflowError d => d
  end.

Definition emit (e : event) : M unit :=
  fun s => (Ok tt, World (db s) (tick s) (trace s ++ [e])).

Definition print (line : string) : M unit := emit (Print line).

(** Consult the oracle at the current tick and advance the tick. *)
Definition ask {A} (f : nat -> A) : M A :=
  fun s => (Ok (f (tick s)), World (db s) (S (tick s)) (trace s)).

Definition get_db : M database := fun s => (Ok (db s), s).

Definition put_db (d : database) : M unit :=
  fun s => (Ok tt, World d (tick s) (trace s)).

(** ** GitHubRepoBot *)

Definition BASE_URL : string := "https://api.github.com".

(** [last_check.replace('Z', '+00:00')] then [datetime.fromisoformat]. *)
Definition parse_timestamp (text : string) : result Datetime.datetime :=
  Datetime.fromisoformat (Str.replace_char "Z" "+00:00" text).

(** The list comprehension of [check_repo_for_changes]: the pulls whose
    [updated_at] is later than [last_check_dt], in order; the first
    exception ends it. *)
Fixpoint pulls_updated_after (last_check_dt : Datetime.datetime)
  (pulls : list pull) : result (list pull) :=
  match pulls with
  | [] => Ok []
  | pr :: rest =>
      match parse_timestamp (updated_at pr) with
      | Raise e => Raise e
      | Ok updated =>
          match Datetime.gt updated last_check_dt with
          | Raise e => Raise e
          | Ok keep =>
              match pulls_updated_after last_check_dt rest with
              | Raise e => Raise e
              | Ok rest' => Ok (if keep then pr :: rest' else rest')
              end
          end
      end
  end.

(** Python truthiness of an [Optional[str]]. *)
Definition truthy (o : option string) : bool :=
  match o with
  | Some s => Str.truthy s
  | None => false
  end.

(** "Filter pulls updated since last check": nothing is filtered when
    [last_check] is falsy. *)
Definition filter_pulls (last_check : option string) (pulls : list pull)
  : result (list pull) :=
  match last_check with
  | Some text =>
      if Str.truthy text then
        match parse_timestamp text with
        | Raise e => Raise e
        | Ok last_check_dt => pulls_updated_after last_check_dt pulls
        end
      else Ok pulls
  | None => Ok pulls
  end.

(** The prompt of [generate_summary]. *)
Definition summary_prompt (changes_text repo_name : string) : string :=
  Str.nl
  +:+ "Please provide a concise summary of the recent activity in the GitHub repository '"
  +:+ repo_name +:+ "':" +:+ Str.nl
  +:+ Str.nl
  +:+ changes_text +:+ Str.nl
  +:+ Str.nl
  +:+ "Focus on:" +:+ Str.nl
  +:+ "1. Key features or fixes that were implemented" +:+ Str.nl
  +:+ "2. Notable contributors and their contributions" +:+ Str.nl
  +:+ "3. Overall development trends or patterns" +:+ Str.nl
  +:+ "4. Any significant pull request activity" +:+ Str.nl
  +:+ Str.nl
  +:+ "Keep the summary under 200 words and highlight the most important changes."
  +:+ Str.nl.

(** ["-" * 50] *)
Definition rule : string := String.concat "" (repeat "-" 50).

Section Bot.

(** The world the bot runs in, and its [OPENAI_MODEL]. *)
Variable E : oracle.
Variable openai_model : string.

(** [get_repo_commits]: [since] goes into the query only when truthy. *)
Definition get_repo_commits (repo : string) (since : option string)
  : M (list commit) :=
  let url := BASE_URL +:+ "/repos/" +:+ repo +:+ "/commits" in
  let params :=
    match since with
    | Some text => if Str.truthy text then [("since", text)] else []
    | None => []
    end in
  emit (HttpGet url params) ;;
  let* response := ask (fun t => commits_json E t url params) in
  lift response.

(** [get_repo_pulls] *)
Definition get_repo_pulls (repo : string) (pr_state : string)
  : M (list pull) :=
  let url := BASE_URL +:+ "/repos/" +:+ repo +:+ "/pulls" in
  let params :=
    [("state", pr_state); ("sort", "updated"); ("direction", "desc");
     ("per_page", "10")] in
  emit (HttpGet url params) ;;
  let* response := ask (fun t => pulls_json E t url params) in
  lift response.

(** [get_last_check_time] *)
Definition get_last_check_time (repo : string) : M (option string) :=
  let* d := get_db in
  ret (match repo_states d !! repo with
       | Some (_, last_check_timestamp) => Some last_check_timestamp
       | None => None
       end).

(** [update_repo_state]: [INSERT OR REPLACE] of the whole row. *)
Definition update_repo_state (repo last_commit_sha : string) : M unit :=
  let* t := ask (utcnow E) in
  let* d := get_db in
  put_db (Database
            (<[repo := (last_commit_sha, Datetime.isoformat t)]> (repo_states d))
            (summaries d)).

(** The upsert of the branch without commits:
    [COALESCE((SELECT last_commit_sha ...), '')] keeps the stored SHA. *)
Definition touch_repo_state (repo : string) : M unit :=
  let* t := ask (utcnow E) in
  let* d := get_db in
  let last_commit_sha :=
    match repo_states d !! repo with
    | Some (stored, _) => stored
    | None => ""
    end in
  put_db (Database
            (<[repo := (last_commit_sha, Datetime.isoformat t)]> (repo_states d))
            (summaries d)).

(** [save_summary] *)
Definition save_summary (repo text : string) (count : nat) : M unit :=
  let* t := ask (utcnow E) in
  let* d := get_db in
  put_db (Database
            (repo_states d)
            (summaries d
             ++ [SummaryRow (next_id (summaries d)) repo text count
                            (Datetime.isoformat t)])).

(** [generate_summary]: any exception of the call becomes the text
    returned. *)
Definition generate_summary (changes_text repo : string) : M string :=
  let prompt := summary_prompt changes_text repo in
  emit (ChatCreate openai_model prompt) ;;
  let* response := ask (fun t => chat_completion E t openai_model prompt) in
  match response with
  | Ok content => ret content
  | Raise e => ret ("Error generating summary: " +:+ exn_str e)
  end.

(** The [try] block of [check_repo_for_changes]. *)
Definition check_repo_body (repo : string) : M (option string) :=
  print ("Checking repository: " +:+ repo) ;;
  let* last_check := get_last_check_time repo in
  let* since_param :=
    (if truthy last_check then ret (default "" last_check)
     else
       let* t := ask (utcnow E) in
       let* since := lift (Datetime.sub_days t 7) in
       ret (Datetime.isoformat since)) in
  let* commits := get_repo_commits repo (Some since_param) in
  let* pulls := get_repo_pulls repo "all" in
  let* pulls := lift (filter_pulls last_check pulls) in
  let total_changes := (length commits + length pulls)%nat in
  if (total_changes =? 0)%nat then
    print ("No new changes found for " +:+ repo) ;;
    ret None
  else
    print ("Found " +:+ Str.dec (Z.of_nat (length commits))
           +:+ " commits and " +:+ Str.dec (Z.of_nat (length pulls))
           +:+ " pull request updates") ;;
    let changes_text := format_changes_for_ai commits pulls in
    let* text := generate_summary changes_text repo in
    (match commits with
     | newest :: _ => update_repo_state repo (sha newest)
     | [] => touch_repo_state repo
     end) ;;
    save_summary repo text total_changes ;;
    print ("Generated summary for " +:+ repo +:+ ":") ;;
    print rule ;;
    print text ;;
    print rule ;;
    ret (Some text).

(** [check_repo_for_changes]: the two [except] clauses print and return
    [None]. *)
Definition check_repo_for_changes (repo : string) : M (option string) :=
  fun s =>
    match check_repo_body repo s with
    | (Ok r, s') => (Ok r, s')
    | (Raise (RequestException d), s') =>
        (print ("Error fetching data for " +:+ repo +:+ ": " +:+ d) ;;
         ret None) s'
    | (Raise e, s') =>
        (print ("Unexpected error for " +:+ repo +:+ ": " +:+ exn_str e) ;;
         ret None) s'
    end.

(** The [for] loop of [check_all_repos]. *)
Fixpoint check_each (repo_list : list string) : M unit :=
  match repo_list with
  | [] => ret tt
  | repo :: rest => check_repo_for_changes repo ;; check_each rest
  end.

(** [check_all_repos] *)
Definition check_all_repos (repo_list : list string) : M unit :=
  let* started := ask (now E) in
  print ("Starting repository check at " +:+ Datetime.str started) ;;
  check_each repo_list ;;
  let* completed := ask (now E) in
  print ("Completed repository check at " +:+ Datetime.str completed).

End Bot.

(** ** What one check cycle sees

    Names for the quantities of one call of [check_repo_for_changes] in a
    world [s]: the stored watermark, the tick at which the commits are
    fetched, the [since] it sends and the answers of the two endpoints. *)

Definition last_check_of (d : database) (repo : string) : option string :=
  match repo_states d !! repo with
  | Some (_, last_check_timestamp) => Some last_check_timestamp
  | None => None
  end.

(** The stored SHA, [''] when there is no row: the [COALESCE] above. *)
Definition last_sha_of (d : database) (repo : string) : string :=
  match repo_states d !! repo with
  | Some (stored, _) => stored
  | None => ""
  end.

Definition commits_url (repo : string) : string :=
  BASE_URL +:+ "/repos/" +:+ repo +:+ "/commits".

Definition pulls_url (repo : string) : string :=
  BASE_URL +:+ "/repos/" +:+ repo +:+ "/pulls".

Definition pulls_params : list (string * string) :=
  [("state", "all"); ("sort", "updated"); ("direction", "desc");
   ("per_page", "10")].

(** The first line every check prints. *)
Definition checking (repo : string) : event :=
  Print ("Checking repository: " +:+ repo).

Section Cycle.

Variable E : oracle.

(** The watermark is read without the clock; the default look-back reads
    it once. *)
Definition fetch_tick (s : world) (repo : string) : nat :=
  if truthy (last_check_of (db s) repo) then tick s else S (tick s).

Definition since_param (s : world) (repo : string) : result string :=
  match last_check_of (db s) repo with
  | Some text =>
      if Str.truthy text then Ok text
      else
        match Datetime.sub_days (utcnow E (tick s)) 7 with
        | Ok since => Ok (Datetime.isoformat since)
        | Raise e => Raise e
        end
  | None =>
      match Datetime.sub_days (utcnow E (tick s)) 7 with
      | Ok since => Ok (Datetime.isoformat since)
      | Raise e => Raise e
      end
  end.

(** Both fetches of the cycle succeed, with [commits] and [pulls]. *)
Definition fetched (s : world) (repo : string)
  (commits : list commit) (pulls : list pull) : Prop :=
  exists since,
    since_param s repo = Ok since
    /\ commits_json E (fetch_tick s repo) (commits_url repo)
         [("since", since)] = Ok commits
    /\ pulls_json E (S (fetch_tick s repo)) (pulls_url repo) pulls_params
       = Ok pulls.

(** The text [generate_summary] returns when asked at tick [t]. *)
Definition generated (model : string) (t : nat) (changes_text repo : string)
  : string :=
  match chat_completion E t model (summary_prompt changes_text repo) with
  | Ok content => content
  | Raise e => "Error generating summary: " +:+ exn_str e
  end.

Variable model : string.

(** A cycle that found [commits] and, after the filter, [pulls]: the text
    it returns, the row it stores for the repository, the summary it
    appends and what it prints and calls. *)
Definition cycle_text (s : world) (repo : string) (commits : list commit)
  (pulls : list pull) : string :=
  generated model (2 + fetch_tick s repo)
            (format_changes_for_ai commits pulls) repo.

Definition cycle_state (s : world) (repo : string) (commits : list commit)
  : string * string :=
  (match commits with
   | newest :: _ => sha newest
   | [] => last_sha_of (db s) repo
   end,
   Datetime.isoformat (utcnow E (3 + fetch_tick s repo))).

Definition cycle_row (s : world) (repo : string) (commits : list commit)
  (pulls : list pull) : summary_row :=
  SummaryRow (next_id (summaries (db s))) repo
             (cycle_text s repo commits pulls)
             (length commits + length pulls)
             (Datetime.isoformat (utcnow E (4 + fetch_tick s repo))).

Definition cycle_db (s : world) (repo : string) (commits : list commit)
  (pulls : list pull) : database :=
  Database (<[repo := cycle_state s repo commits]> (repo_states (db s)))
           (summaries (db s) ++ [cycle_row s repo commits pulls]).

Definition fetch_events (repo since : string) : list event :=
  [checking repo;
   HttpGet (commits_url repo) [("since", since)];
   HttpGet (pulls_url repo) pulls_params].

Definition cycle_events (s : world) (repo since : string)
  (commits : list commit) (pulls : list pull) : list event :=
  fetch_events repo since
  ++ [Print ("Found " +:+ Str.dec (Z.of_nat (length commits))
             +:+ " commits and " +:+ Str.dec (Z.of_nat (length pulls))
             +:+ " pull request updates");
      ChatCreate model
                 (summary_prompt (format_changes_for_ai commits pulls) repo);
      Print ("Generated summary for " +:+ repo +:+ ":");
      Print rule;
      Print (cycle_text s repo commits pulls);
      Print rule].

(** The world in which the loop of [check_all_repos] starts, and the one
    it leaves when the loop ended in [s]. *)
Definition loop_start (s : world) : world :=
  World (db s) (S (tick s))
        (trace s
         ++ [Print ("Starting repository check at "
                    +:+ Datetime.str (now E (tick s)))]).

Definition loop_end (s : world) : world :=
  World (db s) (S (tick s))
        (trace s
         ++ [Print ("Completed repository check at "
                    +:+ Datetime.str (now E (tick s)))]).

End Cycle.

(** [updated_at > last_check], as a boolean, where both parse and
    compare. *)
Definition updated_after (last_check_dt : Datetime.datetime) (pr : pull)
  : bool :=
  match parse_timestamp (updated_at pr) with
  | Ok updated =>
      match Datetime.gt updated last_check_dt with
      | Ok keep => keep
      | Raise _ => false
      end
  | Raise _ => false
  end.

(** Every stored summary records at least one change. *)
Definition positive_counts (d : database) : Prop :=
  Forall (fun row => (0 < changes_count row)%nat) (summaries d).

(** ** Concrete worlds

    Small worlds on which the statements below are exercised. *)

Module Examples.

Import Datetime.

Definition hello : string := "octocat/Hello-World".
Definition model : string := "gpt-4o-mini".

(** A UTC clock that advances one second per tick, from noon on
    2024-03-10. *)
Definition clock (t : nat) : datetime :=
  DT 2024 3 10 12 0 (Z.of_nat t) 0 None.

Definition fix_bug : commit :=
  Commit "abc123" ("Fix bug" +:+ Str.nl +:+ "more detail") "Alice"
         "2024-01-01T00:00:00Z".

Definition change (n : Z) (updated : string) : pull :=
  Pull "open" ("Change " +:+ Str.dec n) "bob" updated.

(** Six pull requests last updated in January 2020, newest first. *)
Definition stale_pulls : list pull :=
  [change 6 "2020-01-06T00:00:00Z"; change 5 "2020-01-05T00:00:00Z";
   change 4 "2020-01-04T00:00:00Z"; change 3 "2020-01-03T00:00:00Z";
   change 2 "2020-01-02T00:00:00Z"; change 1 "2020-01-01T00:00:00Z"].

(** Six pull requests updated in March 2024 and one in February, newest
    first. *)
Definition march_pulls : list pull :=
  [change 17 "2024-03-07T00:00:00Z"; change 16 "2024-03-06T00:00:00Z";
   change 15 "2024-03-05T00:00:00Z"; change 14 "2024-03-04T00:00:00Z";
   change 13 "2024-03-03T00:00:00Z"; change 12 "2024-03-02T00:00:00Z";
   change 11 "2024-02-01T00:00:00Z"].

(** A world whose endpoints always give the same answers. *)
Definition steady (commits : result (list commit))
  (pulls : result (list pull)) (chat : result string) : oracle :=
  Oracle clock clock (fun _ _ _ => commits) (fun _ _ _ => pulls)
         (fun _ _ _ => chat).

(** A world with one commit until tick 3 and none afterwards, and one
    pull request throughout. *)
Definition settling : oracle :=
  Oracle clock clock
         (fun t _ _ => if (t <? 3)%nat then Ok [fix_bug] else Ok [])
         (fun _ _ _ => Ok [change 1 "2024-03-09T00:00:00Z"])
         (fun _ _ _ => Ok "One fix by Alice.").

(** A world with one commit and one pull request, updated on 2024-03-11,
    at every call. *)
Definition busy : oracle :=
  Oracle clock clock
         (fun _ _ _ => Ok [fix_bug])
         (fun _ _ _ => Ok [change 2 "2024-03-11T00:00:00Z"])
         (fun _ _ _ => Ok "One fix by Alice.").

(** A world where one repository cannot be fetched. *)
Definition broken : string := "ghost/missing".
Definition partly_down : oracle :=
  Oracle clock clock
         (fun _ url _ =>
            if String.eqb url (commits_url broken)
            then Raise (RequestException "404 Client Error: Not Found")
            else Ok [fix_bug])
         (fun _ _ _ => Ok [])
         (fun _ _ _ => Ok "One fix by Alice.").

Definition fresh : world := World empty_database 0 [].

(** A database in which [hello] was checked on 2024-03-01, stored with
    an explicit UTC offset. *)
Definition checked_in_march : world :=
  World (Database {[ hello := ("abc123", "2024-03-01T00:00:00+00:00") ]} [])
        0 [].

End Examples.

(** ** Counting what a run does *)

(** The calls of the generation API in a trace. *)
Definition chat_calls (events : list event) : nat :=
  length (List.filter
            (fun ev => match ev with ChatCreate _ _ => true | _ => false end)
            events).

(** The requests to the hosting API in a trace, in order. *)
Definition http_calls (events : list event) : list string :=
  flat_map (fun ev => match ev with HttpGet url _ => [url] | _ => [] end)
           events.

(** The line an [except] clause of [check_repo_for_changes] prints. *)
Definition error_line (repo : string) (e : exn) : string :=
  match e with
  | RequestException d => "Error fetching data for " +:+ repo +:+ ": " +:+ d
  | _ => "Unexpected error for " +:+ repo +:+ ": " +:+ exn_str e
  end.

(** ** Timestamps as text

    Vocabulary for the timestamps the bot writes and reads. *)

(** [k] decimal digits of [n], the lowest last, in front of [acc]. *)
Fixpoint digits (k : nat) (n : Z) (acc : string) : string :=
  match k with
  | O => acc
  | S k' => digits k' (n / 10) (String (Str.digit_char (n mod 10)) acc)
  end.

(** A naive datetime read as UTC: what a timestamp of the hosting API,
    [...Z], parses to. *)
Definition as_utc (d : Datetime.datetime) : Datetime.datetime :=
  Datetime.DT (Datetime.year d) (Datetime.month d) (Datetime.day d)
    (Datetime.hour d) (Datetime.minute d) (Datetime.second d)
    (Datetime.microsecond d) (Some 0).

(** The exception of comparing a naive datetime with an aware one. *)
Definition naive_utc_mismatch : exn :=
  TypeError "can't compare offset-naive and offset-aware datetimes".

(** ** Listing the summaries *)

(** The dict [get_recent_summaries] makes of a row. *)
Record summary_entry := SummaryEntry {
  entry_repo_name : string;
  entry_summary : string;
  entry_changes_count : nat;
  entry_timestamp : string
}.

Definition entry_of (row : summary_row) : summary_entry :=
  SummaryEntry (row_repo_name row) (row_summary row) (changes_count row)
               (row_timestamp row).

(** [WHERE repo_name = ?], present when the argument is truthy. *)
Definition selected (repo_name : option string) (row : summary_row) : bool :=
  match repo_name with
  | Some name =>
      if Str.truthy name then String.eqb (row_repo_name row) name else true
  | None => true
  end.

(** [ORDER BY timestamp DESC] compares the texts byte by byte; rows with
    equal timestamps come in an order the engine chooses, here the order
    of the table. *)
Definition not_older (a b : summary_row) : bool :=
  String.leb (row_timestamp b) (row_timestamp a).

Fixpoint insert_row (row : summary_row) (sorted : list summary_row)
  : list summary_row :=
  match sorted with
  | [] => [row]
  | r :: rest =>
      if not_older row r then row :: sorted else r :: insert_row row rest
  end.

Definition order_by_timestamp_desc (rows : list summary_row)
  : list summary_row :=
  fold_right insert_row [] rows.

(** [LIMIT ?]: a negative limit is no limit. *)
Definition limited {A} (limit : Z) (rows : list A) : list A :=
  if limit <? 0 then rows else firstn (Z.to_nat limit) rows.

(** The Python integers [sqlite3] binds to a [?]: those of a signed
    64-bit SQLite [INTEGER]; [execute] raises [OverflowError] on the
    others. *)
Definition sqlite_integer (n : Z) : bool :=
  (- 2 ^ 63 <=? n) && (n <? 2 ^ 63).

Definition integer_overflow : exn :=
  OverflowError "Python int too large to convert to SQLite INTEGER".

(** [get_recent_summaries] *)
Definition get_recent_summaries (repo_name : option string) (limit : Z)
  : M (list summary_entry) :=
  let* d := get_db in
  if sqlite_integer limit then
    ret (map entry_of
             (limited limit
                (order_by_timestamp_desc
                   (List.filter (selected repo_name) (summaries d)))))
  else lift (Raise integer_overflow).

(** What the two queries of [get_recent_summaries] may return, whatever
    the engine does with equal timestamps: under a limit that binds, the
    selected rows in some order of descending timestamp, cut at the
    limit. *)
Definition listing (d : database) (repo_name : option string) (limit : Z)
  (result : list summary_entry) : Prop :=
  sqlite_integer limit = true
  /\ exists rows,
       Permutation rows (List.filter (selected repo_name) (summaries d))
       /\ StronglySorted (fun a b => not_older a b = true) rows
       /\ result = map entry_of (limited limit rows).

(** ** Construction and the command line

    [GitHubRepoBot()] and the commands of [cli.py] that need nothing but
    the bot: [check] and [summaries]. *)

(** The process environment, after [load_dotenv()]. *)
Definition environ := gmap string string.

Record bot := Bot {
  github_token : string;
  openai_api_key : string;
  openai_model : string;
  db_path : string;
  headers : list (string * string)
}.

(** [init_database]: [CREATE TABLE IF NOT EXISTS] makes the two tables
    when the file is new and leaves them alone otherwise.  The file is
    [None] as long as it does not exist. *)
Definition init_database (file : option database) : database :=
  match file with
  | Some d => d
  | None => empty_database
  end.

(** [GitHubRepoBot.__init__], on the environment and the database file. *)
Definition GitHubRepoBot (env : environ) (path : string)
  (file : option database) : result bot * option database :=
  let token := env !! "GITHUB_TOKEN" in
  let api_key := env !! "OPENAI_API_KEY" in
  let model := default "gpt-4o-mini" (env !! "OPENAI_MODEL") in
  if negb (truthy token) then
    (Raise (ValueError "GITHUB_TOKEN environment variable is required"), file)
  else if negb (truthy api_key) then
    (Raise (ValueError "OPENAI_API_KEY environment variable is required"),
     file)
  else
    (Ok (Bot (default "" token) (default "" api_key) model path
             [("Authorization", "token " +:+ default "" token);
              ("Accept", "application/vnd.github.v3+json")]),
     Some (init_database file)).

(** A run of the command line: the database file, the tick of the world
    and what was printed and called so far. *)
Record process := Process {
  file : option database;
  ticks : nat;
  events : list event
}.

(** How a command ends: it returns, or [sys.exit(status)]. *)
Inductive outcome :=
| Returned
| Exited (status : Z).

(** [except Exception as e: print(f"Error: {e}"); sys.exit(1)] *)
Definition exit_with_error (e : exn) (file : option database) (t : nat)
  (printed : list event) : outcome * process :=
  (Exited 1, Process file t (printed ++ [Print ("Error: " +:+ exn_str e)])).

(** ["=" * n] *)
Definition equals_rule (n : nat) : string := String.concat "" (repeat "=" n).

(** What [check_single] prints of the summary it got. *)
Definition summary_report (repo : string) (summary : option string)
  : list event :=
  if truthy summary then
    [Print (Str.nl +:+ "Summary for " +:+ repo +:+ ":");
     Print (equals_rule 50);
     Print (default "" summary)]
  else [Print ("No new changes found in " +:+ repo)].

(** [check_single] of [cli.py] *)
Definition check_single (E : oracle) (env : environ) (repo : string)
  (p : process) : outcome * process :=
  match GitHubRepoBot env "repo_summaries.db" (file p) with
  | (Raise e, f) => exit_with_error e f (ticks p) (events p)
  | (Ok b, f) =>
      match check_repo_for_changes E (openai_model b) repo
              (World (init_database f) (ticks p) (events p)) with
      | (Ok summary, s) =>
          (Returned,
           Process (Some (db s)) (tick s)
                   (trace s ++ summary_report repo summary))
      | (Raise e, s) => exit_with_error e (Some (db s)) (tick s) (trace s)
      end
  end.

(** The six lines [show_summaries] prints of an entry. *)
Definition entry_lines (e : summary_entry) : list event :=
  [Print (Str.nl +:+ equals_rule 60);
   Print ("Repository: " +:+ entry_repo_name e);
   Print ("Changes: " +:+ Str.dec (Z.of_nat (entry_changes_count e)));
   Print ("Date: " +:+ entry_timestamp e);
   Print (equals_rule 60);
   Print (entry_summary e)].

(** [show_summaries] of [cli.py] *)
Definition show_summaries (env : environ) (repo : option string) (limit : Z)
  (p : process) : outcome * process :=
  match GitHubRepoBot env "repo_summaries.db" (file p) with
  | (Raise e, f) => exit_with_error e f (ticks p) (events p)
  | (Ok b, f) =>
      match get_recent_summaries repo limit
              (World (init_database f) (ticks p) (events p)) with
      | (Ok [], s) =>
          let repo_msg :=
            if truthy repo then " for " +:+ default "" repo else "" in
          (Returned,
           Process (Some (db s)) (tick s)
                   (trace s ++ [Print ("No summaries found" +:+ repo_msg)]))
      | (Ok entries, s) =>
          (Returned,
           Process (Some (db s)) (tick s)
                   (trace s ++ flat_map entry_lines entries))
      | (Raise e, s) => exit_with_error e (Some (db s)) (tick s) (trace s)
      end
  end.

(** The name of the first credential the environment lacks. *)
Definition missing_credential (env : environ) : option string :=
  if negb (truthy (env !! "GITHUB_TOKEN")) then Some "GITHUB_TOKEN"
  else if negb (truthy (env !! "OPENAI_API_KEY")) then Some "OPENAI_API_KEY"
  else None.

(** ** Configuration

    [check_all] and [init_config] of [cli.py]. *)


(** [args.config or "repos.json"] *)
Definition config_path (arg : option string) : string :=
  if truthy arg then default "" arg else "repos.json".


(** The double quote. *)
Definition dq : string := String "034" "".

(** [json.dump(sample_config, f, indent=2)] *)
Definition sample_config_text : string :=
  String.concat Str.nl
    ["{";
     "  " +:+ dq +:+ "repositories" +:+ dq +:+ ": [";
     "    " +:+ dq +:+ "microsoft/vscode" +:+ dq +:+ ",";
     "    " +:+ dq +:+ "facebook/react" +:+ dq;
     "  ],";
     "  " +:+ dq +:+ "schedule_hours" +:+ dq +:+ ": [";
     "    9,";
     "    17";
     "  ],";
     "  " +:+ dq +:+ "timezone" +:+ dq +:+ ": " +:+ dq +:+ "UTC" +:+ dq;
     "}"].

(** The working directory as [init_config] meets it: the paths at which
    [os.path.exists] answers yes, the text of the files that can be opened
    and read, and the paths at which [open(path, "w")] can make a file
    (the directory is there and can be written to). *)
Record filesystem := Filesystem {
  present : gset string;
  readable : gmap string string;
  creatable : string -> bool
}.

(** [open(path, "w")] and the write, at a path where nothing is: [None]
    when [open] raises. *)
Definition create (path content : string) (fs : filesystem)
  : option filesystem :=
  if creatable fs path then
    Some (Filesystem ({[ path ]} ∪ present fs)
                     (<[path := content]> (readable fs))
                     (creatable fs))
  else None.

(** [init_config].  Nothing catches what [open] raises, on reading
    [.env.example] or on making either file: the command then ends with
    status 1, having printed and written what it had until then. *)
Definition init_config (arg : option string) (fs : filesystem)
  : outcome * filesystem * list event :=
  let config_file := config_path arg in
  let env_file := ".env" in
  match
    (if decide (env_file ∈ present fs) then Some (fs, [])
     else
       match readable fs !! ".env.example" with
       | None => None
       | Some content =>
           match create env_file content fs with
           | None => None
           | Some fs1 =>
               Some (fs1,
                     [Print ("Created " +:+ env_file
                             +:+ " - please edit it to add your GitHub token")])
           end
       end)
  with
  | None => (Exited 1, fs, [])
  | Some (fs1, created_env) =>
      if decide (config_file ∈ present fs1) then
        (Returned, fs1, created_env ++ [Print "Configuration files ready!"])
      else
        match create config_file sample_config_text fs1 with
        | None => (Exited 1, fs1, created_env)
        | Some fs2 =>
            (Returned, fs2,
             created_env
             ++ [Print ("Created " +:+ config_file
                        +:+ " - please edit it to add your repositories");
                 Print "Configuration files ready!"])
        end
  end.

(** * Properties *)

(** ** The calendar *)

Module DatetimeFacts.

Import Datetime.

Lemma is_leap_spec y :
  is_leap y = true <-> y mod 4 = 0 /\ (y mod 100 <> 0 \/ y mod 400 = 0).
Proof.
  unfold is_leap.
  rewrite andb_true_iff, orb_true_iff, negb_true_iff, !Z.eqb_eq, Z.eqb_neq.
  tauto.
Qed.

(** The cycles [_ord2ymd] splits a day count into. *)
Lemma ord_decomposition n :
  0 <= n ->
  let n400 := n / DI400Y in
  let r400 := n mod DI400Y in
  let n100 := r400 / DI100Y in
  let r100 := r400 mod DI100Y in
  let n4 := r100 / DI4Y in
  let r4 := r100 mod DI4Y in
  let n1 := r4 / 365 in
  let r1 := r4 mod 365 in
  n = 146097 * n400 + 36524 * n100 + 1461 * n4 + 365 * n1 + r1
  /\ 0 <= n400 /\ 0 <= n100 <= 4 /\ 0 <= n4 <= 24 /\ 0 <= n1 <= 4
  /\ 0 <= r1 < 365
  /\ (n100 = 4 -> n4 = 0 /\ n1 = 0 /\ r1 = 0)
  /\ (n1 = 4 -> r1 = 0 /\ (n4 = 24 -> n100 = 3 -> False))
  /\ (n4 = 24 -> n1 = 4 -> False).
Proof.
  intros Hn. unfold DI400Y, DI100Y, DI4Y. cbv zeta.
  Z.div_mod_to_equations. lia.
Qed.

(** [_ymd2ord] undoes [_ord2ymd], and the date found is one the
    [datetime] constructor accepts. *)
Lemma ord2ymd_spec n :
  1 <= n <= MAXORDINAL ->
  let '(y, m, d) := ord2ymd n in
  ymd2ord y m d = n /\ check_date_fields y m d = true.
Proof.
  intros Hn. unfold ord2ymd.
  assert (H0 : 0 <= n - 1) by lia.
  pose proof (ord_decomposition (n - 1) H0) as D. cbv zeta in D |- *.
  set (n400 := (n - 1) / DI400Y) in *.
  set (r400 := (n - 1) mod DI400Y) in *.
  set (n100 := r400 / DI100Y) in *. set (r100 := r400 mod DI100Y) in *.
  set (n4 := r100 / DI4Y) in *. set (r4 := r100 mod DI4Y) in *.
  set (n1 := r4 / 365) in *. set (r1 := r4 mod 365) in *.
  clearbody n400 r400 n100 r100 n4 r4 n1 r1. clear r400 r100 r4.
  destruct D as (Dn & Hq & H100 & H4 & H1 & Hr & S100 & S1 & S4).
  unfold MAXORDINAL in Hn.
  unfold check_date_fields, days_in_month, MINYEAR, MAXYEAR.
  destruct ((n1 =? 4) || (n100 =? 4)) eqn:Hsp.
  - unfold ymd2ord, days_before_year, days_before_month.
    assert (Hl : is_leap (n400 * 400 + 1 + n100 * 100 + n4 * 4 + n1 - 1) = true).
    { apply is_leap_spec.
      apply orb_true_iff in Hsp.
      destruct Hsp as [Hsp|Hsp]; apply Z.eqb_eq in Hsp.
      - destruct (S1 Hsp). Z.div_mod_to_equations; lia.
      - destruct (S100 Hsp) as (? & ? & ?). Z.div_mod_to_equations; lia. }
    rewrite Hl. cbn [DAYS_BEFORE_MONTH DAYS_IN_MONTH Z.ltb Z.eqb Z.compare
                      Pos.compare Pos.compare_cont Pos.eqb andb].
    apply orb_true_iff in Hsp.
    split.
    + destruct Hsp as [Hsp|Hsp]; apply Z.eqb_eq in Hsp.
      * destruct (S1 Hsp). Z.div_mod_to_equations; lia.
      * destruct (S100 Hsp) as (? & ? & ?). Z.div_mod_to_equations; lia.
    + rewrite !andb_true_iff, !Z.leb_le.
      destruct Hsp as [Hsp|Hsp]; apply Z.eqb_eq in Hsp.
      * destruct (S1 Hsp). lia.
      * destruct (S100 Hsp) as (? & ? & ?). lia.
  - apply orb_false_iff in Hsp. destruct Hsp as [N1 N100].
    apply Z.eqb_neq in N1, N100.
    set (y := n400 * 400 + 1 + n100 * 100 + n4 * 4 + n1).
    set (leapyear := (n1 =? 3) && (negb (n4 =? 24) || (n100 =? 3))).
    assert (Hleap : is_leap y = leapyear).
    { unfold leapyear, y. apply eq_true_iff_eq. rewrite is_leap_spec.
      rewrite andb_true_iff, orb_true_iff, negb_true_iff, !Z.eqb_eq, Z.eqb_neq.
      Z.div_mod_to_equations. lia. }
    assert (Hy : days_before_year y = (n - 1) - r1).
    { unfold days_before_year, y. Z.div_mod_to_equations. lia. }
    assert (Hyr : 1 <= y <= 9999) by (unfold y; lia).
    rewrite Z.shiftr_div_pow2 by lia. change (2 ^ 5) with 32.
    assert (Hm : 1 <= (r1 + 50) / 32 <= 12) by (Z.div_mod_to_equations; lia).
    set (m := (r1 + 50) / 32) in *.
    assert (Hmr : 32 * m <= r1 + 50 < 32 * m + 32)
      by (unfold m; Z.div_mod_to_equations; lia).
    clearbody m.
    assert (Hcases : m = 1 \/ m = 2 \/ m = 3 \/ m = 4 \/ m = 5 \/ m = 6
                     \/ m = 7 \/ m = 8 \/ m = 9 \/ m = 10 \/ m = 11 \/ m = 12)
      by lia.
    unfold ymd2ord, days_before_month.
    clearbody y.
    destruct leapyear;
      repeat (destruct Hcases as [->|Hcases]); try subst m; simpl;
      match goal with |- context [ ?a <? ?b ] => destruct (Z.ltb_spec a b) end;
      simpl; rewrite ?Hleap, ?Hy; simpl;
      (split; [lia | rewrite !andb_true_iff, !Z.leb_le; lia]).
Qed.

(** A valid date has an ordinal in range. *)
Lemma ymd2ord_bounds y m d :
  check_date_fields y m d = true -> 1 <= ymd2ord y m d <= MAXORDINAL.
Proof.
  unfold check_date_fields, days_in_month, MINYEAR, MAXYEAR.
  rewrite !andb_true_iff, !Z.leb_le.
  intros (((((Hy1 & Hy2) & Hm1) & Hm2) & Hd1) & Hd2).
  unfold ymd2ord, days_before_year, days_before_month, MAXORDINAL.
  assert (Hcases : m = 1 \/ m = 2 \/ m = 3 \/ m = 4 \/ m = 5 \/ m = 6
                   \/ m = 7 \/ m = 8 \/ m = 9 \/ m = 10 \/ m = 11 \/ m = 12)
    by lia.
  destruct (is_leap y) eqn:Hl;
    [ apply is_leap_spec in Hl | ];
    repeat (destruct Hcases as [->|Hcases]); try subst m;
    simpl in Hd2 |- *; Z.div_mod_to_equations; lia.
Qed.

(** Subtracting whole days moves the wall clock back by exactly that
    much and keeps the datetime valid and as aware as it was. *)
Lemma sub_days_spec d n :
  valid d = true -> 0 <= n -> n < toordinal d ->
  exists d',
    sub_days d n = Ok d'
    /\ wall_us d' = wall_us d - n * US_PER_DAY
    /\ valid d' = true
    /\ tzinfo d' = tzinfo d.
Proof.
  unfold valid. rewrite andb_true_iff. intros [Hdate Htime] Hn Hlt.
  pose proof (ymd2ord_bounds _ _ _ Hdate) as Hord.
  fold (toordinal d) in Hord.
  unfold check_time_fields in Htime.
  rewrite !andb_true_iff, !Z.leb_le in Htime.
  destruct Htime as (((((((Hh1 & Hh2) & Hm1) & Hm2) & Hs1) & Hs2) & Hu1) & Hu2).
  unfold sub_days.
  set (secs := hour d * 3600 + minute d * 60 + second d).
  assert (Hsecs : 0 <= secs < 86400) by (unfold secs; lia).
  assert (Htotal : wall_us d - n * US_PER_DAY
                   = (toordinal d - n) * US_PER_DAY
                     + (secs * US_PER_SECOND + microsecond d)).
  { unfold wall_us, US_PER_DAY, US_PER_SECOND, secs. lia. }
  rewrite Htotal.
  assert (Hrest : 0 <= secs * US_PER_SECOND + microsecond d < US_PER_DAY)
    by (unfold US_PER_DAY, US_PER_SECOND; lia).
  assert (Hdiv : ((toordinal d - n) * US_PER_DAY
                  + (secs * US_PER_SECOND + microsecond d)) / US_PER_DAY
                 = toordinal d - n).
  { symmetry. apply Z.div_unique with (r := secs * US_PER_SECOND + microsecond d);
      [left; exact Hrest | ring]. }
  assert (Hmod : ((toordinal d - n) * US_PER_DAY
                  + (secs * US_PER_SECOND + microsecond d)) mod US_PER_DAY
                 = secs * US_PER_SECOND + microsecond d).
  { symmetry. apply Z.mod_unique with (q := toordinal d - n);
      [left; exact Hrest | ring]. }
  rewrite Hdiv, Hmod.
  assert (Hq : (secs * US_PER_SECOND + microsecond d) / US_PER_SECOND = secs).
  { unfold US_PER_SECOND. Z.div_mod_to_equations. lia. }
  assert (Hr : (secs * US_PER_SECOND + microsecond d) mod US_PER_SECOND
               = microsecond d).
  { unfold US_PER_SECOND. Z.div_mod_to_equations. lia. }
  rewrite Hq, Hr.
  assert (Hin : 1 <= toordinal d - n <= MAXORDINAL) by lia.
  replace ((0 <? toordinal d - n) && (toordinal d - n <=? MAXORDINAL))
    with true
    by (symmetry; apply andb_true_iff; split;
        [apply Z.ltb_lt | apply Z.leb_le]; lia).
  pose proof (ord2ymd_spec _ Hin) as Hspec.
  destruct (ord2ymd (toordinal d - n)) as [[y m] dd].
  destruct Hspec as [Hback Hfields].
  eexists. split; [reflexivity|].
  assert (Hh : secs / 3600 = hour d) by (unfold secs; Z.div_mod_to_equations; lia).
  assert (Hmi : secs mod 3600 / 60 = minute d)
    by (unfold secs; Z.div_mod_to_equations; lia).
  assert (Hs : secs mod 60 = second d)
    by (unfold secs; Z.div_mod_to_equations; lia).
  rewrite Hh, Hmi, Hs.
  split; [|split; [|reflexivity]].
  - unfold wall_us, toordinal. cbn [year month day hour minute second microsecond].
    rewrite Hback. fold (toordinal d).
    unfold US_PER_DAY, US_PER_SECOND, secs. lia.
  - unfold valid. cbn [year month day hour minute second microsecond].
    rewrite Hfields. unfold check_time_fields.
    rewrite !andb_true_iff, !Z.leb_le. lia.
Qed.

End DatetimeFacts.

(** ** One check cycle, step by step *)

Section CycleFacts.

Variable E : oracle.
Variable model : string.

Lemma truthy_append a c b : Str.truthy (a +:+ String c b) = true.
Proof. destruct a; reflexivity. Qed.

Lemma isoformat_truthy d : Str.truthy (Datetime.isoformat d) = true.
Proof.
  unfold Datetime.isoformat, Datetime.isoformat_sep. apply truthy_append.
Qed.

Lemma since_param_truthy s repo since :
  since_param E s repo = Ok since -> Str.truthy since = true.
Proof.
  unfold since_param. intros H.
  destruct (last_check_of (db s) repo) as [text|].
  - destruct (Str.truthy text) eqn:T; [congruence|].
    destruct (Datetime.sub_days _ _); inversion H. apply isoformat_truthy.
  - destruct (Datetime.sub_days _ _); inversion H. apply isoformat_truthy.
Qed.

Ltac run :=
  unfold check_repo_body, get_repo_commits, get_repo_pulls,
    get_last_check_time, generate_summary, update_repo_state,
    touch_repo_state, save_summary, print, emit, ask, get_db, put_db,
    lift, ret, bind;
  cbn [db tick trace repo_states summaries].

Ltac tidy :=
  cbn [db tick trace repo_states summaries];
  repeat rewrite <- app_assoc; cbn [app]; reflexivity.

(** The [try] block, spelled out on the answers of the world. *)
Lemma body_run s repo :
  check_repo_body E model repo s =
  let ft := fetch_tick s repo in
  match since_param E s repo with
  | Raise e => (Raise e, World (db s) (S (tick s)) (trace s ++ [checking repo]))
  | Ok since =>
      match commits_json E ft (commits_url repo) [("since", since)] with
      | Raise e =>
          (Raise e,
           World (db s) (S ft)
                 (trace s
                  ++ [checking repo;
                      HttpGet (commits_url repo) [("since", since)]]))
      | Ok commits =>
          match pulls_json E (S ft) (pulls_url repo) pulls_params with
          | Raise e =>
              (Raise e,
               World (db s) (S (S ft)) (trace s ++ fetch_events repo since))
          | Ok fetched_pulls =>
              match filter_pulls (last_check_of (db s) repo) fetched_pulls with
              | Raise e =>
                  (Raise e,
                   World (db s) (S (S ft)) (trace s ++ fetch_events repo since))
              | Ok pulls =>
                  if (length commits + length pulls =? 0)%nat then
                    (Ok None,
                     World (db s) (S (S ft))
                           (trace s
                            ++ fetch_events repo since
                            ++ [Print ("No new changes found for " +:+ repo)]))
                  else
                    (Ok (Some (cycle_text E model s repo commits pulls)),
                     World (cycle_db E model s repo commits pulls)
                           (5 + ft)
                           (trace s
                            ++ cycle_events E model s repo since commits pulls))
              end
          end
      end
  end.
Proof.
  cbv zeta.
  unfold cycle_text, cycle_db, cycle_row, cycle_state, cycle_events,
    fetch_events, cycle_text.
  unfold since_param, fetch_tick, generated, last_sha_of, checking. run.
  fold (last_check_of (db s) repo) (commits_url repo) (pulls_url repo)
    pulls_params.
  destruct (last_check_of (db s) repo) as [text|];
    cbn [truthy default from_option id];
    [destruct (Str.truthy text) eqn:Ht|];
    [ | destruct (Datetime.sub_days _ _) as [since|e] eqn:Hsub; [|reflexivity]
      | destruct (Datetime.sub_days _ _) as [since|e] eqn:Hsub; [|reflexivity] ];
    cbn [db tick trace]; rewrite ?Ht, ?isoformat_truthy;
    (destruct (commits_json E _ _ _) as [commits|e1]; [|tidy]);
    (destruct (pulls_json E _ _ _) as [fetched_pulls|e2]; [|tidy]);
    (destruct (filter_pulls _ _) as [pulls|e3]; [|tidy]);
    (destruct (length commits + length pulls =? 0)%nat; [tidy|]);
    cbn [db tick trace Nat.add];
    (destruct (chat_completion E _ model _) as [content|e4]);
    cbn [db tick trace]; destruct commits as [|newest rest];
    cbn [db tick trace repo_states summaries]; tidy.
Qed.

(** The two [except] clauses: whatever the body raises, the call prints
    one line and returns [None]. *)
Lemma check_of_raise s repo e s' :
  check_repo_body E model repo s = (Raise e, s') ->
  exists line,
    check_repo_for_changes E model repo s
    = (Ok None, World (db s') (tick s') (trace s' ++ [Print line])).
Proof.
  intros H. unfold check_repo_for_changes. rewrite H.
  destruct e; eexists; reflexivity.
Qed.

Lemma check_of_ok s repo r s' :
  check_repo_body E model repo s = (Ok r, s') ->
  check_repo_for_changes E model repo s = (Ok r, s').
Proof. intros H. unfold check_repo_for_changes. rewrite H. reflexivity. Qed.

(** Nothing is written before the last point at which the body can
    raise. *)
Lemma body_raise_frame s repo e s' :
  check_repo_body E model repo s = (Raise e, s') ->
  db s' = db s /\ exists more, trace s' = trace s ++ checking repo :: more.
Proof.
  rewrite body_run. cbv zeta. unfold fetch_events.
  destruct (since_param E s repo) as [since|e0].
  2:{ intros H. inversion H. split; [reflexivity|]. exists []. reflexivity. }
  destruct (commits_json E _ _ _) as [commits|e1].
  2:{ intros H. inversion H. split; [reflexivity|]. eexists. reflexivity. }
  destruct (pulls_json E _ _ _) as [fetched_pulls|e2].
  2:{ intros H. inversion H. split; [reflexivity|]. eexists. reflexivity. }
  destruct (filter_pulls _ _) as [pulls|e3].
  2:{ intros H. inversion H. split; [reflexivity|]. eexists. reflexivity. }
  destruct (length commits + length pulls =? 0)%nat; intros H; inversion H.
Qed.

(** A cycle that finds changes. *)
Lemma check_found s repo commits fetched_pulls pulls :
  fetched E s repo commits fetched_pulls ->
  filter_pulls (last_check_of (db s) repo) fetched_pulls = Ok pulls ->
  (0 < length commits + length pulls)%nat ->
  exists since,
    since_param E s repo = Ok since
    /\ check_repo_for_changes E model repo s
       = (Ok (Some (cycle_text E model s repo commits pulls)),
          World (cycle_db E model s repo commits pulls)
                (5 + fetch_tick s repo)
                (trace s ++ cycle_events E model s repo since commits pulls)).
Proof.
  intros (since & Hs & Hc & Hp) Hf Hpos.
  exists since. split; [exact Hs|].
  apply check_of_ok. rewrite body_run. cbv zeta.
  rewrite Hs, Hc, Hp, Hf.
  destruct (Nat.eqb_spec (length commits + length pulls) 0); [lia|reflexivity].
Qed.

(** A cycle that finds nothing. *)
Lemma check_quiet s repo fetched_pulls :
  fetched E s repo [] fetched_pulls ->
  filter_pulls (last_check_of (db s) repo) fetched_pulls = Ok [] ->
  exists since,
    since_param E s repo = Ok since
    /\ check_repo_for_changes E model repo s
       = (Ok None,
          World (db s) (2 + fetch_tick s repo)
                (trace s
                 ++ fetch_events repo since
                 ++ [Print ("No new changes found for " +:+ repo)])).
Proof.
  intros (since & Hs & Hc & Hp) Hf.
  exists since. split; [exact Hs|].
  apply check_of_ok. rewrite body_run. cbv zeta.
  rewrite Hs, Hc, Hp, Hf. reflexivity.
Qed.

(** Every call returns; it either leaves the database alone and returns
    [None], or records one cycle with at least one change. *)
Lemma check_cases s repo :
  exists r s',
    check_repo_for_changes E model repo s = (Ok r, s')
    /\ (exists more, trace s' = trace s ++ checking repo :: more)
    /\ ((r = None /\ db s' = db s)
        \/ (exists commits pulls,
               (0 < length commits + length pulls)%nat
               /\ r = Some (cycle_text E model s repo commits pulls)
               /\ db s' = cycle_db E model s repo commits pulls)).
Proof.
  destruct (check_repo_body E model repo s) as [[r|e] s'] eqn:Hbody.
  - exists r, s'. split; [apply check_of_ok; exact Hbody|].
    revert Hbody. rewrite body_run. cbv zeta. unfold cycle_events, fetch_events.
    destruct (since_param E s repo) as [since|e0]; [|discriminate].
    destruct (commits_json E _ _ _) as [commits|e1]; [|discriminate].
    destruct (pulls_json E _ _ _) as [fetched_pulls|e2]; [|discriminate].
    destruct (filter_pulls _ _) as [pulls|e3]; [|discriminate].
    destruct (Nat.eqb_spec (length commits + length pulls) 0) as [Hz|Hnz];
      intros H; inversion H; subst; cbn [db trace].
    + split; [eexists; reflexivity|]. left. split; reflexivity.
    + split; [eexists; reflexivity|]. right.
      exists commits, pulls. repeat split. lia.
  - destruct (check_of_raise _ _ _ _ Hbody) as [line Hcheck].
    destruct (body_raise_frame _ _ _ _ Hbody) as [Hdb [more Htr]].
    eexists _, _. split; [exact Hcheck|]. cbn [db trace]. split.
    + exists (more ++ [Print line]). rewrite Htr, <- app_assoc. reflexivity.
    + left. split; [reflexivity|exact Hdb].
Qed.

(** No cycle stores a summary without a change. *)
Lemma check_positive s repo :
  positive_counts (db s) ->
  positive_counts (db (snd (check_repo_for_changes E model repo s))).
Proof.
  intros Hpos.
  destruct (check_cases s repo) as (r & s' & Hrun & _ & Hdb).
  rewrite Hrun. cbn [snd].
  destruct Hdb as [[_ ->]|(commits & pulls & Hn & _ & ->)]; [exact Hpos|].
  unfold positive_counts, cycle_db. cbn [summaries].
  apply Forall_app. split; [exact Hpos|].
  constructor; [exact Hn|constructor].
Qed.

(** *** The batch *)

Lemma check_each_cons repo rest s :
  check_each E model (repo :: rest) s
  = check_each E model rest (snd (check_repo_for_changes E model repo s)).
Proof.
  destruct (check_cases s repo) as (r & s' & Hrun & _).
  cbn [check_each]. unfold bind. rewrite Hrun. reflexivity.
Qed.

(** The loop never stops early: it ends normally, having announced every
    repository in list order, and keeps the counts positive. *)
Lemma check_each_run repo_list : forall s,
  exists s',
    check_each E model repo_list s = (Ok tt, s')
    /\ (exists added,
           trace s' = trace s ++ added
           /\ sublist (map checking repo_list) added)
    /\ (positive_counts (db s) -> positive_counts (db s')).
Proof.
  induction repo_list as [|repo rest IH]; intros s.
  - exists s. split; [reflexivity|]. split; [|tauto].
    exists []. split; [symmetry; apply app_nil_r|constructor].
  - rewrite check_each_cons.
    pose proof (check_positive s repo) as Hpos.
    destruct (check_cases s repo) as (r & s1 & Hrun & [more Htr] & _).
    rewrite Hrun in *. cbn [snd] in *.
    destruct (IH s1) as (s' & Hloop & (added & Hadd & Hsub) & Hinv).
    exists s'. split; [exact Hloop|]. split; [|tauto].
    exists (checking repo :: more ++ added). split.
    + rewrite Hadd, Htr, <- app_assoc. reflexivity.
    + cbn [map]. apply sublist_skip. apply sublist_inserts_l. exact Hsub.
Qed.

Lemma check_each_app before after s :
  check_each E model (before ++ after) s
  = check_each E model after (snd (check_each E model before s)).
Proof.
  revert s. induction before as [|repo rest IH]; intros s.
  - reflexivity.
  - cbn [app]. rewrite !check_each_cons. apply IH.
Qed.

(** [check_all_repos] is the loop between its two banners. *)
Lemma check_all_repos_run repo_list s :
  check_all_repos E model repo_list s
  = (Ok tt,
     loop_end E (snd (check_each E model repo_list (loop_start E s)))).
Proof.
  unfold check_all_repos, bind, ask, print, emit, loop_start, loop_end.
  cbn [db tick trace].
  destruct (check_each_run repo_list
              (World (db s) (S (tick s))
                 (trace s
                  ++ [Print ("Starting repository check at "
                             +:+ Datetime.str (now E (tick s)))])))
    as (s' & Hloop & _).
  rewrite Hloop. reflexivity.
Qed.

End CycleFacts.

(** ** The watermark filter *)

Lemma pulls_updated_after_filter last_check_dt pulls kept :
  pulls_updated_after last_check_dt pulls = Ok kept ->
  kept = List.filter (updated_after last_check_dt) pulls.
Proof.
  revert kept. induction pulls as [|pr rest IH]; intros kept; cbn.
  - intros H. inversion H. reflexivity.
  - unfold updated_after.
    destruct (parse_timestamp (updated_at pr)) as [updated|e]; [|discriminate].
    destruct (Datetime.gt updated last_check_dt) as [keep|e]; [|discriminate].
    destruct (pulls_updated_after last_check_dt rest) as [rest'|e];
      [|discriminate].
    intros H. inversion H. rewrite (IH rest' eq_refl).
    destruct keep; reflexivity.
Qed.

Lemma filter_pulls_stored text pulls kept :
  Str.truthy text = true ->
  filter_pulls (Some text) pulls = Ok kept ->
  exists last_check_dt,
    parse_timestamp text = Ok last_check_dt
    /\ kept = List.filter (updated_after last_check_dt) pulls.
Proof.
  intros Ht. unfold filter_pulls. rewrite Ht.
  destruct (parse_timestamp text) as [last_check_dt|e]; [|discriminate].
  intros H. exists last_check_dt. split; [reflexivity|].
  apply pulls_updated_after_filter. exact H.
Qed.

Lemma filter_nothing_kept {A} (f : A -> bool) (l : list A) :
  (forall x, In x l -> f x = false) -> List.filter f l = [].
Proof.
  induction l as [|x l IH]; intros H; cbn; [reflexivity|].
  rewrite (H x (or_introl eq_refl)). apply IH.
  intros y Hy. apply H. right. exact Hy.
Qed.

(** ** The claims *)

(** C8. [format_changes_for_ai] on the single commit with message
    "Fix bug\nmore detail" by Alice, dated 2024-01-01T00:00:00Z, and no pull
    request returns exactly the header line followed by one line for the
    commit, made of the first line of its message; there is no pull-request
    section.  The SHA plays no part. *)
Theorem format_single_commit_scenario (any_sha : string) :
  format_changes_for_ai
    [Commit any_sha ("Fix bug" +:+ Str.nl +:+ "more detail") "Alice"
            "2024-01-01T00:00:00Z"]
    []
  = "Recent Commits:" +:+ Str.nl
    +:+ "- Fix bug (by Alice on 2024-01-01T00:00:00Z)".
Proof. reflexivity. Qed.

(** Where the filter raises nothing.  When the two fetches succeed and the
    filter leaves a non-empty change set, the check appends exactly one
    summary row, for this repository, holding the returned text and a
    [changes_count] equal to the number of commits fetched plus the number
    of pull requests kept.  Hence a database whose rows all have a positive
    count keeps that property through this cycle, through any cycle and
    through any batch. *)
Theorem nonempty_check_appends_one_summary
  (E : oracle) (model : string) (s : world) (repo : string)
  (commits : list commit) (fetched_pulls pulls : list pull) :
  fetched E s repo commits fetched_pulls ->
  filter_pulls (last_check_of (db s) repo) fetched_pulls = Ok pulls ->
  (0 < length commits + length pulls)%nat ->
  exists text s' row,
    check_repo_for_changes E model repo s = (Ok (Some text), s')
    /\ summaries (db s') = summaries (db s) ++ [row]
    /\ row_repo_name row = repo
    /\ row_summary row = text
    /\ changes_count row = (length commits + length pulls)%nat
    /\ (positive_counts (db s) -> positive_counts (db s'))
    /\ (forall repo0 s0,
           positive_counts (db s0) ->
           positive_counts (db (snd (check_repo_for_changes E model repo0 s0))))
    /\ (forall repo_list s0,
           positive_counts (db s0) ->
           positive_counts (db (snd (check_all_repos E model repo_list s0)))).
Proof.
  intros Hfetch Hfilter Hpos.
  destruct (check_found E model s repo commits fetched_pulls pulls
              Hfetch Hfilter Hpos) as (since & _ & Hrun).
  exists (cycle_text E model s repo commits pulls).
  eexists. exists (cycle_row E model s repo commits pulls).
  split; [exact Hrun|]. cbn [db summaries cycle_db].
  repeat split.
  - intros Hinv. unfold positive_counts, cycle_db. cbn [summaries].
    apply Forall_app. split; [exact Hinv|].
    constructor; [exact Hpos|constructor].
  - intros repo0 s0. apply check_positive.
  - intros repo_list s0 Hinv. rewrite check_all_repos_run. cbn [snd loop_end db].
    destruct (check_each_run E model repo_list (loop_start E s0))
      as (s' & Hloop & _ & Hkeep).
    rewrite Hloop. cbn [snd]. apply Hkeep. exact Hinv.
Qed.

Lemma nonempty_check_appends_one_summary_witness :
  let E := Examples.steady (Ok [Examples.fix_bug]) (Ok Examples.stale_pulls)
                           (Ok "One fix and six stale pull requests.") in
  fetched E Examples.fresh Examples.hello [Examples.fix_bug] Examples.stale_pulls
  /\ filter_pulls (last_check_of (db Examples.fresh) Examples.hello)
                  Examples.stale_pulls = Ok Examples.stale_pulls
  /\ exists text s' row,
       check_repo_for_changes E Examples.model Examples.hello Examples.fresh
       = (Ok (Some text), s')
       /\ summaries (db s') = summaries (db Examples.fresh) ++ [row]
       /\ changes_count row = 7%nat.
Proof.
  intros E.
  assert (Hfetch : fetched E Examples.fresh Examples.hello
                           [Examples.fix_bug] Examples.stale_pulls).
  { eexists. repeat split; vm_compute; reflexivity. }
  assert (Hfilter : filter_pulls
                      (last_check_of (db Examples.fresh) Examples.hello)
                      Examples.stale_pulls = Ok Examples.stale_pulls).
  { reflexivity. }
  split; [exact Hfetch|]. split; [exact Hfilter|].
  destruct (nonempty_check_appends_one_summary
              E Examples.model Examples.fresh Examples.hello
              [Examples.fix_bug] Examples.stale_pulls Examples.stale_pulls
              Hfetch Hfilter ltac:(cbn; lia))
    as (text & s' & row & Hrun & Hrows & _ & _ & Hcount & _).
  exists text, s', row. repeat split; assumption.
Defined.

(** C1, on the code.  The change set of the second check below is not
    empty, the commits request answers with one commit, and yet the check
    appends nothing.  The watermark the first check stored is the text of a
    naive clock reading, the pull request listed is stamped in UTC, and
    comparing the two raises in the filter: the check returns [None] and
    both tables are those the first check left. *)
Theorem nonempty_check_after_summary_appends_nothing :
  let s1 := snd (check_repo_for_changes Examples.busy Examples.model
                                        Examples.hello Examples.fresh) in
  let second := check_repo_for_changes Examples.busy Examples.model
                                       Examples.hello s1 in
  fetched Examples.busy s1 Examples.hello [Examples.fix_bug]
          [Examples.change 2 "2024-03-11T00:00:00Z"]
  /\ (0 < length [Examples.fix_bug])%nat
  /\ fst second = Ok None
  /\ summaries (db (snd second)) = summaries (db s1)
  /\ repo_states (db (snd second)) = repo_states (db s1)
  /\ map changes_count (summaries (db s1)) = [2%nat].
Proof.
  cbv zeta. split; [eexists; repeat split; vm_compute; reflexivity|].
  repeat split; vm_compute; reflexivity || lia.
Qed.

(** C2. When no commit is fetched and no pull request survives the
    filter, the check returns [None] and the database, both tables, is what
    it was. *)
Theorem empty_check_writes_nothing
  (E : oracle) (model : string) (s : world) (repo : string)
  (fetched_pulls : list pull) :
  fetched E s repo [] fetched_pulls ->
  filter_pulls (last_check_of (db s) repo) fetched_pulls = Ok [] ->
  exists s',
    check_repo_for_changes E model repo s = (Ok None, s')
    /\ db s' = db s
    /\ repo_states (db s') = repo_states (db s)
    /\ summaries (db s') = summaries (db s).
Proof.
  intros Hfetch Hfilter.
  destruct (check_quiet E model s repo fetched_pulls Hfetch Hfilter)
    as (since & _ & Hrun).
  eexists. split; [exact Hrun|]. repeat split.
Qed.

Lemma empty_check_writes_nothing_witness :
  let E := Examples.steady (Ok []) (Ok Examples.march_pulls) (Ok "unused") in
  let s := World (Database {[ Examples.hello :=
                                ("abc123", "2024-03-08T00:00:00+00:00") ]} [])
                 0 [] in
  fetched E s Examples.hello [] Examples.march_pulls
  /\ filter_pulls (last_check_of (db s) Examples.hello) Examples.march_pulls
     = Ok []
  /\ exists s',
       check_repo_for_changes E Examples.model Examples.hello s = (Ok None, s')
       /\ db s' = db s.
Proof.
  intros E s.
  assert (Hfetch : fetched E s Examples.hello [] Examples.march_pulls).
  { eexists. repeat split; vm_compute; reflexivity. }
  assert (Hfilter : filter_pulls (last_check_of (db s) Examples.hello)
                                 Examples.march_pulls = Ok []).
  { vm_compute. reflexivity. }
  split; [exact Hfetch|]. split; [exact Hfilter|].
  destruct (empty_check_writes_nothing E Examples.model s Examples.hello
              Examples.march_pulls Hfetch Hfilter) as (s' & Hrun & Hdb & _).
  exists s'. split; assumption.
Defined.

(** With a watermark stored with an explicit offset, which the bot does
    not write itself, the filter compares.  The repository was last
    checked on 2024-03-01; seven pull requests are fetched, six of them
    updated after that.  The
    sixth, "Change 12", is fetched, is strictly newer than the watermark and
    is counted (the summary records six changes), yet the formatted text
    given to the generator does not mention it: only five pull requests are
    formatted. *)
Lemma sixth_newer_pull_counted_but_not_formatted :
  let E := Examples.steady (Ok []) (Ok Examples.march_pulls)
                           (Ok "Six updated pull requests.") in
  let pr := Examples.change 12 "2024-03-02T00:00:00Z" in
  let run := check_repo_for_changes E Examples.model Examples.hello
                                    Examples.checked_in_march in
  last_check_of (db Examples.checked_in_march) Examples.hello
  = Some "2024-03-01T00:00:00+00:00"
  /\ fetched E Examples.checked_in_march Examples.hello [] Examples.march_pulls
  /\ In pr Examples.march_pulls
  /\ (exists last_check_dt updated,
         parse_timestamp "2024-03-01T00:00:00+00:00" = Ok last_check_dt
         /\ parse_timestamp (updated_at pr) = Ok updated
         /\ Datetime.gt updated last_check_dt = Ok true)
  /\ fst run = Ok (Some "Six updated pull requests.")
  /\ map changes_count (summaries (db (snd run))) = [6%nat]
  /\ exists changes_text,
       In (ChatCreate Examples.model
                      (summary_prompt changes_text Examples.hello))
          (trace (snd run))
       /\ changes_text = format_changes_for_ai []
                           (firstn 6 Examples.march_pulls)
       /\ Str.contains (pull_line pr) changes_text = false
       /\ Str.contains (title pr) changes_text = false.
Proof.
  cbv zeta. split; [vm_compute; reflexivity|].
  split; [eexists; repeat split; vm_compute; reflexivity|].
  split; [vm_compute; tauto|].
  split; [eexists _, _; repeat split; vm_compute; reflexivity|].
  split; [vm_compute; reflexivity|].
  split; [vm_compute; reflexivity|].
  eexists. split; [|split; [reflexivity|split; vm_compute; reflexivity]].
  vm_compute. do 4 right. left. reflexivity.
Qed.

(** The filter where it raises nothing.  With a stored watermark [T], and
    provided [T] and the [updated_at] of every fetched pull request parse
    and compare, the pull requests kept are exactly the fetched
    ones whose [updated_at] is strictly later than [T], in the order
    fetched.  All of them are counted, and the text formatted for the
    generator is built from the commits and from the first five of them; a
    pull request with [updated_at] at or before [T] is neither counted nor
    formatted. *)
Theorem pulls_filtered_by_watermark
  (E : oracle) (model : string) (s : world) (repo T : string)
  (commits : list commit) (fetched_pulls pulls : list pull) :
  last_check_of (db s) repo = Some T ->
  Str.truthy T = true ->
  fetched E s repo commits fetched_pulls ->
  filter_pulls (Some T) fetched_pulls = Ok pulls ->
  exists last_check_dt,
    parse_timestamp T = Ok last_check_dt
    /\ pulls = List.filter (updated_after last_check_dt) fetched_pulls
    /\ (forall pr,
           In pr pulls
           <-> In pr fetched_pulls /\ updated_after last_check_dt pr = true)
    /\ (forall pr,
           In pr (firstn 5 pulls) ->
           In pr fetched_pulls /\ updated_after last_check_dt pr = true)
    /\ ((0 < length commits + length pulls)%nat ->
        exists text s' row,
          check_repo_for_changes E model repo s = (Ok (Some text), s')
          /\ summaries (db s') = summaries (db s) ++ [row]
          /\ changes_count row = (length commits + length pulls)%nat
          /\ In (ChatCreate model
                   (summary_prompt
                      (Str.join Str.nl
                         (commit_section commits ++ pull_section pulls))
                      repo))
                (trace s'))
    /\ ((length commits + length pulls = 0)%nat ->
        exists s',
          check_repo_for_changes E model repo s = (Ok None, s')
          /\ db s' = db s).
Proof.
  intros Hstored Htruthy Hfetch Hfilter.
  destruct (filter_pulls_stored T fetched_pulls pulls Htruthy Hfilter)
    as (last_check_dt & Hparse & Hkept).
  exists last_check_dt. split; [exact Hparse|]. split; [exact Hkept|].
  assert (Hin : forall pr,
             In pr pulls
             <-> In pr fetched_pulls /\ updated_after last_check_dt pr = true).
  { intros pr. rewrite Hkept. apply filter_In. }
  split; [exact Hin|]. split.
  { intros pr Hpr. apply Hin. rewrite <- (firstn_skipn 5 pulls).
    apply in_or_app. left. exact Hpr. }
  rewrite <- Hstored in Hfilter. split.
  - intros Hpos.
    destruct (check_found E model s repo commits fetched_pulls pulls
                Hfetch Hfilter Hpos) as (since & _ & Hrun).
    eexists _, _, _. split; [exact Hrun|].
    cbn [db summaries trace cycle_db cycle_row changes_count].
    repeat split.
    apply in_or_app. right. unfold cycle_events.
    apply in_or_app. right. right. left. reflexivity.
  - intros Hzero.
    assert (commits = []) as -> by (destruct commits; [reflexivity|cbn in Hzero; lia]).
    assert (pulls = []) as -> by (destruct pulls; [reflexivity|cbn in Hzero; lia]).
    destruct (check_quiet E model s repo fetched_pulls Hfetch Hfilter)
      as (since & _ & Hrun).
    eexists. split; [exact Hrun|reflexivity].
Qed.

Lemma pulls_filtered_by_watermark_witness :
  let E := Examples.steady (Ok [Examples.fix_bug]) (Ok Examples.march_pulls)
                           (Ok "One fix, six updates.") in
  let T := "2024-03-01T00:00:00+00:00" in
  last_check_of (db Examples.checked_in_march) Examples.hello = Some T
  /\ Str.truthy T = true
  /\ fetched E Examples.checked_in_march Examples.hello
             [Examples.fix_bug] Examples.march_pulls
  /\ filter_pulls (Some T) Examples.march_pulls
     = Ok (firstn 6 Examples.march_pulls)
  /\ exists last_check_dt,
       parse_timestamp T = Ok last_check_dt
       /\ firstn 6 Examples.march_pulls
          = List.filter (updated_after last_check_dt) Examples.march_pulls.
Proof.
  intros E T.
  assert (Hstored : last_check_of (db Examples.checked_in_march) Examples.hello
                    = Some T) by (vm_compute; reflexivity).
  assert (Htruthy : Str.truthy T = true) by reflexivity.
  assert (Hfetch : fetched E Examples.checked_in_march Examples.hello
                           [Examples.fix_bug] Examples.march_pulls).
  { eexists. repeat split; vm_compute; reflexivity. }
  assert (Hfilter : filter_pulls (Some T) Examples.march_pulls
                    = Ok (firstn 6 Examples.march_pulls))
    by (vm_compute; reflexivity).
  repeat (split; [assumption|]).
  destruct (pulls_filtered_by_watermark
              E Examples.model Examples.checked_in_march Examples.hello T
              [Examples.fix_bug] Examples.march_pulls
              (firstn 6 Examples.march_pulls)
              Hstored Htruthy Hfetch Hfilter)
    as (last_check_dt & Hparse & Hkept & _).
  exists last_check_dt. split; assumption.
Defined.

(** C3, on the code.  The first check stores its watermark, the text of a
    naive clock reading.  On the second check the pulls request lists a
    pull request updated after that watermark: the filter does not keep it
    and count it, it raises on it, as it does on a pull request updated
    before the watermark.  The check returns [None], calls no generator
    and writes nothing. *)
Theorem newer_pull_raises_instead_of_being_counted :
  let s1 := snd (check_repo_for_changes Examples.busy Examples.model
                                        Examples.hello Examples.fresh) in
  let second := check_repo_for_changes Examples.busy Examples.model
                                       Examples.hello s1 in
  let T := "2024-03-10T12:00:04" in
  let newer := Examples.change 2 "2024-03-11T00:00:00Z" in
  let older := Examples.change 1 "2024-03-09T00:00:00Z" in
  last_check_of (db s1) Examples.hello = Some T
  /\ pulls_json Examples.busy (S (fetch_tick s1 Examples.hello))
                 (pulls_url Examples.hello) pulls_params = Ok [newer]
  /\ filter_pulls (Some T) [newer] = Raise naive_utc_mismatch
  /\ filter_pulls (Some T) [older] = Raise naive_utc_mismatch
  /\ fst second = Ok None
  /\ db (snd second) = db s1
  /\ chat_calls (trace (snd second)) = chat_calls (trace s1).
Proof. cbv zeta. repeat split; vm_compute; reflexivity. Qed.

(** C10, as stated, fails.  On a first check with no commit and six pull
    requests last updated in January 2020, all six are counted and a
    summary is made, but the sixth, "Change 1", is not in the formatted
    text: only five pull requests are formatted. *)
Lemma first_check_sixth_pull_not_formatted :
  let E := Examples.steady (Ok []) (Ok Examples.stale_pulls)
                           (Ok "Six stale pull requests.") in
  let pr := Examples.change 1 "2020-01-01T00:00:00Z" in
  let run := check_repo_for_changes E Examples.model Examples.hello
                                    Examples.fresh in
  last_check_of (db Examples.fresh) Examples.hello = None
  /\ fetched E Examples.fresh Examples.hello [] Examples.stale_pulls
  /\ In pr Examples.stale_pulls
  /\ fst run = Ok (Some "Six stale pull requests.")
  /\ map changes_count (summaries (db (snd run))) = [6%nat]
  /\ exists changes_text,
       In (ChatCreate Examples.model
                      (summary_prompt changes_text Examples.hello))
          (trace (snd run))
       /\ changes_text = format_changes_for_ai [] Examples.stale_pulls
       /\ Str.contains (pull_line pr) changes_text = false
       /\ Str.contains (title pr) changes_text = false.
Proof.
  cbv zeta. split; [vm_compute; reflexivity|].
  split; [eexists; repeat split; vm_compute; reflexivity|].
  split; [vm_compute; tauto|].
  split; [vm_compute; reflexivity|].
  split; [vm_compute; reflexivity|].
  eexists. split; [|split; [reflexivity|split; vm_compute; reflexivity]].
  vm_compute. do 4 right. left. reflexivity.
Qed.

(** C10, amended.  On a first check (no row stored for the repository) no
    pull request is filtered out, whatever its [updated_at]: every fetched
    pull request is counted, so pull requests alone, however old, make the
    check produce a summary; the text formatted for the generator is built
    from the commits and from the first five fetched pull requests. *)
Theorem first_check_counts_every_pull
  (E : oracle) (model : string) (s : world) (repo : string)
  (commits : list commit) (fetched_pulls : list pull) :
  repo_states (db s) !! repo = None ->
  fetched E s repo commits fetched_pulls ->
  (0 < length commits + length fetched_pulls)%nat ->
  filter_pulls (last_check_of (db s) repo) fetched_pulls = Ok fetched_pulls
  /\ exists text s' row,
       check_repo_for_changes E model repo s = (Ok (Some text), s')
       /\ summaries (db s') = summaries (db s) ++ [row]
       /\ changes_count row = (length commits + length fetched_pulls)%nat
       /\ In (ChatCreate model
                (summary_prompt
                   (Str.join Str.nl
                      (commit_section commits ++ pull_section fetched_pulls))
                   repo))
             (trace s').
Proof.
  intros Hnone Hfetch Hpos.
  assert (Hfilter : filter_pulls (last_check_of (db s) repo) fetched_pulls
                    = Ok fetched_pulls).
  { unfold last_check_of. rewrite Hnone. reflexivity. }
  split; [exact Hfilter|].
  destruct (check_found E model s repo commits fetched_pulls fetched_pulls
              Hfetch Hfilter Hpos) as (since & _ & Hrun).
  eexists _, _, _. split; [exact Hrun|].
  cbn [db summaries trace cycle_db cycle_row changes_count].
  repeat split.
  apply in_or_app. right. unfold cycle_events.
  apply in_or_app. right. right. left. reflexivity.
Qed.

Lemma first_check_counts_every_pull_witness :
  let E := Examples.steady (Ok []) (Ok Examples.stale_pulls)
                           (Ok "Six stale pull requests.") in
  repo_states (db Examples.fresh) !! Examples.hello = None
  /\ fetched E Examples.fresh Examples.hello [] Examples.stale_pulls
  /\ exists text s' row,
       check_repo_for_changes E Examples.model Examples.hello Examples.fresh
       = (Ok (Some text), s')
       /\ summaries (db s') = summaries (db Examples.fresh) ++ [row]
       /\ changes_count row = 6%nat.
Proof.
  intros E.
  assert (Hnone : repo_states (db Examples.fresh) !! Examples.hello = None)
    by reflexivity.
  assert (Hfetch : fetched E Examples.fresh Examples.hello []
                           Examples.stale_pulls).
  { eexists. repeat split; vm_compute; reflexivity. }
  split; [exact Hnone|]. split; [exact Hfetch|].
  destruct (first_check_counts_every_pull
              E Examples.model Examples.fresh Examples.hello []
              Examples.stale_pulls Hnone Hfetch ltac:(cbn; lia))
    as (_ & text & s' & row & Hrun & Hrows & Hcount & _).
  exists text, s', row. repeat split; assumption.
Defined.

(** What a recorded cycle leaves in [repo_states]. *)
Lemma cycle_db_last_check E model s repo commits pulls :
  last_check_of (cycle_db E model s repo commits pulls) repo
  = Some (Datetime.isoformat (utcnow E (3 + fetch_tick s repo))).
Proof.
  unfold last_check_of, cycle_db, cycle_state. cbn [repo_states].
  rewrite lookup_insert_eq. reflexivity.
Qed.

Lemma cycle_db_last_sha E model s repo pulls :
  last_sha_of (cycle_db E model s repo [] pulls) repo = last_sha_of (db s) repo.
Proof.
  unfold last_sha_of at 1. unfold cycle_db, cycle_state. cbn [repo_states].
  rewrite lookup_insert_eq. reflexivity.
Qed.

(** With a stored, truthy watermark the commits are fetched at once, since
    that watermark. *)
Lemma fetched_since_watermark E s repo T commits fetched_pulls :
  last_check_of (db s) repo = Some T ->
  Str.truthy T = true ->
  commits_json E (tick s) (commits_url repo) [("since", T)] = Ok commits ->
  pulls_json E (S (tick s)) (pulls_url repo) pulls_params = Ok fetched_pulls ->
  fetched E s repo commits fetched_pulls.
Proof.
  intros Hstored Htruthy Hc Hp. exists T.
  unfold since_param, fetch_tick. rewrite Hstored. cbn [truthy].
  rewrite Htruthy. repeat split; assumption.
Qed.

(** C4. After a check that produced a summary, the stored watermark is the
    clock reading of that check.  If the next check of the repository
    fetches no commit since that watermark and no fetched pull request has
    an [updated_at] later than it, that check returns [None] and leaves the
    database, hence the summaries, as the first check left them. *)
Theorem second_check_appends_nothing
  (E : oracle) (model : string) (s0 s1 : world) (repo text1 T1 : string)
  (fetched_pulls : list pull) :
  check_repo_for_changes E model repo s0 = (Ok (Some text1), s1) ->
  last_check_of (db s1) repo = Some T1 ->
  commits_json E (tick s1) (commits_url repo) [("since", T1)] = Ok [] ->
  pulls_json E (S (tick s1)) (pulls_url repo) pulls_params = Ok fetched_pulls ->
  (forall pr last_check_dt updated,
      In pr fetched_pulls ->
      parse_timestamp T1 = Ok last_check_dt ->
      parse_timestamp (updated_at pr) = Ok updated ->
      Datetime.gt updated last_check_dt <> Ok true) ->
  T1 = Datetime.isoformat (utcnow E (3 + fetch_tick s0 repo))
  /\ exists s2,
       check_repo_for_changes E model repo s1 = (Ok None, s2)
       /\ db s2 = db s1
       /\ summaries (db s2) = summaries (db s1).
Proof.
  intros Hfirst Hstored Hcommits Hpulls Hquiet.
  assert (HT1 : T1 = Datetime.isoformat (utcnow E (3 + fetch_tick s0 repo))).
  { destruct (check_cases E model s0 repo) as (r & s' & Hrun & _ & Hdb).
    rewrite Hfirst in Hrun. inversion Hrun; subst r s'.
    destruct Hdb as [[Hnone _]|(commits & pulls & _ & _ & Hdb)];
      [discriminate|].
    rewrite Hdb, cycle_db_last_check in Hstored. congruence. }
  split; [exact HT1|].
  assert (Htruthy : Str.truthy T1 = true)
    by (rewrite HT1; apply isoformat_truthy).
  pose proof (fetched_since_watermark E s1 repo T1 [] fetched_pulls
                Hstored Htruthy Hcommits Hpulls) as Hfetch.
  destruct (filter_pulls (Some T1) fetched_pulls) as [kept|e] eqn:Hfilter.
  - destruct (filter_pulls_stored T1 fetched_pulls kept Htruthy Hfilter)
      as (last_check_dt & Hparse & Hkept).
    assert (kept = []) as ->.
    { rewrite Hkept. apply filter_nothing_kept. intros pr Hin.
      unfold updated_after.
      destruct (parse_timestamp (updated_at pr)) as [updated|] eqn:Hup;
        [|reflexivity].
      destruct (Datetime.gt updated last_check_dt) as [[|]|] eqn:Hgt;
        try reflexivity.
      exfalso. exact (Hquiet pr last_check_dt updated Hin Hparse Hup Hgt). }
    rewrite <- Hstored in Hfilter.
    destruct (check_quiet E model s1 repo fetched_pulls Hfetch Hfilter)
      as (since & _ & Hrun).
    eexists. split; [exact Hrun|]. split; reflexivity.
  - destruct Hfetch as (since & Hs & Hc & Hp).
    destruct (check_repo_body E model repo s1) as [r s2] eqn:Hbody.
    assert (Hraise : r = Raise e /\ db s2 = db s1).
    { revert Hbody. rewrite body_run. cbv zeta.
      rewrite Hs, Hc, Hp, Hstored, Hfilter.
      intros H. inversion H. split; reflexivity. }
    destruct Hraise as [-> Hdb].
    destruct (check_of_raise E model s1 repo e s2 Hbody) as [line Hrun].
    eexists. split; [exact Hrun|]. cbn [db]. rewrite Hdb. split; reflexivity.
Qed.

Lemma second_check_appends_nothing_witness :
  let first := check_repo_for_changes Examples.settling Examples.model
                                      Examples.hello Examples.fresh in
  let T1 := "2024-03-10T12:00:04" in
  let pulls := [Examples.change 1 "2024-03-09T00:00:00Z"] in
  first = (Ok (Some "One fix by Alice."), snd first)
  /\ last_check_of (db (snd first)) Examples.hello = Some T1
  /\ commits_json Examples.settling (tick (snd first))
                  (commits_url Examples.hello) [("since", T1)] = Ok []
  /\ pulls_json Examples.settling (S (tick (snd first)))
                (pulls_url Examples.hello) pulls_params = Ok pulls
  /\ exists s2,
       check_repo_for_changes Examples.settling Examples.model Examples.hello
                              (snd first) = (Ok None, s2)
       /\ summaries (db s2) = summaries (db (snd first)).
Proof.
  intros first T1 pulls.
  assert (Hfirst : first = (Ok (Some "One fix by Alice."), snd first))
    by (vm_compute; reflexivity).
  assert (Hstored : last_check_of (db (snd first)) Examples.hello = Some T1)
    by (vm_compute; reflexivity).
  assert (Hcommits : commits_json Examples.settling (tick (snd first))
                       (commits_url Examples.hello) [("since", T1)] = Ok [])
    by (vm_compute; reflexivity).
  assert (Hpulls : pulls_json Examples.settling (S (tick (snd first)))
                     (pulls_url Examples.hello) pulls_params = Ok pulls)
    by (vm_compute; reflexivity).
  repeat (split; [assumption|]).
  destruct (second_check_appends_nothing
              Examples.settling Examples.model Examples.fresh (snd first)
              Examples.hello "One fix by Alice." T1 pulls
              Hfirst Hstored Hcommits Hpulls)
    as (_ & s2 & Hrun & _ & Hrows).
  - intros pr last_check_dt updated [<-|[]] Hparse Hup.
    vm_compute in Hparse, Hup.
    inversion Hparse; inversion Hup; subst. vm_compute. discriminate.
  - exists s2. split; assumption.
Defined.

(** C5. A cycle that fetched no commit and kept at least one pull request
    stores for the repository the SHA it had before (the empty string when
    it had no row) together with the clock reading of the cycle as the new
    watermark, and touches no other repository's row. *)
Theorem pull_only_cycle_preserves_sha
  (E : oracle) (model : string) (s : world) (repo : string)
  (fetched_pulls pulls : list pull) :
  fetched E s repo [] fetched_pulls ->
  filter_pulls (last_check_of (db s) repo) fetched_pulls = Ok pulls ->
  pulls <> [] ->
  exists text s',
    check_repo_for_changes E model repo s = (Ok (Some text), s')
    /\ last_sha_of (db s') repo = last_sha_of (db s) repo
    /\ (repo_states (db s) !! repo = None -> last_sha_of (db s') repo = "")
    /\ (forall stored last_check,
           repo_states (db s) !! repo = Some (stored, last_check) ->
           last_sha_of (db s') repo = stored)
    /\ last_check_of (db s') repo
       = Some (Datetime.isoformat (utcnow E (3 + fetch_tick s repo)))
    /\ (forall other,
           other <> repo ->
           repo_states (db s') !! other = repo_states (db s) !! other).
Proof.
  intros Hfetch Hfilter Hne.
  assert (Hpos : (0 < length (@nil commit) + length pulls)%nat)
    by (destruct pulls; [congruence | cbn; lia]).
  destruct (check_found E model s repo [] fetched_pulls pulls
              Hfetch Hfilter Hpos) as (since & _ & Hrun).
  eexists _, _. split; [exact Hrun|]. cbn [db].
  rewrite cycle_db_last_sha, cycle_db_last_check.
  split; [reflexivity|]. split.
  { intros Hnone. unfold last_sha_of. rewrite Hnone. reflexivity. }
  split.
  { intros stored last_check Hrow. unfold last_sha_of. rewrite Hrow.
    reflexivity. }
  split; [reflexivity|].
  intros other Hother. unfold cycle_db. cbn [repo_states].
  apply lookup_insert_ne. congruence.
Qed.

Lemma pull_only_cycle_preserves_sha_witness :
  let E := Examples.steady (Ok []) (Ok Examples.march_pulls)
                           (Ok "Six updated pull requests.") in
  fetched E Examples.checked_in_march Examples.hello [] Examples.march_pulls
  /\ filter_pulls (last_check_of (db Examples.checked_in_march) Examples.hello)
                  Examples.march_pulls = Ok (firstn 6 Examples.march_pulls)
  /\ firstn 6 Examples.march_pulls <> []
  /\ exists text s',
       check_repo_for_changes E Examples.model Examples.hello
                              Examples.checked_in_march = (Ok (Some text), s')
       /\ last_sha_of (db s') Examples.hello = "abc123"
       /\ last_check_of (db s') Examples.hello = Some "2024-03-10T12:00:03".
Proof.
  intros E.
  assert (Hfetch : fetched E Examples.checked_in_march Examples.hello []
                           Examples.march_pulls).
  { eexists. repeat split; vm_compute; reflexivity. }
  assert (Hfilter : filter_pulls
                      (last_check_of (db Examples.checked_in_march)
                                     Examples.hello)
                      Examples.march_pulls
                    = Ok (firstn 6 Examples.march_pulls))
    by (vm_compute; reflexivity).
  assert (Hne : firstn 6 Examples.march_pulls <> []) by (cbn; discriminate).
  repeat (split; [assumption|]).
  destruct (pull_only_cycle_preserves_sha
              E Examples.model Examples.checked_in_march Examples.hello
              Examples.march_pulls (firstn 6 Examples.march_pulls)
              Hfetch Hfilter Hne)
    as (text & s' & Hrun & Hsha & _ & _ & Hcheck & _).
  exists text, s'. split; [exact Hrun|]. split.
  - rewrite Hsha. vm_compute. reflexivity.
  - rewrite Hcheck. vm_compute. reflexivity.
Defined.

(** [generate_summary] always returns, with one call recorded. *)
Lemma generate_summary_run E model changes_text repo w :
  generate_summary E model changes_text repo w
  = (Ok (generated E model (tick w) changes_text repo),
     World (db w) (S (tick w))
           (trace w ++ [ChatCreate model (summary_prompt changes_text repo)])).
Proof.
  unfold generate_summary, generated, bind, emit, ask, ret. cbn [db tick trace].
  destruct (chat_completion E (tick w) model _); reflexivity.
Qed.

(** C6. [generate_summary] never raises: whatever the generation call
    does, it returns a text, and when the call fails with [e] the text is
    "Error generating summary: " followed by [str(e)].  A check whose
    change set is not empty and whose generation call fails returns that
    text, appends a summary row holding it and advances the watermark of
    the repository. *)
Theorem generation_failure_is_persisted
  (E : oracle) (model : string) (s : world) (repo : string)
  (commits : list commit) (fetched_pulls pulls : list pull) (e : exn) :
  fetched E s repo commits fetched_pulls ->
  filter_pulls (last_check_of (db s) repo) fetched_pulls = Ok pulls ->
  (0 < length commits + length pulls)%nat ->
  chat_completion E (2 + fetch_tick s repo) model
    (summary_prompt (format_changes_for_ai commits pulls) repo) = Raise e ->
  (forall w changes_text r,
      exists text w', generate_summary E model changes_text r w = (Ok text, w'))
  /\ (forall w changes_text r e',
         chat_completion E (tick w) model (summary_prompt changes_text r)
         = Raise e' ->
         fst (generate_summary E model changes_text r w)
         = Ok ("Error generating summary: " +:+ exn_str e'))
  /\ exists s' row,
       check_repo_for_changes E model repo s
       = (Ok (Some ("Error generating summary: " +:+ exn_str e)), s')
       /\ summaries (db s') = summaries (db s) ++ [row]
       /\ row_repo_name row = repo
       /\ row_summary row = "Error generating summary: " +:+ exn_str e
       /\ changes_count row = (length commits + length pulls)%nat
       /\ last_check_of (db s') repo
          = Some (Datetime.isoformat (utcnow E (3 + fetch_tick s repo))).
Proof.
  intros Hfetch Hfilter Hpos Hfail.
  split.
  { intros w changes_text r. eexists _, _. apply generate_summary_run. }
  split.
  { intros w changes_text r e' He'. rewrite generate_summary_run. cbn [fst].
    unfold generated. rewrite He'. reflexivity. }
  destruct (check_found E model s repo commits fetched_pulls pulls
              Hfetch Hfilter Hpos) as (since & _ & Hrun).
  assert (Htext : cycle_text E model s repo commits pulls
                  = "Error generating summary: " +:+ exn_str e).
  { unfold cycle_text, generated. rewrite Hfail. reflexivity. }
  rewrite Htext in Hrun.
  eexists _, (cycle_row E model s repo commits pulls).
  split; [exact Hrun|]. cbn [db]. rewrite cycle_db_last_check.
  unfold cycle_db, cycle_row. cbn [summaries row_repo_name row_summary changes_count].
  rewrite Htext. repeat split.
Qed.

Lemma generation_failure_is_persisted_witness :
  let E := Examples.steady (Ok [Examples.fix_bug]) (Ok [])
                           (Raise (ValueError "rate limit exceeded")) in
  fetched E Examples.fresh Examples.hello [Examples.fix_bug] []
  /\ exists s' row,
       check_repo_for_changes E Examples.model Examples.hello Examples.fresh
       = (Ok (Some "Error generating summary: rate limit exceeded"), s')
       /\ summaries (db s') = summaries (db Examples.fresh) ++ [row]
       /\ row_summary row = "Error generating summary: rate limit exceeded".
Proof.
  intros E.
  assert (Hfetch : fetched E Examples.fresh Examples.hello
                           [Examples.fix_bug] []).
  { eexists. repeat split; vm_compute; reflexivity. }
  split; [exact Hfetch|].
  destruct (generation_failure_is_persisted
              E Examples.model Examples.fresh Examples.hello
              [Examples.fix_bug] [] [] (ValueError "rate limit exceeded")
              Hfetch eq_refl ltac:(cbn; lia) eq_refl)
    as (_ & _ & s' & row & Hrun & Hrows & _ & Htext & _).
  exists s', row. repeat split; assumption.
Defined.

(** C7. In a batch, when the check of one repository fails (its [try]
    block raises, be it a transport failure or anything else), the
    exception does not leave [check_repo_for_changes]: the call returns
    [None] and the database is what the repositories before it left.  The
    loop goes on: every later repository is checked, in list order, and the
    batch as a whole ends normally having announced every repository of the
    list in order. *)
Theorem batch_continues_after_failure
  (E : oracle) (model : string) (before after : list string)
  (failing : string) (s s1 : world) (e : exn) :
  snd (check_each E model before (loop_start E s)) = s1 ->
  fst (check_repo_body E model failing s1) = Raise e ->
  exists s2 s3,
    check_repo_for_changes E model failing s1 = (Ok None, s2)
    /\ db s2 = db s1
    /\ check_each E model after s2 = (Ok tt, s3)
    /\ (exists added,
           trace s3 = trace s2 ++ added
           /\ sublist (map checking after) added)
    /\ check_all_repos E model (before ++ failing :: after) s
       = (Ok tt, loop_end E s3)
    /\ exists announced,
         trace (loop_end E s3) = trace s ++ announced
         /\ sublist (map checking (before ++ failing :: after)) announced.
Proof.
  intros Hbefore Hraise.
  destruct (check_repo_body E model failing s1) as [r sraise] eqn:Hbody.
  cbn [fst] in Hraise. subst r.
  destruct (check_of_raise E model s1 failing e sraise Hbody) as [line Hrun].
  destruct (body_raise_frame E model s1 failing e sraise Hbody) as [Hdb _].
  destruct (check_each_run E model after
              (World (db sraise) (tick sraise) (trace sraise ++ [Print line])))
    as (s3 & Hafter & Hadded & _).
  eexists _, s3. split; [exact Hrun|]. split; [exact Hdb|].
  split; [exact Hafter|]. split; [exact Hadded|].
  assert (Hloop : snd (check_each E model (before ++ failing :: after)
                         (loop_start E s)) = s3).
  { rewrite check_each_app, Hbefore, check_each_cons, Hrun. cbn [snd].
    rewrite Hafter. reflexivity. }
  split.
  { rewrite check_all_repos_run, Hloop. reflexivity. }
  destruct (check_each_run E model (before ++ failing :: after)
              (loop_start E s)) as (s' & Hall & (added & Htr & Hsub) & _).
  rewrite Hall in Hloop. cbn [snd] in Hloop. subst s'.
  eexists. unfold loop_end at 1. cbn [trace]. rewrite Htr.
  unfold loop_start at 1. cbn [trace]. rewrite <- !app_assoc.
  split; [reflexivity|].
  apply sublist_cons. apply sublist_inserts_r. exact Hsub.
Qed.

Lemma batch_continues_after_failure_witness :
  let E := Examples.partly_down in
  let s1 := snd (check_each E Examples.model [Examples.hello]
                            (loop_start E Examples.fresh)) in
  fst (check_repo_body E Examples.model Examples.broken s1)
  = Raise (RequestException "404 Client Error: Not Found")
  /\ exists s2 s3,
       check_repo_for_changes E Examples.model Examples.broken s1
       = (Ok None, s2)
       /\ db s2 = db s1
       /\ check_all_repos E Examples.model
                          [Examples.hello; Examples.broken; "a/b"]
                          Examples.fresh
          = (Ok tt, loop_end E s3)
       /\ map row_repo_name (summaries (db s3)) = [Examples.hello; "a/b"].
Proof.
  intros E s1.
  assert (Hraise : fst (check_repo_body E Examples.model Examples.broken s1)
                   = Raise (RequestException "404 Client Error: Not Found"))
    by (vm_compute; reflexivity).
  split; [exact Hraise|].
  destruct (batch_continues_after_failure
              E Examples.model [Examples.hello] ["a/b"] Examples.broken
              Examples.fresh s1 _ eq_refl Hraise)
    as (s2 & s3 & Hrun & Hdb & Hafter & _ & Hall & _).
  exists s2, s3. repeat (split; [assumption|]).
  assert (Hs3 : s3 = snd (check_each E Examples.model ["a/b"] s2))
    by (rewrite Hafter; reflexivity).
  assert (Hs2 : s2 = snd (check_repo_for_changes E Examples.model
                                                  Examples.broken s1))
    by (rewrite Hrun; reflexivity).
  rewrite Hs3, Hs2. vm_compute. reflexivity.
Defined.

(** The first two things a check does once it has a [since]: announce the
    repository and ask for the commits since then. *)
Lemma check_trace_since E model s repo since :
  since_param E s repo = Ok since ->
  exists more,
    trace (snd (check_repo_for_changes E model repo s))
    = trace s
      ++ checking repo
         :: HttpGet (commits_url repo) [("since", since)] :: more.
Proof.
  intros Hs. unfold check_repo_for_changes. rewrite body_run. cbv zeta.
  rewrite Hs. unfold cycle_events, fetch_events.
  destruct (commits_json E _ _ _) as [commits|e1].
  2:{ destruct e1; eexists; cbn [snd trace bind print emit ret];
        unfold bind, print, emit, ret; cbn [snd trace db tick];
        rewrite <- app_assoc; reflexivity. }
  destruct (pulls_json E _ _ _) as [fetched_pulls|e2].
  2:{ destruct e2; eexists; unfold bind, print, emit, ret;
        cbn [snd trace db tick]; rewrite <- app_assoc; reflexivity. }
  destruct (filter_pulls _ _) as [pulls|e3].
  2:{ destruct e3; eexists; unfold bind, print, emit, ret;
        cbn [snd trace db tick]; rewrite <- app_assoc; reflexivity. }
  destruct (length commits + length pulls =? 0)%nat;
    eexists; cbn [snd trace]; reflexivity.
Qed.

(** C9. For a repository with no stored row, when the clock reads a valid
    datetime [now] later than 0001-01-07, the check asks the commits
    endpoint for the commits since [(now - 7 days).isoformat()]: the
    datetime sent lies exactly seven days before [now] on the same clock,
    so within the seven-day window ending at the call. *)
Theorem default_look_back_is_seven_days
  (E : oracle) (model : string) (s : world) (repo : string) :
  repo_states (db s) !! repo = None ->
  Datetime.valid (utcnow E (tick s)) = true ->
  7 < Datetime.toordinal (utcnow E (tick s)) ->
  exists since_dt more,
    Datetime.sub_days (utcnow E (tick s)) 7 = Ok since_dt
    /\ since_param E s repo = Ok (Datetime.isoformat since_dt)
    /\ trace (snd (check_repo_for_changes E model repo s))
       = trace s
         ++ checking repo
            :: HttpGet (commits_url repo)
                       [("since", Datetime.isoformat since_dt)]
            :: more
    /\ Datetime.wall_us since_dt
       = Datetime.wall_us (utcnow E (tick s)) - 7 * Datetime.US_PER_DAY
    /\ Datetime.wall_us (utcnow E (tick s)) - 7 * Datetime.US_PER_DAY
       <= Datetime.wall_us since_dt
       <= Datetime.wall_us (utcnow E (tick s))
    /\ Datetime.valid since_dt = true
    /\ Datetime.tzinfo since_dt = Datetime.tzinfo (utcnow E (tick s)).
Proof.
  intros Hnone Hvalid Hord.
  destruct (DatetimeFacts.sub_days_spec (utcnow E (tick s)) 7 Hvalid
              ltac:(lia) Hord)
    as (since_dt & Hsub & Hwall & Hvalid' & Htz).
  assert (Hsince : since_param E s repo = Ok (Datetime.isoformat since_dt)).
  { unfold since_param, last_check_of. rewrite Hnone, Hsub. reflexivity. }
  destruct (check_trace_since E model s repo _ Hsince) as [more Htrace].
  exists since_dt, more. repeat (split; [assumption|]).
  split; [|split; assumption].
  rewrite Hwall. unfold Datetime.US_PER_DAY, Datetime.US_PER_SECOND. lia.
Qed.

Lemma default_look_back_is_seven_days_witness :
  let E := Examples.steady (Ok []) (Ok []) (Ok "unused") in
  repo_states (db Examples.fresh) !! Examples.hello = None
  /\ Datetime.valid (utcnow E (tick Examples.fresh)) = true
  /\ 7 < Datetime.toordinal (utcnow E (tick Examples.fresh))
  /\ exists since_dt,
       Datetime.sub_days (utcnow E (tick Examples.fresh)) 7 = Ok since_dt
       /\ since_param E Examples.fresh Examples.hello
          = Ok (Datetime.isoformat since_dt)
       /\ Datetime.isoformat since_dt = "2024-03-03T12:00:00".
Proof.
  intros E.
  assert (Hnone : repo_states (db Examples.fresh) !! Examples.hello = None)
    by reflexivity.
  assert (Hvalid : Datetime.valid (utcnow E (tick Examples.fresh)) = true)
    by (vm_compute; reflexivity).
  assert (Hord : 7 < Datetime.toordinal (utcnow E (tick Examples.fresh)))
    by (vm_compute; reflexivity).
  repeat (split; [assumption|]).
  destruct (default_look_back_is_seven_days
              E Examples.model Examples.fresh Examples.hello
              Hnone Hvalid Hord)
    as (since_dt & more & Hsub & Hsince & _).
  exists since_dt. repeat (split; [assumption|]).
  vm_compute in Hsub. inversion Hsub. vm_compute. reflexivity.
Defined.

(** ** The watermark the bot writes against the timestamps of the API

    The watermark a check stores is [utcnow().isoformat()], which parses
    as a naive datetime, while ["...Z"] becomes ["...+00:00"] and parses as
    an aware one.  On the second check of a repository whose first check
    stored its watermark, comparing the two raises: the check prints the
    error, returns [None] and appends nothing, although a commit was
    fetched and the pull request is later than the watermark. *)
Example second_check_with_api_timestamps_raises :
  let first := check_repo_for_changes Examples.busy Examples.model
                                      Examples.hello Examples.fresh in
  let second := check_repo_for_changes Examples.busy Examples.model
                                       Examples.hello (snd first) in
  fst first = Ok (Some "One fix by Alice.")
  /\ last_check_of (db (snd first)) Examples.hello = Some "2024-03-10T12:00:04"
  /\ filter_pulls (Some "2024-03-10T12:00:04")
                  [Examples.change 2 "2024-03-11T00:00:00Z"]
     = Raise (TypeError
                "can't compare offset-naive and offset-aware datetimes")
  /\ fst second = Ok None
  /\ db (snd second) = db (snd first)
  /\ List.last (trace (snd second)) (Print "")
     = Print ("Unexpected error for octocat/Hello-World: "
              +:+ "can't compare offset-naive and offset-aware datetimes").
Proof. cbv zeta. repeat split; vm_compute; reflexivity. Qed.

(** * Further properties *)

(** ** Formatting *)

Lemma commit_section_firstn commits :
  commit_section (firstn 10 commits) = commit_section commits.
Proof.
  destruct commits as [|c rest]; [reflexivity|].
  unfold commit_section. rewrite firstn_cons.
  change (c :: firstn 9 rest) with (firstn 10 (c :: rest)).
  rewrite firstn_firstn. reflexivity.
Qed.

Lemma pull_section_firstn pulls :
  pull_section (firstn 5 pulls) = pull_section pulls.
Proof.
  destruct pulls as [|p rest]; [reflexivity|].
  unfold pull_section. rewrite firstn_cons.
  change (p :: firstn 4 rest) with (firstn 5 (p :: rest)).
  rewrite firstn_firstn. reflexivity.
Qed.

(** X1. Commits after the tenth and pull requests after the fifth have no
    influence on the text. *)
Theorem format_ignores_overflow (commits : list commit) (pulls : list pull) :
  format_changes_for_ai (firstn 10 commits) (firstn 5 pulls)
  = format_changes_for_ai commits pulls.
Proof.
  unfold format_changes_for_ai, format_content.
  rewrite commit_section_firstn, pull_section_firstn. reflexivity.
Qed.

(** X2. The content has one header and at most ten lines for the commits,
    one header and at most five lines for the pull requests: never more
    than seventeen entries, whatever is fetched. *)
Theorem format_line_budget (commits : list commit) (pulls : list pull) :
  length (format_content commits pulls)
  = ((match commits with [] => 0 | _ :: _ => 1 + Nat.min 10 (length commits) end)
     + (match pulls with [] => 0 | _ :: _ => 1 + Nat.min 5 (length pulls) end))%nat
  /\ (length (format_content commits pulls) <= 17)%nat.
Proof.
  assert (Hlen : length (format_content commits pulls)
                 = ((match commits with
                     | [] => 0
                     | _ :: _ => 1 + Nat.min 10 (length commits)
                     end)
                    + (match pulls with
                       | [] => 0
                       | _ :: _ => 1 + Nat.min 5 (length pulls)
                       end))%nat).
  { unfold format_content, commit_section, pull_section.
    rewrite length_app.
    destruct commits as [|c cs]; destruct pulls as [|p ps];
      cbn [length]; rewrite ?length_map, ?length_firstn; reflexivity. }
  split; [exact Hlen|]. rewrite Hlen.
  destruct commits; destruct pulls; lia.
Qed.

Lemma first_line_idempotent text :
  Str.first_line (Str.first_line text) = Str.first_line text.
Proof.
  induction text as [|c rest IH]; [reflexivity|]. cbn.
  destruct (Ascii.eqb c "010") eqn:Hc; [reflexivity|].
  cbn. rewrite Hc, IH. reflexivity.
Qed.

Lemma first_line_append head tail :
  Str.first_line (head +:+ Str.nl +:+ tail) = Str.first_line head.
Proof.
  induction head as [|c rest IH]; [reflexivity|].
  change (String c rest +:+ Str.nl +:+ tail)
    with (String c (rest +:+ Str.nl +:+ tail)).
  cbn [Str.first_line].
  destruct (Ascii.eqb c "010"); [reflexivity|].
  f_equal. exact IH.
Qed.

(** X3. Of a commit message only the text before its first line feed is
    read: appending a line feed and anything else to a message changes no
    line, and cutting every message down to its first line changes no
    text. *)
Theorem format_reads_first_line_only
  (commits : list commit) (pulls : list pull) :
  (forall sha0 head tail author date,
      commit_line (Commit sha0 (head +:+ Str.nl +:+ tail) author date)
      = commit_line (Commit sha0 head author date))
  /\ format_changes_for_ai
       (map (fun c => Commit (sha c) (Str.first_line (message c))
                             (author_name c) (author_date c))
            commits)
       pulls
     = format_changes_for_ai commits pulls.
Proof.
  split.
  - intros sha0 head tail author date. unfold commit_line. cbn [message].
    rewrite first_line_append. reflexivity.
  - set (f := fun c => Commit (sha c) (Str.first_line (message c))
                             (author_name c) (author_date c)).
    unfold format_changes_for_ai, format_content. f_equal. f_equal.
    destruct commits as [|c rest]; [reflexivity|].
    change (commit_section (map f (c :: rest)))
      with ("Recent Commits:"
            :: map commit_line (firstn 10 (map f (c :: rest)))).
    unfold commit_section. f_equal.
    rewrite firstn_map, map_map. apply map_ext.
    intros c0. unfold commit_line, f. cbn [message author_name author_date].
    rewrite first_line_idempotent. reflexivity.
Qed.

Lemma join_starts_with c first rest :
  exists tail, Str.join Str.nl (String c first :: rest) = String c tail.
Proof. destruct rest; cbn; eexists; reflexivity. Qed.

(** X4. The text is empty exactly when there is neither a commit nor a
    pull request; with pull requests and no commit it opens with a line
    feed, the one the pull-request header carries. *)
Theorem format_empty_iff_no_changes
  (commits : list commit) (pulls : list pull) :
  (format_changes_for_ai commits pulls = "" <-> commits = [] /\ pulls = [])
  /\ (commits = [] -> pulls <> [] ->
      exists tail, format_changes_for_ai commits pulls = String "010" tail).
Proof.
  split.
  - split.
    + intros Hempty. unfold format_changes_for_ai, format_content in Hempty.
      destruct commits as [|c cs].
      * split; [reflexivity|]. destruct pulls as [|p ps]; [reflexivity|].
        cbn [commit_section pull_section app] in Hempty.
        destruct (join_starts_with "010" "Recent Pull Requests:"
                    (map pull_line (firstn 5 (p :: ps)))) as [tail Ht].
        change (Str.nl +:+ "Recent Pull Requests:")
          with (String "010" "Recent Pull Requests:") in Hempty.
        rewrite Ht in Hempty. discriminate.
      * cbn [commit_section app] in Hempty.
        destruct (join_starts_with "R" "ecent Commits:"
                    (map commit_line (firstn 10 (c :: cs)) ++ pull_section pulls))
          as [tail Ht].
        change ("Recent Commits:" :: map commit_line (firstn 10 (c :: cs))
                ++ pull_section pulls)
          with (String "R" "ecent Commits:"
                :: (map commit_line (firstn 10 (c :: cs)) ++ pull_section pulls))
          in Hempty.
        rewrite Ht in Hempty. discriminate.
    + intros [-> ->]. reflexivity.
  - intros -> Hpulls. destruct pulls as [|p ps]; [congruence|].
    unfold format_changes_for_ai, format_content.
    cbn [commit_section pull_section app].
    apply (join_starts_with "010" "Recent Pull Requests:").
Qed.

(** ** The store *)

(** X5. [update_repo_state] followed by [get_last_check_time] reads back
    the clock reading of the update, in ISO format; the update replaces the
    row of the repository whole, SHA included, and touches neither another
    repository's row nor the summaries. *)
Theorem update_then_read_watermark
  (E : oracle) (w : world) (repo last_commit_sha : string) :
  exists w',
    update_repo_state E repo last_commit_sha w = (Ok tt, w')
    /\ get_last_check_time repo w'
       = (Ok (Some (Datetime.isoformat (utcnow E (tick w)))), w')
    /\ last_sha_of (db w') repo = last_commit_sha
    /\ (forall other,
           other <> repo ->
           repo_states (db w') !! other = repo_states (db w) !! other)
    /\ summaries (db w') = summaries (db w).
Proof.
  eexists. split; [reflexivity|].
  unfold get_last_check_time, bind, get_db, ret, last_sha_of.
  cbn [db repo_states summaries].
  rewrite lookup_insert_eq. repeat split.
  intros other Hother. apply lookup_insert_ne. congruence.
Qed.

(** The rows a check can leave: those it found, or those and one more. *)
Lemma check_rows E model s repo :
  let s' := snd (check_repo_for_changes E model repo s) in
  (db s' = db s)
  \/ (exists commits pulls,
         (0 < length commits + length pulls)%nat
         /\ db s' = cycle_db E model s repo commits pulls).
Proof.
  cbv zeta.
  destruct (check_cases E model s repo) as (r & s' & Hrun & _ & Hdb).
  rewrite Hrun. cbn [snd].
  destruct Hdb as [[_ Hsame]|(commits & pulls & Hpos & _ & Hnew)].
  - left. exact Hsame.
  - right. exists commits, pulls. split; assumption.
Qed.

(** A property of the database kept by every check is kept by every
    batch. *)
Lemma batch_keeps E model (Q : database -> Prop) :
  (forall repo s, Q (db s) -> Q (db (snd (check_repo_for_changes E model repo s)))) ->
  forall repo_list s,
    Q (db s) -> Q (db (snd (check_all_repos E model repo_list s))).
Proof.
  intros Hstep repo_list s HQ.
  rewrite check_all_repos_run. cbn [snd loop_end db].
  assert (Hloop : forall l w, Q (db w) -> Q (db (snd (check_each E model l w)))).
  { induction l as [|repo rest IH]; intros w Hw; [exact Hw|].
    rewrite check_each_cons. apply IH. apply Hstep. exact Hw. }
  apply Hloop. exact HQ.
Qed.

Lemma next_id_above rows :
  Forall (fun i => (i < next_id rows)%nat) (map row_id rows).
Proof.
  unfold next_id. induction rows as [|row rest IH]; cbn; constructor.
  - lia.
  - eapply List.Forall_impl; [|exact IH]. cbn. intros i Hi. lia.
Qed.

Lemma increasing_snoc ids i :
  StronglySorted lt ids -> Forall (fun j => (j < i)%nat) ids ->
  StronglySorted lt (ids ++ [i]).
Proof.
  induction ids as [|j rest IH]; intros Hsorted Hbelow; cbn.
  - constructor; constructor.
  - inversion Hsorted; subst. inversion Hbelow; subst.
    constructor; [apply IH; assumption|].
    apply Forall_app. split; [assumption|]. constructor; [assumption|constructor].
Qed.

(** X6. The ids of the summaries stay strictly increasing, hence distinct:
    every row a check appends gets an id above all the ids stored, and so
    does every row of a batch. *)
Theorem summary_ids_stay_increasing
  (E : oracle) (model : string) (repo_list : list string) (s : world) :
  StronglySorted lt (map row_id (summaries (db s))) ->
  StronglySorted lt
    (map row_id (summaries (db (snd (check_all_repos E model repo_list s)))))
  /\ NoDup
       (map row_id (summaries (db (snd (check_all_repos E model repo_list s)))))
  /\ forall repo,
       StronglySorted lt
         (map row_id
              (summaries (db (snd (check_repo_for_changes E model repo s))))).
Proof.
  intros Hsorted.
  assert (Hstep : forall repo w,
             StronglySorted lt (map row_id (summaries (db w))) ->
             StronglySorted lt
               (map row_id
                    (summaries (db (snd (check_repo_for_changes E model repo w)))))).
  { intros repo w Hw.
    destruct (check_rows E model w repo) as [->|(commits & pulls & _ & ->)];
      [exact Hw|].
    unfold cycle_db, cycle_row. cbn [summaries]. rewrite map_app. cbn [map row_id].
    apply increasing_snoc; [exact Hw|apply next_id_above]. }
  pose proof (batch_keeps E model
                (fun d => StronglySorted lt (map row_id (summaries d)))
                Hstep repo_list s Hsorted) as Hbatch.
  split; [exact Hbatch|]. split.
  - clear - Hbatch.
    induction Hbatch as [|i rest Hrest IH Hall]; constructor; [|exact IH].
    intros Hin. rewrite Forall_forall in Hall. specialize (Hall i Hin). lia.
  - intros repo. apply Hstep. exact Hsorted.
Qed.

Lemma summary_ids_stay_increasing_witness :
  let s := snd (check_repo_for_changes Examples.busy Examples.model
                                       Examples.hello Examples.fresh) in
  StronglySorted lt (map row_id (summaries (db s)))
  /\ NoDup (map row_id
                (summaries
                   (db (snd (check_all_repos Examples.partly_down Examples.model
                                             [Examples.hello; "a/b"] s))))).
Proof.
  intros s.
  assert (Hsorted : StronglySorted lt (map row_id (summaries (db s)))).
  { vm_compute. repeat constructor. }
  split; [exact Hsorted|].
  exact (proj1 (proj2 (summary_ids_stay_increasing
                         Examples.partly_down Examples.model
                         [Examples.hello; "a/b"] s Hsorted))).
Defined.

(** X7. The summaries are append-only: a check keeps every stored row and
    appends at most one, for the repository checked; a batch appends at
    most one row per listed repository, in list order. *)
Theorem batch_appends_in_list_order
  (E : oracle) (model : string) (repo_list : list string) (s : world) :
  (forall repo,
      exists added,
        summaries (db (snd (check_repo_for_changes E model repo s)))
        = summaries (db s) ++ added
        /\ (length added <= 1)%nat
        /\ Forall (fun row => row_repo_name row = repo) added)
  /\ exists added,
       summaries (db (snd (check_all_repos E model repo_list s)))
       = summaries (db s) ++ added
       /\ sublist (map row_repo_name added) repo_list.
Proof.
  assert (Hstep : forall repo w,
             exists added,
               summaries (db (snd (check_repo_for_changes E model repo w)))
               = summaries (db w) ++ added
               /\ (added = []
                   \/ exists row, added = [row] /\ row_repo_name row = repo)).
  { intros repo w.
    destruct (check_rows E model w repo) as [->|(commits & pulls & _ & ->)].
    - exists []. split; [symmetry; apply app_nil_r|left; reflexivity].
    - eexists. split; [reflexivity|]. right. eexists. split; reflexivity. }
  split.
  - intros repo. destruct (Hstep repo s) as (added & Hrows & Hadded).
    exists added. split; [exact Hrows|].
    destruct Hadded as [->|(row & -> & Hname)]; cbn; split; auto.
  - rewrite check_all_repos_run. cbn [snd loop_end db].
    change (summaries (db s)) with (summaries (db (loop_start E s))).
    generalize (loop_start E s). clear s.
    induction repo_list as [|repo rest IH]; intros w.
    + exists []. split; [symmetry; apply app_nil_r|constructor].
    + rewrite check_each_cons.
      destruct (Hstep repo w) as (first & Hfirst & Hshape).
      destruct (IH (snd (check_repo_for_changes E model repo w)))
        as (more & Hmore & Hsub).
      exists (first ++ more). split.
      * rewrite Hmore, Hfirst, app_assoc. reflexivity.
      * destruct Hshape as [->|(row & -> & Hname)]; cbn [app map].
        -- apply sublist_cons. exact Hsub.
        -- rewrite Hname. apply sublist_skip. exact Hsub.
Qed.

(** X8. Every summary belongs to a repository that has a state row: the
    check writes the row before it appends the summary and no row is ever
    removed, so a batch keeps that property. *)
Theorem summaries_keep_their_repo_row
  (E : oracle) (model : string) (repo_list : list string) (s : world) :
  Forall (fun row => is_Some (repo_states (db s) !! row_repo_name row))
         (summaries (db s)) ->
  let s' := snd (check_all_repos E model repo_list s) in
  Forall (fun row => is_Some (repo_states (db s') !! row_repo_name row))
         (summaries (db s')).
Proof.
  intros Hs. cbv zeta.
  apply (batch_keeps E model
           (fun d => Forall (fun row => is_Some (repo_states d !! row_repo_name row))
                            (summaries d))); [|exact Hs].
  intros repo w Hw.
  destruct (check_rows E model w repo) as [->|(commits & pulls & _ & ->)];
    [exact Hw|].
  unfold cycle_db, cycle_row. cbn [repo_states summaries].
  apply Forall_app. split.
  - eapply List.Forall_impl; [|exact Hw]. cbn. intros row [v Hv].
    destruct (decide (repo = row_repo_name row)) as [->|Hne].
    + rewrite lookup_insert_eq. eexists. reflexivity.
    + rewrite lookup_insert_ne by exact Hne. eexists. exact Hv.
  - constructor; [|constructor]. cbn [row_repo_name].
    rewrite lookup_insert_eq. eexists. reflexivity.
Qed.

Lemma summaries_keep_their_repo_row_witness :
  let s' := snd (check_all_repos Examples.partly_down Examples.model
                                 [Examples.hello; Examples.broken; "a/b"]
                                 Examples.fresh) in
  Forall (fun row => is_Some (repo_states (db Examples.fresh)
                              !! row_repo_name row))
         (summaries (db Examples.fresh))
  /\ Forall (fun row => is_Some (repo_states (db s') !! row_repo_name row))
            (summaries (db s'))
  /\ length (summaries (db s')) = 2%nat.
Proof.
  intros s'.
  assert (H0 : Forall (fun row => is_Some (repo_states (db Examples.fresh)
                                           !! row_repo_name row))
                      (summaries (db Examples.fresh))) by constructor.
  split; [exact H0|]. split.
  - exact (summaries_keep_their_repo_row
             Examples.partly_down Examples.model
             [Examples.hello; Examples.broken; "a/b"] Examples.fresh H0).
  - vm_compute. reflexivity.
Defined.

(** X9. A check changes the row of no repository but the one checked, and
    a batch leaves the rows of the repositories it does not list as they
    were. *)
Theorem unlisted_repos_untouched
  (E : oracle) (model : string) (repo_list : list string) (s : world)
  (other : string) :
  ~ In other repo_list ->
  repo_states (db (snd (check_all_repos E model repo_list s))) !! other
  = repo_states (db s) !! other.
Proof.
  intros Hout.
  rewrite check_all_repos_run. cbn [snd loop_end db].
  change (repo_states (db s)) with (repo_states (db (loop_start E s))).
  generalize (loop_start E s). clear s.
  induction repo_list as [|repo rest IH]; intros w; [reflexivity|].
  rewrite check_each_cons, IH by (intros Hin; apply Hout; right; exact Hin).
  destruct (check_rows E model w repo) as [->|(commits & pulls & _ & ->)];
    [reflexivity|].
  unfold cycle_db. cbn [repo_states].
  apply lookup_insert_ne. intros ->. apply Hout. left. reflexivity.
Qed.

Lemma unlisted_repos_untouched_witness :
  ~ In Examples.hello [Examples.broken; "a/b"]
  /\ repo_states
       (db (snd (check_all_repos Examples.partly_down Examples.model
                                 [Examples.broken; "a/b"]
                                 Examples.checked_in_march)))
     !! Examples.hello
     = Some ("abc123", "2024-03-01T00:00:00+00:00").
Proof.
  assert (Hout : ~ In Examples.hello [Examples.broken; "a/b"]).
  { intros [H|[H|[]]]; vm_compute in H; discriminate. }
  split; [exact Hout|].
  rewrite (unlisted_repos_untouched
             Examples.partly_down Examples.model [Examples.broken; "a/b"]
             Examples.checked_in_march Examples.hello Hout).
  vm_compute. reflexivity.
Defined.

(** ** The check cycle *)

(** The two [except] clauses, with the line they print. *)
Lemma check_of_raise_line E model s repo e s' :
  check_repo_body E model repo s = (Raise e, s') ->
  check_repo_for_changes E model repo s
  = (Ok None,
     World (db s') (tick s') (trace s' ++ [Print (error_line repo e)])).
Proof.
  intros H. unfold check_repo_for_changes. rewrite H.
  destruct e; reflexivity.
Qed.

(** X10. On the first check of a repository, which has no stored row and
    so no filter, a cycle that fetched commits stores the SHA of the first
    one, the newest, whatever the pull requests are, and sets the
    watermark to the clock reading of the cycle. *)
Theorem commit_cycle_stores_newest_sha
  (E : oracle) (model : string) (s : world) (repo : string)
  (newest : commit) (older : list commit) (fetched_pulls : list pull) :
  last_check_of (db s) repo = None ->
  fetched E s repo (newest :: older) fetched_pulls ->
  exists text s',
    check_repo_for_changes E model repo s = (Ok (Some text), s')
    /\ repo_states (db s') !! repo
       = Some (sha newest,
               Datetime.isoformat (utcnow E (3 + fetch_tick s repo))).
Proof.
  intros Hfirst Hfetch.
  assert (Hfilter : filter_pulls (last_check_of (db s) repo) fetched_pulls
                    = Ok fetched_pulls) by (rewrite Hfirst; reflexivity).
  destruct (check_found E model s repo (newest :: older) fetched_pulls
              fetched_pulls Hfetch Hfilter ltac:(cbn; lia))
    as (since & _ & Hrun).
  eexists _, _. split; [exact Hrun|].
  unfold cycle_db, cycle_state. cbn [db repo_states].
  apply lookup_insert_eq.
Qed.

Lemma commit_cycle_stores_newest_sha_witness :
  last_check_of (db Examples.fresh) Examples.hello = None
  /\ fetched Examples.busy Examples.fresh Examples.hello [Examples.fix_bug]
             [Examples.change 2 "2024-03-11T00:00:00Z"]
  /\ exists text s',
       check_repo_for_changes Examples.busy Examples.model Examples.hello
                              Examples.fresh = (Ok (Some text), s')
       /\ repo_states (db s') !! Examples.hello
          = Some ("abc123", "2024-03-10T12:00:04").
Proof.
  assert (Hfirst : last_check_of (db Examples.fresh) Examples.hello = None)
    by (vm_compute; reflexivity).
  assert (Hfetch : fetched Examples.busy Examples.fresh Examples.hello
                           [Examples.fix_bug]
                           [Examples.change 2 "2024-03-11T00:00:00Z"]).
  { eexists. repeat split; vm_compute; reflexivity. }
  split; [exact Hfirst|]. split; [exact Hfetch|].
  destruct (commit_cycle_stores_newest_sha
              Examples.busy Examples.model Examples.fresh Examples.hello
              Examples.fix_bug [] [Examples.change 2 "2024-03-11T00:00:00Z"]
              Hfirst Hfetch)
    as (text & s' & Hrun & Hrow).
  exists text, s'. split; [exact Hrun|].
  rewrite Hrow. vm_compute. reflexivity.
Defined.

(** X11. The watermark a check stores is the [since] of the next check of
    that repository: after a check that produced a summary, the next one
    reads no clock before fetching and asks for the commits since exactly
    the stored timestamp. *)
Theorem next_check_fetches_since_watermark
  (E : oracle) (model : string) (s0 s1 : world) (repo text : string) :
  check_repo_for_changes E model repo s0 = (Ok (Some text), s1) ->
  let watermark := Datetime.isoformat (utcnow E (3 + fetch_tick s0 repo)) in
  last_check_of (db s1) repo = Some watermark
  /\ since_param E s1 repo = Ok watermark
  /\ fetch_tick s1 repo = tick s1
  /\ exists more,
       trace (snd (check_repo_for_changes E model repo s1))
       = trace s1
         ++ checking repo
            :: HttpGet (commits_url repo) [("since", watermark)] :: more.
Proof.
  intros Hfirst watermark.
  assert (Hstored : last_check_of (db s1) repo = Some watermark).
  { destruct (check_cases E model s0 repo) as (r & s' & Hrun & _ & Hdb).
    rewrite Hfirst in Hrun. inversion Hrun; subst r s'.
    destruct Hdb as [[Hnone _]|(commits & pulls & _ & _ & Hdb)];
      [discriminate|].
    rewrite Hdb. apply cycle_db_last_check. }
  assert (Htruthy : Str.truthy watermark = true) by apply isoformat_truthy.
  assert (Hsince : since_param E s1 repo = Ok watermark).
  { unfold since_param. rewrite Hstored, Htruthy. reflexivity. }
  split; [exact Hstored|]. split; [exact Hsince|]. split.
  - unfold fetch_tick. rewrite Hstored. cbn [truthy]. rewrite Htruthy.
    reflexivity.
  - apply check_trace_since. exact Hsince.
Qed.

Lemma next_check_fetches_since_watermark_witness :
  let first := check_repo_for_changes Examples.busy Examples.model
                                      Examples.hello Examples.fresh in
  first = (Ok (Some "One fix by Alice."), snd first)
  /\ since_param Examples.busy (snd first) Examples.hello
     = Ok "2024-03-10T12:00:04".
Proof.
  intros first.
  assert (Hfirst : first = (Ok (Some "One fix by Alice."), snd first))
    by (vm_compute; reflexivity).
  split; [exact Hfirst|].
  destruct (next_check_fetches_since_watermark
              Examples.busy Examples.model Examples.fresh (snd first)
              Examples.hello "One fix by Alice." Hfirst)
    as (_ & Hsince & _).
  rewrite Hsince. vm_compute. reflexivity.
Defined.

(** X12. A check calls the generation API exactly once when it returns a
    summary and never otherwise; it sends at most two requests to the
    hosting API, for the commits first and then for the pull requests. *)
Theorem generation_called_once_per_summary
  (E : oracle) (model : string) (s : world) (repo : string) :
  let run := check_repo_for_changes E model repo s in
  exists added,
    trace (snd run) = trace s ++ added
    /\ chat_calls added
       = (match fst run with Ok (Some _) => 1 | _ => 0 end)%nat
    /\ (http_calls added = []
        \/ http_calls added = [commits_url repo]
        \/ http_calls added = [commits_url repo; pulls_url repo]).
Proof.
  cbv zeta.
  destruct (check_repo_body E model repo s) as [[r|e] s'] eqn:Hbody.
  - rewrite (check_of_ok E model s repo r s' Hbody). cbn [fst snd].
    revert Hbody. rewrite body_run. cbv zeta.
    unfold cycle_events, fetch_events.
    destruct (since_param E s repo) as [since|e0]; [|discriminate].
    destruct (commits_json E _ _ _) as [commits|e1]; [|discriminate].
    destruct (pulls_json E _ _ _) as [fetched_pulls|e2]; [|discriminate].
    destruct (filter_pulls _ _) as [pulls|e3]; [|discriminate].
    destruct (length commits + length pulls =? 0)%nat;
      intros H; inversion H; subst; cbn [trace];
      eexists; (split; [reflexivity|]); split;
      try reflexivity; right; right; reflexivity.
  - rewrite (check_of_raise_line E model s repo e s' Hbody). cbn [fst snd trace].
    revert Hbody. rewrite body_run. cbv zeta. unfold fetch_events.
    destruct (since_param E s repo) as [since|e0].
    2:{ intros H; inversion H; subst; cbn [trace]. rewrite <- app_assoc.
        eexists. split; [reflexivity|]. split; [reflexivity|].
        left. reflexivity. }
    destruct (commits_json E _ _ _) as [commits|e1].
    2:{ intros H; inversion H; subst; cbn [trace]. rewrite <- app_assoc.
        eexists. split; [reflexivity|]. split; [reflexivity|].
        right. left. reflexivity. }
    destruct (pulls_json E _ _ _) as [fetched_pulls|e2].
    2:{ intros H; inversion H; subst; cbn [trace]. rewrite <- app_assoc.
        eexists. split; [reflexivity|]. split; [reflexivity|].
        right. right. reflexivity. }
    destruct (filter_pulls _ _) as [pulls|e3].
    2:{ intros H; inversion H; subst; cbn [trace]. rewrite <- app_assoc.
        eexists. split; [reflexivity|]. split; [reflexivity|].
        right. right. reflexivity. }
    destruct (length commits + length pulls =? 0)%nat; discriminate.
Qed.

(** X13. When the commits request fails, the pull requests are not asked
    for: the check prints "Error fetching data for ..." for a
    [RequestException] and "Unexpected error for ..." for anything else,
    returns [None] and leaves the database as it was. *)
Theorem commit_fetch_failure_short_circuits
  (E : oracle) (model : string) (s : world) (repo since : string) (e : exn) :
  since_param E s repo = Ok since ->
  commits_json E (fetch_tick s repo) (commits_url repo) [("since", since)]
  = Raise e ->
  check_repo_for_changes E model repo s
  = (Ok None,
     World (db s) (S (fetch_tick s repo))
           (trace s
            ++ [checking repo;
                HttpGet (commits_url repo) [("since", since)];
                Print (error_line repo e)])).
Proof.
  intros Hsince Hfail.
  assert (Hbody : check_repo_body E model repo s
                  = (Raise e,
                     World (db s) (S (fetch_tick s repo))
                           (trace s
                            ++ [checking repo;
                                HttpGet (commits_url repo) [("since", since)]]))).
  { rewrite body_run. cbv zeta. rewrite Hsince, Hfail. reflexivity. }
  rewrite (check_of_raise_line E model s repo e _ Hbody).
  cbn [db tick trace]. rewrite <- app_assoc. reflexivity.
Qed.

Lemma commit_fetch_failure_short_circuits_witness :
  let e := RequestException "404 Client Error: Not Found" in
  since_param Examples.partly_down Examples.fresh Examples.broken
  = Ok "2024-03-03T12:00:00"
  /\ commits_json Examples.partly_down
                  (fetch_tick Examples.fresh Examples.broken)
                  (commits_url Examples.broken)
                  [("since", "2024-03-03T12:00:00")] = Raise e
  /\ http_calls
       (trace (snd (check_repo_for_changes Examples.partly_down Examples.model
                                           Examples.broken Examples.fresh)))
     = [commits_url Examples.broken].
Proof.
  intros e.
  assert (Hsince : since_param Examples.partly_down Examples.fresh
                               Examples.broken = Ok "2024-03-03T12:00:00")
    by (vm_compute; reflexivity).
  assert (Hfail : commits_json Examples.partly_down
                    (fetch_tick Examples.fresh Examples.broken)
                    (commits_url Examples.broken)
                    [("since", "2024-03-03T12:00:00")] = Raise e)
    by (vm_compute; reflexivity).
  split; [exact Hsince|]. split; [exact Hfail|].
  rewrite (commit_fetch_failure_short_circuits
             Examples.partly_down Examples.model Examples.fresh
             Examples.broken _ e Hsince Hfail).
  vm_compute. reflexivity.
Defined.

(** X14. When the filter raises (a timestamp that does not parse, or two
    that cannot be compared), everything fetched is dropped: the check
    prints the error and returns [None] without calling the generator and
    without writing, even if commits were fetched. *)
Theorem filter_failure_drops_fetched_commits
  (E : oracle) (model : string) (s : world) (repo : string)
  (commits : list commit) (fetched_pulls : list pull) (e : exn) :
  fetched E s repo commits fetched_pulls ->
  filter_pulls (last_check_of (db s) repo) fetched_pulls = Raise e ->
  exists since,
    since_param E s repo = Ok since
    /\ check_repo_for_changes E model repo s
       = (Ok None,
          World (db s) (2 + fetch_tick s repo)
                (trace s ++ fetch_events repo since
                 ++ [Print (error_line repo e)])).
Proof.
  intros (since & Hs & Hc & Hp) Hfilter.
  exists since. split; [exact Hs|].
  assert (Hbody : check_repo_body E model repo s
                  = (Raise e,
                     World (db s) (S (S (fetch_tick s repo)))
                           (trace s ++ fetch_events repo since))).
  { rewrite body_run. cbv zeta. rewrite Hs, Hc, Hp, Hfilter. reflexivity. }
  rewrite (check_of_raise_line E model s repo e _ Hbody).
  cbn [db tick trace]. rewrite <- app_assoc. reflexivity.
Qed.

Lemma filter_failure_drops_fetched_commits_witness :
  let s1 := snd (check_repo_for_changes Examples.busy Examples.model
                                        Examples.hello Examples.fresh) in
  let e := TypeError "can't compare offset-naive and offset-aware datetimes" in
  fetched Examples.busy s1 Examples.hello [Examples.fix_bug]
          [Examples.change 2 "2024-03-11T00:00:00Z"]
  /\ filter_pulls (last_check_of (db s1) Examples.hello)
                  [Examples.change 2 "2024-03-11T00:00:00Z"] = Raise e
  /\ fst (check_repo_for_changes Examples.busy Examples.model Examples.hello s1)
     = Ok None.
Proof.
  intros s1 e.
  assert (Hfetch : fetched Examples.busy s1 Examples.hello [Examples.fix_bug]
                           [Examples.change 2 "2024-03-11T00:00:00Z"]).
  { eexists. repeat split; vm_compute; reflexivity. }
  assert (Hfilter : filter_pulls (last_check_of (db s1) Examples.hello)
                      [Examples.change 2 "2024-03-11T00:00:00Z"] = Raise e)
    by (vm_compute; reflexivity).
  split; [exact Hfetch|]. split; [exact Hfilter|].
  destruct (filter_failure_drops_fetched_commits
              Examples.busy Examples.model s1 Examples.hello
              [Examples.fix_bug] [Examples.change 2 "2024-03-11T00:00:00Z"] e
              Hfetch Hfilter) as (since & _ & Hrun).
  rewrite Hrun. reflexivity.
Defined.

(** ** Timestamps: written naive, fetched aware *)

(** *** Numerals

    [Str.dec] writes the digits of its argument, the most significant
    first, and as many as needed. *)
Lemma dec_digits_digits fuel : forall n acc,
  (1 <= fuel)%nat -> 0 <= n < 10 ^ Z.of_nat fuel ->
  exists k, (1 <= k <= fuel)%nat /\ n < 10 ^ Z.of_nat k
            /\ (k = 1%nat \/ 10 ^ (Z.of_nat k - 1) <= n)
            /\ Str.dec_digits fuel n acc = digits k n acc.
Proof.
  induction fuel as [|f IH]; intros n acc Hf Hn; [lia|].
  cbn [Str.dec_digits]. destruct (n <? 10) eqn:Hlt.
  - apply Z.ltb_lt in Hlt. exists 1%nat. repeat split; lia.
  - apply Z.ltb_ge in Hlt.
    rewrite Nat2Z.inj_succ, Z.pow_succ_r in Hn by lia.
    assert (Hq : 0 <= n / 10 < 10 ^ Z.of_nat f).
    { split; [apply Z.div_pos; lia|].
      apply Z.div_lt_upper_bound; lia. }
    assert (1 <= n / 10) by (apply Z.div_le_lower_bound; lia).
    assert (1 <= f)%nat.
    { destruct f; [cbn in Hq; lia|lia]. }
    destruct (IH (n / 10) (String (Str.digit_char (n mod 10)) acc))
      as (k & Hk & Hup & Hlow & Heq); [assumption..|].
    exists (S k). repeat split; try lia.
    + rewrite Nat2Z.inj_succ, Z.pow_succ_r by lia.
      pose proof (Z.mod_pos_bound n 10).
      pose proof (Z.div_mod n 10). lia.
    + right.
      replace (Z.of_nat (S k) - 1) with (Z.succ (Z.of_nat k - 1)) by lia.
      rewrite Z.pow_succ_r by lia.
      pose proof (Z.mul_div_le n 10).
      destruct Hlow as [->|Hlow]; [cbn; lia|lia].
    + exact Heq.
Qed.

Lemma zeros_snoc k acc :
  Str.zeros k +:+ String "0" acc = String "0" (Str.zeros k +:+ acc).
Proof.
  induction k as [|k IH]; [reflexivity|].
  change (String "0" (Str.zeros k +:+ String "0" acc)
          = String "0" (String "0" (Str.zeros k +:+ acc))).
  now f_equal.
Qed.

Lemma digits_zero k : forall acc, digits k 0 acc = Str.zeros k +:+ acc.
Proof.
  induction k as [|k IH]; intros acc; [reflexivity|].
  cbn [digits]. change (0 / 10) with 0. change (0 mod 10) with 0.
  rewrite IH. apply zeros_snoc.
Qed.

Lemma digits_pad j k : forall n acc,
  0 <= n < 10 ^ Z.of_nat k ->
  digits (j + k) n acc = Str.zeros j +:+ digits k n acc.
Proof.
  induction k as [|k IH]; intros n acc Hn.
  - cbn in Hn. assert (n = 0) as -> by lia.
    rewrite Nat.add_0_r. apply digits_zero.
  - rewrite Nat.add_succ_r. cbn [digits].
    rewrite Nat2Z.inj_succ, Z.pow_succ_r in Hn by lia.
    apply IH. split; [apply Z.div_pos; lia|].
    apply Z.div_lt_upper_bound; lia.
Qed.

Lemma digits_length k : forall n acc,
  String.length (digits k n acc) = (k + String.length acc)%nat.
Proof.
  induction k as [|k IH]; intros n acc; [reflexivity|].
  cbn [digits]. rewrite IH. cbn. lia.
Qed.

(** The fuel of [Str.dec] is enough. *)
Lemma dec_fuel n : 0 <= n -> n < 10 ^ Z.of_nat (S (Z.to_nat (Z.log2 n))).
Proof.
  intros Hn. rewrite Nat2Z.inj_succ, Z2Nat.id by apply Z.log2_nonneg.
  destruct (Z.eq_dec n 0) as [->|Hne]; [reflexivity|].
  pose proof (Z.log2_spec n ltac:(lia)) as [_ Hup].
  pose proof (Z.log2_nonneg n).
  eapply Z.lt_le_trans; [exact Hup|].
  apply Z.pow_le_mono_l. lia.
Qed.

(** ["%0<w>d" % n] is the [w] digits of [n] when [n] has at most [w]. *)
Lemma fmt_d_digits w n :
  (1 <= w)%nat -> 0 <= n < 10 ^ Z.of_nat w -> Str.fmt_d w n = digits w n "".
Proof.
  intros Hw Hn. unfold Str.fmt_d.
  destruct (n <? 0) eqn:Hneg; [apply Z.ltb_lt in Hneg; lia|].
  unfold Str.zfill, Str.dec.
  destruct (dec_digits_digits (S (Z.to_nat (Z.log2 n))) n "")
    as (k & Hk & Hup & Hlow & ->);
    [lia|split; [lia|apply dec_fuel; lia]|].
  rewrite digits_length. cbn [String.length]. rewrite Nat.add_0_r.
  assert (k <= w)%nat.
  { destruct Hlow as [->|Hlow]; [lia|].
    destruct (Nat.le_gt_cases k w) as [|Hgt]; [assumption|].
    assert (10 ^ Z.of_nat w <= 10 ^ (Z.of_nat k - 1))
      by (apply Z.pow_le_mono_r; lia).
    lia. }
  rewrite <- digits_pad by lia.
  f_equal. lia.
Qed.

Lemma digit_of_digit_char d :
  0 <= d <= 9 -> Datetime.digit_of (Str.digit_char d) = Some d.
Proof.
  intros Hd.
  assert (d = 0 \/ d = 1 \/ d = 2 \/ d = 3 \/ d = 4 \/ d = 5 \/ d = 6
          \/ d = 7 \/ d = 8 \/ d = 9) as H by lia.
  repeat (destruct H as [->|H]; [reflexivity|]). subst. reflexivity.
Qed.

(** The fields of a datetime in range fit their numerals. *)
Lemma valid_ranges d :
  Datetime.valid d = true ->
  0 <= Datetime.year d < 10 ^ Z.of_nat 4
  /\ 0 <= Datetime.month d < 10 ^ Z.of_nat 2
  /\ 0 <= Datetime.day d < 10 ^ Z.of_nat 2
  /\ 0 <= Datetime.hour d < 10 ^ Z.of_nat 2
  /\ 0 <= Datetime.minute d < 10 ^ Z.of_nat 2
  /\ 0 <= Datetime.second d < 10 ^ Z.of_nat 2
  /\ 0 <= Datetime.microsecond d < 10 ^ Z.of_nat 6.
Proof.
  unfold Datetime.valid, Datetime.check_date_fields,
    Datetime.check_time_fields, Datetime.MINYEAR, Datetime.MAXYEAR.
  intros H. repeat (apply andb_prop in H; destruct H as [H ?]).
  repeat match goal with
         | H : (_ <=? _) = true |- _ => apply Z.leb_le in H
         end.
  assert (Datetime.days_in_month (Datetime.year d) (Datetime.month d) <= 31).
  { unfold Datetime.days_in_month, Datetime.DAYS_IN_MONTH.
    destruct ((Datetime.month d =? 2)
              && Datetime.is_leap (Datetime.year d)); [lia|].
    destruct (Datetime.month d) as [|p|p]; try lia.
    do 4 (try destruct p as [p|p|]; try lia). }
  change (10 ^ Z.of_nat 4) with 10000. change (10 ^ Z.of_nat 2) with 100.
  change (10 ^ Z.of_nat 6) with 1000000. lia.
Qed.

(** *** Reading a text back

    A digit is none of the separators of a timestamp. *)
Lemma digit_literal c l a :
  Datetime.digit_of c = Some a -> Datetime.digit_of l = None -> c <> l.
Proof. intros Hc Hl ->. congruence. Qed.

Lemma digit_eqb_literal c l a :
  Datetime.digit_of c = Some a -> Datetime.digit_of l = None ->
  Ascii.eqb c l = false.
Proof. intros Hc Hl. apply Ascii.eqb_neq. eapply digit_literal; eauto. Qed.

(** [s.find(c)], one character at a time. *)
Lemma index_skip l c rest :
  l <> c ->
  String.index 0 (String l "") (String c rest)
  = match String.index 0 (String l "") rest with
    | Some n => Some (S n)
    | None => None
    end.
Proof.
  intros Hne. cbn [String.index String.prefix].
  destruct (ascii_dec l c); [contradiction|reflexivity].
Qed.

Lemma index_here l rest : String.index 0 (String l "") (String l rest) = Some O.
Proof.
  cbn [String.index String.prefix].
  destruct (ascii_dec l l); [destruct rest; reflexivity|contradiction].
Qed.

(** Every digit of the goal becomes a character known only to be that
    digit. *)
Ltac name_digits :=
  repeat match goal with
         | |- context [Str.digit_char ?e] =>
             let c := fresh "c" in
             let H := fresh "Hc" in
             assert (H : Datetime.digit_of (Str.digit_char e) = Some e)
               by (apply digit_of_digit_char;
                   match e with
                   | ?x mod 10 => pose proof (Z.mod_pos_bound x 10); lia
                   end);
             set (c := Str.digit_char e) in *; clearbody c
         end.

(** What the parser asks of a character known to be a digit. *)
Ltac digit_facts :=
  repeat match goal with
         | H : Datetime.digit_of ?c = Some _ |- context [Ascii.eqb ?c ?l] =>
             rewrite (digit_eqb_literal c l _ H eq_refl)
         | H : Datetime.digit_of ?c = Some _
           |- context [String.index 0 (String ?l "") (String ?c ?rest)] =>
             rewrite (index_skip l c rest
                        (not_eq_sym (digit_literal c l _ H eq_refl)))
         | |- context [String.index 0 (String ?l "") (String ?l ?rest)] =>
             rewrite (index_here l rest)
         | |- context [String.index 0 (String ?l "") (String ?c ?rest)] =>
             rewrite (index_skip l c rest) by discriminate
         | H : Datetime.digit_of ?c = Some _
           |- context [Datetime.digit_of ?c] => rewrite H
         end.

Lemma replace_char_skip old new c rest :
  Ascii.eqb c old = false ->
  Str.replace_char old new (String c rest)
  = String c (Str.replace_char old new rest).
Proof. intros H. cbn [Str.replace_char]. now rewrite H. Qed.

Ltac not_old :=
  reflexivity || (eapply digit_eqb_literal; [eassumption|reflexivity]).

(** The slices, lengths and character tests of the parser, on a text
    whose shape is known. *)
Ltac crunch :=
  repeat (cbn [substring String.length String.get Nat.sub Nat.add Nat.eqb
               Nat.ltb Nat.leb andb orb negb Datetime.parse_digits
               Datetime.is_char Datetime.char_at Ascii.eqb Bool.eqb
               Str.truthy Datetime.tz_pos];
          digit_facts).

(** The last step of [fromisoformat]: the range checks on the fields
    read. *)
Lemma fields_result y m dd h mi s us tz y' m' dd' h' mi' s' us' :
  y' = y -> m' = m -> dd' = dd -> h' = h -> mi' = mi -> s' = s -> us' = us ->
  Datetime.check_date_fields y m dd && Datetime.check_time_fields h mi s us
  = true ->
  (if Datetime.check_date_fields y' m' dd'
      && Datetime.check_time_fields h' mi' s' us'
   then Ok (Datetime.DT y' m' dd' h' mi' s' us' tz)
   else Raise (ValueError "field out of range"))
  = Ok (Datetime.DT y m dd h mi s us tz).
Proof. intros -> -> -> -> -> -> -> ->. reflexivity. Qed.

(** The numbers read are the fields written. *)
Ltac fields_back :=
  repeat match goal with
         | H : Datetime.digit_of _ = _ |- _ => clear H
         end;
  apply fields_result; [try (Z.div_mod_to_equations; lia)..|assumption].

(** The text of a naive datetime in range, spelled out character by
    character with and without its fraction, and [fromisoformat] run on
    it up to the time of day. *)
Ltac spell d :=
  let Hv := fresh "Hv" in
  let Hn := fresh "Hn" in
  intros Hv Hn;
  destruct (valid_ranges d Hv) as (Hy & Hm & Hd & Hh & Hmi & Hs & Hus);
  unfold Datetime.isoformat, Datetime.isoformat_sep, Datetime.format_time,
    Datetime.format_offset;
  rewrite Hn;
  rewrite !fmt_d_digits by (assumption || lia);
  change (10 ^ Z.of_nat 4) with 10000 in Hy;
  change (10 ^ Z.of_nat 2) with 100 in Hm, Hd, Hh, Hmi, Hs;
  change (10 ^ Z.of_nat 6) with 1000000 in Hus;
  unfold Datetime.valid in Hv;
  destruct d as [y m dd h mi s us tz];
  cbn [Datetime.year Datetime.month Datetime.day Datetime.hour
       Datetime.minute Datetime.second Datetime.microsecond
       Datetime.tzinfo] in *;
  subst tz;
  cbn [digits];
  name_digits;
  unfold parse_timestamp;
  destruct (us =? 0) eqn:Hus0;
    [apply Z.eqb_eq in Hus0|apply Z.eqb_neq in Hus0];
  cbv [String.append];
  rewrite !replace_char_skip by not_old;
  cbn [Str.replace_char Ascii.eqb Bool.eqb];
  cbv [String.append];
  unfold Datetime.fromisoformat;
  unfold Datetime.parse_isoformat_date, Datetime.int_at;
  crunch;
  unfold Datetime.parse_isoformat_time, Datetime.tz_pos;
  digit_facts; cbn [String.index];
  crunch.

(** A text the bot wrote reads back as the datetime written. *)
Lemma parse_isoformat_naive d :
  Datetime.valid d = true -> Datetime.tzinfo d = None ->
  parse_timestamp (Datetime.isoformat d) = Ok d.
Proof.
  spell d.
  all: unfold Datetime.parse_hh_mm_ss_ff, Datetime.parse_fraction,
         Datetime.int_at.
  all: crunch.
  all: fields_back.
Qed.

Lemma parse_utc_offset :
  Datetime.parse_hh_mm_ss_ff "00:00" = Some (0, 0, 0, 0).
Proof. reflexivity. Qed.

(** The same text followed by [Z] reads back as that datetime in UTC. *)
Lemma parse_isoformat_Z d :
  Datetime.valid d = true -> Datetime.tzinfo d = None ->
  parse_timestamp (Datetime.isoformat d +:+ "Z") = Ok (as_utc d).
Proof.
  spell d.
  all: rewrite parse_utc_offset.
  all: unfold Datetime.parse_hh_mm_ss_ff, Datetime.parse_fraction,
         Datetime.int_at.
  all: crunch.
  all: change ((((0 * 60 + 0) * 60 + 0) * Datetime.US_PER_SECOND + 0
                <? Datetime.US_PER_DAY)) with true; cbv iota.
  all: unfold as_utc;
       cbn [Datetime.year Datetime.month Datetime.day Datetime.hour
            Datetime.minute Datetime.second Datetime.microsecond].
  all: fields_back.
Qed.

(** X15. The watermark [update_repo_state] writes is read back by
    [get_last_check_time] and parsed by the filter of
    [check_repo_for_changes] as the clock reading of the update, a naive
    datetime. *)
Theorem watermark_round_trip (E : oracle) (repo sha : string) (s : world) :
  Datetime.valid (utcnow E (tick s)) = true ->
  Datetime.tzinfo (utcnow E (tick s)) = None ->
  let s' := snd (update_repo_state E repo sha s) in
  exists text,
    fst (get_last_check_time repo s') = Ok (Some text)
    /\ parse_timestamp text = Ok (utcnow E (tick s)).
Proof.
  intros Hv Hn. cbv zeta.
  exists (Datetime.isoformat (utcnow E (tick s))). split.
  - unfold update_repo_state, get_last_check_time, ask, get_db, put_db, ret,
      bind. cbn [fst snd db tick trace repo_states].
    rewrite lookup_insert_eq. reflexivity.
  - apply parse_isoformat_naive; assumption.
Qed.

Lemma watermark_round_trip_witness :
  Datetime.valid (utcnow Examples.busy (tick Examples.fresh)) = true
  /\ Datetime.tzinfo (utcnow Examples.busy (tick Examples.fresh)) = None
  /\ exists text,
       fst (get_last_check_time Examples.hello
              (snd (update_repo_state Examples.busy Examples.hello "abc123"
                                      Examples.fresh))) = Ok (Some text)
       /\ parse_timestamp text = Ok (Examples.clock 0).
Proof.
  split; [reflexivity|]. split; [reflexivity|].
  exact (watermark_round_trip Examples.busy Examples.hello "abc123"
           Examples.fresh eq_refl eq_refl).
Defined.

(** X16. A timestamp of the hosting API, the UTC wall clock followed by
    [Z], is parsed by the filter as an aware datetime with offset zero,
    and such a datetime does not compare with a naive one: [>] raises
    [TypeError]. *)
Theorem api_timestamp_is_aware (d : Datetime.datetime) :
  Datetime.valid d = true -> Datetime.tzinfo d = None ->
  parse_timestamp (Datetime.isoformat d +:+ "Z") = Ok (as_utc d)
  /\ forall stored, Datetime.tzinfo stored = None ->
       Datetime.gt (as_utc d) stored = Raise naive_utc_mismatch.
Proof.
  intros Hv Hn. split; [apply parse_isoformat_Z; assumption|].
  intros stored Hs. unfold Datetime.gt, Datetime.cmp.
  rewrite Hs. reflexivity.
Qed.

Lemma api_timestamp_is_aware_witness :
  Datetime.valid (Examples.clock 0) = true
  /\ Datetime.tzinfo (Examples.clock 0) = None
  /\ parse_timestamp "2024-03-10T12:00:00Z"
     = Ok (Datetime.DT 2024 3 10 12 0 0 0 (Some 0)).
Proof.
  split; [reflexivity|]. split; [reflexivity|].
  exact (proj1 (api_timestamp_is_aware (Examples.clock 0) eq_refl eq_refl)).
Defined.

(** The filter on a watermark the bot wrote itself and a first pull
    request stamped by the hosting API. *)
Lemma stored_watermark_filter t u pr rest :
  Datetime.valid t = true -> Datetime.tzinfo t = None ->
  Datetime.valid u = true -> Datetime.tzinfo u = None ->
  updated_at pr = Datetime.isoformat u +:+ "Z" ->
  filter_pulls (Some (Datetime.isoformat t)) (pr :: rest)
  = Raise naive_utc_mismatch.
Proof.
  intros Hvt Hnt Hvu Hnu Hpr. unfold filter_pulls.
  rewrite isoformat_truthy, (parse_isoformat_naive t Hvt Hnt).
  cbn [pulls_updated_after]. rewrite Hpr, (parse_isoformat_Z u Hvu Hnu).
  unfold Datetime.gt, Datetime.cmp. rewrite Hnt. reflexivity.
Qed.

(** The check in that situation. *)
Lemma naive_watermark_check E model s repo t u commits pr rest :
  Datetime.valid t = true -> Datetime.tzinfo t = None ->
  Datetime.valid u = true -> Datetime.tzinfo u = None ->
  last_check_of (db s) repo = Some (Datetime.isoformat t) ->
  updated_at pr = Datetime.isoformat u +:+ "Z" ->
  commits_json E (tick s) (commits_url repo)
               [("since", Datetime.isoformat t)] = Ok commits ->
  pulls_json E (S (tick s)) (pulls_url repo) pulls_params = Ok (pr :: rest) ->
  check_repo_for_changes E model repo s
  = (Ok None,
     World (db s) (2 + tick s)
           (trace s ++ fetch_events repo (Datetime.isoformat t)
            ++ [Print (error_line repo naive_utc_mismatch)])).
Proof.
  intros Hvt Hnt Hvu Hnu Hstored Hpr Hc Hp.
  assert (Htick : fetch_tick s repo = tick s).
  { unfold fetch_tick. rewrite Hstored. cbn [truthy].
    now rewrite isoformat_truthy. }
  assert (Hsince : since_param E s repo = Ok (Datetime.isoformat t)).
  { unfold since_param. now rewrite Hstored, isoformat_truthy. }
  assert (Hbody : check_repo_body E model repo s
                  = (Raise naive_utc_mismatch,
                     World (db s) (S (S (tick s)))
                           (trace s
                            ++ fetch_events repo (Datetime.isoformat t)))).
  { rewrite body_run. cbv zeta. rewrite Hsince, Htick, Hc, Hp, Hstored.
    rewrite (stored_watermark_filter t u pr rest Hvt Hnt Hvu Hnu Hpr).
    reflexivity. }
  rewrite (check_of_raise_line E model s repo _ _ Hbody).
  cbn [db tick trace]. rewrite <- app_assoc. reflexivity.
Qed.

(** X17. When the stored watermark is one the bot wrote, the text of a
    naive clock reading, and the pulls endpoint answers with at least one
    pull request whose [updated_at] ends in [Z], the filter raises
    [TypeError] on the first pull request: the check prints "Unexpected
    error ...", returns [None] and writes nothing, whatever commits were
    fetched. *)
Theorem stored_watermark_rejects_api_timestamps
  (E : oracle) (model : string) (s : world) (repo : string)
  (t u : Datetime.datetime) (commits : list commit) (pr : pull)
  (rest : list pull) :
  Datetime.valid t = true -> Datetime.tzinfo t = None ->
  Datetime.valid u = true -> Datetime.tzinfo u = None ->
  last_check_of (db s) repo = Some (Datetime.isoformat t) ->
  updated_at pr = Datetime.isoformat u +:+ "Z" ->
  commits_json E (tick s) (commits_url repo)
               [("since", Datetime.isoformat t)] = Ok commits ->
  pulls_json E (S (tick s)) (pulls_url repo) pulls_params = Ok (pr :: rest) ->
  filter_pulls (last_check_of (db s) repo) (pr :: rest)
  = Raise naive_utc_mismatch
  /\ check_repo_for_changes E model repo s
     = (Ok None,
        World (db s) (2 + tick s)
              (trace s ++ fetch_events repo (Datetime.isoformat t)
               ++ [Print ("Unexpected error for " +:+ repo +:+ ": "
                          +:+ "can't compare offset-naive and offset-aware datetimes")])).
Proof.
  intros Hvt Hnt Hvu Hnu Hstored Hpr Hc Hp. split.
  - rewrite Hstored. now apply stored_watermark_filter with (u := u).
  - now apply naive_watermark_check with (u := u) (commits := commits)
                                         (pr := pr) (rest := rest).
Qed.

Lemma stored_watermark_rejects_api_timestamps_witness :
  let s1 := snd (check_repo_for_changes Examples.busy Examples.model
                                        Examples.hello Examples.fresh) in
  last_check_of (db s1) Examples.hello
  = Some (Datetime.isoformat (Examples.clock 4))
  /\ check_repo_for_changes Examples.busy Examples.model Examples.hello s1
     = (Ok None,
        World (db s1) 8
              (trace s1
               ++ [checking Examples.hello;
                   HttpGet (commits_url Examples.hello)
                           [("since", "2024-03-10T12:00:04")];
                   HttpGet (pulls_url Examples.hello) pulls_params;
                   Print ("Unexpected error for octocat/Hello-World: "
                          +:+ "can't compare offset-naive and offset-aware datetimes")])).
Proof.
  intros s1.
  assert (Hstored : last_check_of (db s1) Examples.hello
                    = Some (Datetime.isoformat (Examples.clock 4)))
    by (vm_compute; reflexivity).
  split; [exact Hstored|].
  destruct (stored_watermark_rejects_api_timestamps
              Examples.busy Examples.model s1 Examples.hello
              (Examples.clock 4) (Datetime.DT 2024 3 11 0 0 0 0 None)
              [Examples.fix_bug]
              (Examples.change 2 "2024-03-11T00:00:00Z") []
              eq_refl eq_refl eq_refl eq_refl Hstored eq_refl
              eq_refl eq_refl) as [_ Hrun].
  rewrite Hrun. vm_compute. reflexivity.
Defined.

(** X18. After a check that returned a summary, the next check of that
    repository returns [None], calls no generator and leaves both tables
    as they were as soon as the pulls endpoint lists one pull request
    stamped by the hosting API, even when new commits were fetched. *)
Theorem later_checks_fail_on_any_pull
  (E : oracle) (model : string) (s0 s1 : world) (repo text : string)
  (u : Datetime.datetime) (commits : list commit) (pr : pull)
  (rest : list pull) :
  let stored := utcnow E (3 + fetch_tick s0 repo) in
  Datetime.valid stored = true -> Datetime.tzinfo stored = None ->
  check_repo_for_changes E model repo s0 = (Ok (Some text), s1) ->
  Datetime.valid u = true -> Datetime.tzinfo u = None ->
  updated_at pr = Datetime.isoformat u +:+ "Z" ->
  commits_json E (tick s1) (commits_url repo)
               [("since", Datetime.isoformat stored)] = Ok commits ->
  pulls_json E (S (tick s1)) (pulls_url repo) pulls_params = Ok (pr :: rest) ->
  let run := check_repo_for_changes E model repo s1 in
  fst run = Ok None
  /\ db (snd run) = db s1
  /\ chat_calls (trace (snd run)) = chat_calls (trace s1)
  /\ List.last (trace (snd run)) (Print "")
     = Print ("Unexpected error for " +:+ repo +:+ ": "
              +:+ "can't compare offset-naive and offset-aware datetimes").
Proof.
  intros stored Hvt Hnt Hfirst Hvu Hnu Hpr Hc Hp. cbv zeta.
  assert (Hstored : last_check_of (db s1) repo
                    = Some (Datetime.isoformat stored)).
  { destruct (check_cases E model s0 repo) as (r & s' & Hrun & _ & Hdb).
    rewrite Hfirst in Hrun. inversion Hrun; subst r s'.
    destruct Hdb as [[Hnone _]|(cs & ps & _ & _ & Hdb)]; [discriminate|].
    rewrite Hdb. apply cycle_db_last_check. }
  rewrite (naive_watermark_check E model s1 repo _ u commits pr rest
             Hvt Hnt Hvu Hnu Hstored Hpr Hc Hp).
  cbn [fst snd db trace]. split; [reflexivity|]. split; [reflexivity|]. split.
  - unfold chat_calls. rewrite !List.filter_app, !length_app. cbn. lia.
  - rewrite app_assoc. apply List.last_last.
Qed.

Lemma later_checks_fail_on_any_pull_witness :
  let first := check_repo_for_changes Examples.busy Examples.model
                                      Examples.hello Examples.fresh in
  let second := check_repo_for_changes Examples.busy Examples.model
                                       Examples.hello (snd first) in
  first = (Ok (Some "One fix by Alice."), snd first)
  /\ fst second = Ok None
  /\ db (snd second) = db (snd first).
Proof.
  intros first second.
  assert (Hfirst : first = (Ok (Some "One fix by Alice."), snd first))
    by (vm_compute; reflexivity).
  split; [exact Hfirst|].
  destruct (later_checks_fail_on_any_pull
              Examples.busy Examples.model Examples.fresh (snd first)
              Examples.hello "One fix by Alice."
              (Datetime.DT 2024 3 11 0 0 0 0 None) [Examples.fix_bug]
              (Examples.change 2 "2024-03-11T00:00:00Z") []
              eq_refl eq_refl Hfirst eq_refl eq_refl eq_refl eq_refl eq_refl)
    as (Hnone & Hdb & _).
  split; [exact Hnone|exact Hdb].
Defined.

(** ** Listing the summaries *)

(** The order of texts is a total preorder. *)
Lemma ascii_compare_refl c : Ascii.compare c c = Eq.
Proof. unfold Ascii.compare. apply N.compare_refl. Qed.

Lemma ascii_compare_trans a b c o :
  Ascii.compare a b = o -> Ascii.compare b c = o -> Ascii.compare a c = o.
Proof.
  unfold Ascii.compare. intros H1 H2.
  destruct o.
  - apply N.compare_eq in H1, H2. rewrite H1, H2. apply N.compare_refl.
  - rewrite N.compare_lt_iff in *. lia.
  - rewrite N.compare_gt_iff in *. lia.
Qed.

Lemma string_compare_refl s : String.compare s s = Eq.
Proof.
  induction s as [|c s IH]; [reflexivity|].
  cbn [String.compare]. now rewrite ascii_compare_refl.
Qed.

Lemma string_leb_trans a : forall b c,
  String.leb a b = true -> String.leb b c = true -> String.leb a c = true.
Proof.
  unfold String.leb.
  induction a as [|x a IH]; intros [|y b] [|z c]; cbn [String.compare];
    try (intros; reflexivity || discriminate).
  destruct (Ascii.compare x y) eqn:Hxy, (Ascii.compare y z) eqn:Hyz;
    try discriminate.
  - rewrite (ascii_compare_trans _ _ _ _ Hxy Hyz). apply IH.
  - apply Ascii.compare_eq_iff in Hxy. subst y. now rewrite Hyz.
  - apply Ascii.compare_eq_iff in Hyz. subst z. now rewrite Hxy.
  - now rewrite (ascii_compare_trans _ _ _ _ Hxy Hyz).
Qed.

Lemma not_older_trans a b c :
  not_older a b = true -> not_older b c = true -> not_older a c = true.
Proof. unfold not_older. intros H1 H2. eapply string_leb_trans; eauto. Qed.

Lemma not_older_total a b : not_older a b = true \/ not_older b a = true.
Proof. unfold not_older. apply String.leb_total. Qed.

(** The sort of the executable query keeps the rows and orders them. *)
Lemma insert_row_perm row sorted :
  Permutation (insert_row row sorted) (row :: sorted).
Proof.
  induction sorted as [|r rest IH]; [reflexivity|].
  cbn [insert_row]. destruct (not_older row r); [reflexivity|].
  rewrite IH. apply perm_swap.
Qed.

Lemma insert_row_sorted row sorted :
  StronglySorted (fun a b => not_older a b = true) sorted ->
  StronglySorted (fun a b => not_older a b = true) (insert_row row sorted).
Proof.
  induction 1 as [|r rest Hs IH Hall]; [repeat constructor|].
  cbn [insert_row]. destruct (not_older row r) eqn:Hcmp.
  - constructor; [constructor; assumption|].
    constructor; [exact Hcmp|].
    eapply List.Forall_impl; [|exact Hall].
    intros x Hx. eapply not_older_trans; eauto.
  - constructor; [exact IH|].
    rewrite insert_row_perm. constructor; [|exact Hall].
    destruct (not_older_total row r); congruence.
Qed.

Lemma order_by_perm rows : Permutation (order_by_timestamp_desc rows) rows.
Proof.
  induction rows as [|r rest IH]; [reflexivity|].
  cbn [order_by_timestamp_desc fold_right].
  rewrite insert_row_perm. now constructor.
Qed.

Lemma order_by_sorted rows :
  StronglySorted (fun a b => not_older a b = true)
                 (order_by_timestamp_desc rows).
Proof.
  induction rows as [|r rest IH]; [constructor|].
  now apply insert_row_sorted.
Qed.

(** The executable query returns one of the listings, and reads only. *)
Lemma get_recent_summaries_listing repo_name limit s :
  sqlite_integer limit = true ->
  exists result,
    get_recent_summaries repo_name limit s = (Ok result, s)
    /\ listing (db s) repo_name limit result.
Proof.
  intros Hlimit. unfold get_recent_summaries, bind, get_db, ret.
  rewrite Hlimit. eexists. split; [reflexivity|]. split; [exact Hlimit|].
  eexists. split; [apply order_by_perm|]. split; [apply order_by_sorted|].
  reflexivity.
Qed.

(** A limit that does not bind: the query raises and lists nothing. *)
Lemma get_recent_summaries_overflow repo_name limit s :
  sqlite_integer limit = false ->
  get_recent_summaries repo_name limit s = (Raise integer_overflow, s)
  /\ forall result, ~ listing (db s) repo_name limit result.
Proof.
  intros Hlimit. split.
  - unfold get_recent_summaries, bind, get_db, lift. rewrite Hlimit.
    reflexivity.
  - intros result [Hin _]. congruence.
Qed.

(** [LIMIT] keeps a prefix. *)
Lemma limited_prefix {A} limit (rows : list A) :
  exists k, limited limit rows = firstn k rows
            /\ (0 <= limit -> k = Z.to_nat limit)
            /\ (limit < 0 -> k = length rows).
Proof.
  unfold limited. destruct (Z.ltb_spec limit 0).
  - exists (length rows). rewrite firstn_all. repeat split; lia.
  - exists (Z.to_nat limit). repeat split; lia.
Qed.

Lemma sorted_firstn {A} (R : A -> A -> Prop) k : forall l,
  StronglySorted R l -> StronglySorted R (firstn k l).
Proof.
  induction k as [|k IH]; intros l Hs; [constructor|].
  destruct Hs as [|a l Hs Hall]; [constructor|].
  cbn [firstn]. constructor; [now apply IH|].
  rewrite <- (firstn_skipn k l) in Hall. now apply Forall_app in Hall.
Qed.

Lemma sorted_map_entry rows :
  StronglySorted (fun a b => not_older a b = true) rows ->
  StronglySorted
    (fun a b => String.leb (entry_timestamp b) (entry_timestamp a) = true)
    (map entry_of rows).
Proof.
  induction 1 as [|r rest Hs IH Hall]; [constructor|].
  cbn [map]. constructor; [exact IH|].
  apply Forall_map. exact Hall.
Qed.

(** How many entries a listing holds. *)
Lemma listing_length d repo_name limit result :
  listing d repo_name limit result ->
  length result
  = (if limit <? 0
     then length (List.filter (selected repo_name) (summaries d))
     else Nat.min (Z.to_nat limit)
                  (length (List.filter (selected repo_name) (summaries d)))).
Proof.
  intros (_ & rows & Hperm & _ & ->).
  rewrite length_map. unfold limited.
  rewrite <- (Permutation_length Hperm).
  destruct (limit <? 0); [reflexivity|apply length_firstn].
Qed.

(** A listing is in descending order of timestamp. *)
Lemma listing_sorted d repo_name limit result :
  listing d repo_name limit result ->
  StronglySorted
    (fun a b => String.leb (entry_timestamp b) (entry_timestamp a) = true)
    result.
Proof.
  intros (_ & rows & _ & Hsorted & ->).
  apply sorted_map_entry.
  destruct (limited_prefix limit rows) as (k & -> & _).
  now apply sorted_firstn.
Qed.

(** A listing holds stored rows, of the repository asked for. *)
Lemma listing_sound d repo_name limit result :
  listing d repo_name limit result ->
  Forall (fun e => exists row,
              In row (summaries d) /\ e = entry_of row
              /\ forall name, repo_name = Some name ->
                              Str.truthy name = true ->
                              entry_repo_name e = name)
         result.
Proof.
  intros (_ & rows & Hperm & _ & ->).
  apply Forall_map. apply List.Forall_forall. intros row Hin.
  assert (Hrow : In row rows).
  { destruct (limited_prefix limit rows) as (k & Hk & _).
    rewrite Hk in Hin. rewrite <- (firstn_skipn k rows).
    apply in_or_app. now left. }
  apply (Permutation_in _ Hperm) in Hrow.
  apply List.filter_In in Hrow. destruct Hrow as [Hstored Hsel].
  exists row. split; [exact Hstored|]. split; [reflexivity|].
  intros name -> Htruthy. unfold selected in Hsel. rewrite Htruthy in Hsel.
  apply String.eqb_eq in Hsel. exact Hsel.
Qed.

(** The rows a listing returns and the rows it leaves out. *)
Lemma listing_split d repo_name limit result :
  listing d repo_name limit result ->
  exists kept dropped,
    result = map entry_of kept
    /\ Permutation (kept ++ dropped)
                   (List.filter (selected repo_name) (summaries d))
    /\ Forall (fun k =>
                 Forall (fun o =>
                           String.leb (row_timestamp o) (row_timestamp k)
                           = true) dropped) kept
    /\ (limit < 0 -> dropped = []).
Proof.
  intros (_ & rows & Hperm & Hsorted & ->).
  destruct (limited_prefix limit rows) as (k & Hk & _ & Hneg).
  exists (firstn k rows), (skipn k rows).
  split; [now rewrite Hk|]. split; [now rewrite firstn_skipn|]. split.
  - clear Hk Hneg Hperm. revert k.
    induction Hsorted as [|r rest Hs IH Hall]; intros k.
    + rewrite firstn_nil. constructor.
    + destruct k as [|k]; [constructor|].
      cbn [firstn skipn]. constructor; [|apply IH].
      rewrite <- (firstn_skipn k rest) in Hall.
      now apply Forall_app in Hall.
  - intros Hlt. rewrite (Hneg Hlt). apply skipn_all.
Qed.

(** X19. [get_recent_summaries] reads only.  A limit outside the signed
    64-bit integers does not bind: the call raises [OverflowError] and
    lists nothing.  Under any other limit it returns as many entries as
    the limit allows (all of them under a negative limit), in descending
    order of timestamp, each one a stored row, of the repository asked for
    when the argument is truthy; and so does every result the queries may
    give, whatever the engine does with equal timestamps. *)
Theorem listing_bounded_sorted_sound
  (repo_name : option string) (limit : Z) (s : world) :
  let matching := List.filter (selected repo_name) (summaries (db s)) in
  let good (result : list summary_entry) :=
    length result
    = (if limit <? 0 then length matching
       else Nat.min (Z.to_nat limit) (length matching))
    /\ StronglySorted
         (fun a b =>
            String.leb (entry_timestamp b) (entry_timestamp a) = true)
         result
    /\ Forall (fun e => exists row,
                   In row (summaries (db s)) /\ e = entry_of row
                   /\ forall name, repo_name = Some name ->
                                   Str.truthy name = true ->
                                   entry_repo_name e = name)
              result in
  if sqlite_integer limit then
    (exists result,
        get_recent_summaries repo_name limit s = (Ok result, s)
        /\ good result)
    /\ forall result, listing (db s) repo_name limit result -> good result
  else
    get_recent_summaries repo_name limit s = (Raise integer_overflow, s)
    /\ forall result, ~ listing (db s) repo_name limit result.
Proof.
  cbv zeta.
  assert (Hgood : forall result,
             listing (db s) repo_name limit result ->
             length result
             = (if limit <? 0
                then length (List.filter (selected repo_name)
                                         (summaries (db s)))
                else Nat.min (Z.to_nat limit)
                             (length (List.filter (selected repo_name)
                                                  (summaries (db s)))))
             /\ StronglySorted
                  (fun a b =>
                     String.leb (entry_timestamp b) (entry_timestamp a)
                     = true) result
             /\ Forall (fun e => exists row,
                            In row (summaries (db s)) /\ e = entry_of row
                            /\ forall name, repo_name = Some name ->
                                            Str.truthy name = true ->
                                            entry_repo_name e = name)
                       result).
  { intros result Hlisting. split; [now apply listing_length|].
    split; [now apply (listing_sorted (db s) repo_name limit)|].
    now apply (listing_sound (db s) repo_name limit). }
  destruct (sqlite_integer limit) eqn:Hlimit.
  - split; [|exact Hgood].
    destruct (get_recent_summaries_listing repo_name limit s Hlimit)
      as (result & Hget & Hlisting).
    exists result. split; [exact Hget|]. now apply Hgood.
  - now apply get_recent_summaries_overflow.
Qed.

(** X20. The limit of [get_recent_summaries] drops the oldest: under a
    limit that binds, the selected rows split into the ones returned and
    the ones left out, and no row left out has a later timestamp than a
    row returned; under a negative limit nothing is left out.  This holds
    of what the call returns and of every result the queries may give.
    Under a limit that does not bind nothing is returned. *)
Theorem listing_keeps_the_newest
  (repo_name : option string) (limit : Z) (s : world) :
  let cut (result : list summary_entry) :=
    exists kept dropped,
      result = map entry_of kept
      /\ Permutation (kept ++ dropped)
                     (List.filter (selected repo_name) (summaries (db s)))
      /\ Forall (fun k =>
                   Forall (fun o =>
                             String.leb (row_timestamp o) (row_timestamp k)
                             = true) dropped) kept
      /\ (limit < 0 -> dropped = []) in
  if sqlite_integer limit then
    (exists result,
        get_recent_summaries repo_name limit s = (Ok result, s)
        /\ cut result)
    /\ forall result, listing (db s) repo_name limit result -> cut result
  else
    fst (get_recent_summaries repo_name limit s) = Raise integer_overflow.
Proof.
  cbv zeta. destruct (sqlite_integer limit) eqn:Hlimit.
  - split; [|intros result; apply listing_split].
    destruct (get_recent_summaries_listing repo_name limit s Hlimit)
      as (result & Hget & Hlisting).
    exists result. split; [exact Hget|].
    now apply (listing_split (db s) repo_name limit).
  - destruct (get_recent_summaries_overflow repo_name limit s Hlimit)
      as [-> _]. reflexivity.
Qed.

(** The limit at the edge of what binds. *)
Example get_recent_summaries_at_the_bound :
  let s := snd (check_repo_for_changes Examples.busy Examples.model
                                       Examples.hello Examples.fresh) in
  fst (get_recent_summaries None (2 ^ 63) s) = Raise integer_overflow
  /\ fst (get_recent_summaries None (- 2 ^ 63 - 1) s) = Raise integer_overflow
  /\ fst (get_recent_summaries None (2 ^ 63 - 1) s)
     = Ok [SummaryEntry Examples.hello "One fix by Alice." 2
                        "2024-03-10T12:00:05"]
  /\ fst (get_recent_summaries None (- 2 ^ 63) s)
     = Ok [SummaryEntry Examples.hello "One fix by Alice." 2
                        "2024-03-10T12:00:05"]
  /\ fst (get_recent_summaries None 0 s) = Ok [].
Proof. cbv zeta. repeat split; vm_compute; reflexivity. Qed.

(** *** Timestamps in text order *)

Lemma ascii_compare_digit a b :
  0 <= a <= 9 -> 0 <= b <= 9 ->
  Ascii.compare (Str.digit_char a) (Str.digit_char b) = (a ?= b).
Proof.
  intros Ha Hb.
  assert (a = 0 \/ a = 1 \/ a = 2 \/ a = 3 \/ a = 4 \/ a = 5 \/ a = 6
          \/ a = 7 \/ a = 8 \/ a = 9) as HA by lia.
  assert (b = 0 \/ b = 1 \/ b = 2 \/ b = 3 \/ b = 4 \/ b = 5 \/ b = 6
          \/ b = 7 \/ b = 8 \/ b = 9) as HB by lia.
  clear Ha Hb.
  repeat (destruct HA as [->|HA]);
    repeat (destruct HB as [->|HB]); subst; reflexivity.
Qed.

(** Comparing the leading digits, then the last one, compares the
    numbers. *)
Lemma lex_digit q q' r r' n n' (c : comparison) :
  n = 10 * q + r -> n' = 10 * q' + r' -> 0 <= r <= 9 -> 0 <= r' <= 9 ->
  Datetime.lex (q ?= q') (Datetime.lex (r ?= r') c) = Datetime.lex (n ?= n') c.
Proof.
  intros -> -> Hr Hr'.
  destruct (Z.compare_spec q q'), (Z.compare_spec r r'),
    (Z.compare_spec (10 * q + r) (10 * q' + r')); cbn; try reflexivity; lia.
Qed.

(** Numerals of the same width compare as the numbers they write. *)
Lemma compare_digits k : forall n n' acc acc',
  0 <= n < 10 ^ Z.of_nat k -> 0 <= n' < 10 ^ Z.of_nat k ->
  String.compare (digits k n acc) (digits k n' acc')
  = Datetime.lex (n ?= n') (String.compare acc acc').
Proof.
  induction k as [|k IH]; intros n n' acc acc' Hn Hn'.
  - cbn in Hn, Hn'. assert (n = 0) as -> by lia. assert (n' = 0) as -> by lia.
    reflexivity.
  - rewrite Nat2Z.inj_succ, Z.pow_succ_r in Hn, Hn' by lia.
    cbn [digits]. rewrite IH.
    2,3: split; [apply Z.div_pos; lia|apply Z.div_lt_upper_bound; lia].
    cbn [String.compare].
    pose proof (Z.mod_pos_bound n 10 ltac:(lia)).
    pose proof (Z.mod_pos_bound n' 10 ltac:(lia)).
    rewrite ascii_compare_digit by lia.
    rewrite <- (lex_digit (n / 10) (n' / 10) (n mod 10) (n' mod 10) n n')
      by (try apply Z.div_mod; lia).
    f_equal. destruct (n mod 10 ?= n' mod 10); reflexivity.
Qed.

Lemma digits_app k : forall n acc rest,
  digits k n acc +:+ rest = digits k n (acc +:+ rest).
Proof.
  induction k as [|k IH]; intros n acc rest; [reflexivity|].
  cbn [digits]. now rewrite IH.
Qed.

Lemma lex_eq c : Datetime.lex c Eq = c.
Proof. destruct c; reflexivity. Qed.

(** The text of a naive datetime, numeral by numeral. *)
Lemma isoformat_digits d :
  Datetime.valid d = true -> Datetime.tzinfo d = None ->
  Datetime.isoformat d
  = digits 4 (Datetime.year d)
      (String "-" (digits 2 (Datetime.month d)
         (String "-" (digits 2 (Datetime.day d)
            (String "T" (digits 2 (Datetime.hour d)
               (String ":" (digits 2 (Datetime.minute d)
                  (String ":" (digits 2 (Datetime.second d)
                     (if Datetime.microsecond d =? 0 then ""
                      else String "." (digits 6 (Datetime.microsecond d)
                                              "")))))))))))).
Proof.
  intros Hv Hn.
  destruct (valid_ranges d Hv) as (Hy & Hm & Hd & Hh & Hmi & Hs & Hus).
  unfold Datetime.isoformat, Datetime.isoformat_sep, Datetime.format_time,
    Datetime.format_offset.
  rewrite Hn.
  rewrite !fmt_d_digits by (assumption || lia).
  destruct (Datetime.microsecond d =? 0).
  all: rewrite !digits_app; reflexivity.
Qed.

(** Text order of the timestamps against the order of the readings. *)
Lemma isoformat_compare a b :
  Datetime.valid a = true -> Datetime.tzinfo a = None ->
  Datetime.valid b = true -> Datetime.tzinfo b = None ->
  String.compare (Datetime.isoformat a) (Datetime.isoformat b)
  = Datetime.compare_fields a b.
Proof.
  intros Hva Hna Hvb Hnb.
  rewrite (isoformat_digits a Hva Hna), (isoformat_digits b Hvb Hnb).
  destruct (valid_ranges a Hva) as (Hy & Hm & Hd & Hh & Hmi & Hs & Hus).
  destruct (valid_ranges b Hvb) as (Hy' & Hm' & Hd' & Hh' & Hmi' & Hs' & Hus').
  unfold Datetime.compare_fields.
  repeat (rewrite compare_digits by assumption; f_equal;
          cbn [String.compare]; rewrite ascii_compare_refl).
  rewrite compare_digits by assumption. f_equal.
  change (10 ^ Z.of_nat 6) with 1000000 in Hus, Hus'.
  destruct (Z.eqb_spec (Datetime.microsecond a) 0) as [->|Ha],
           (Z.eqb_spec (Datetime.microsecond b) 0) as [->|Hb].
  - reflexivity.
  - cbn [String.compare]. symmetry. apply Z.compare_lt_iff. lia.
  - cbn [String.compare]. symmetry. apply Z.compare_gt_iff. lia.
  - cbn [String.compare]. rewrite ascii_compare_refl.
    rewrite compare_digits by assumption. apply lex_eq.
Qed.

Lemma isoformat_order a b :
  Datetime.valid a = true -> Datetime.tzinfo a = None ->
  Datetime.valid b = true -> Datetime.tzinfo b = None ->
  String.compare (Datetime.isoformat a) (Datetime.isoformat b)
  = Datetime.compare_fields a b
  /\ Datetime.gt a b
     = Ok (String.ltb (Datetime.isoformat b) (Datetime.isoformat a)).
Proof.
  intros Hva Hna Hvb Hnb.
  split; [now apply isoformat_compare|].
  unfold Datetime.gt, Datetime.cmp, String.ltb. rewrite Hna, Hnb.
  rewrite (isoformat_compare b a Hvb Hnb Hva Hna).
  assert (Hanti : Datetime.compare_fields b a
                  = CompOpp (Datetime.compare_fields a b)).
  { rewrite <- (isoformat_compare a b Hva Hna Hvb Hnb),
            <- (isoformat_compare b a Hvb Hnb Hva Hna).
    apply String.compare_antisym. }
  rewrite Hanti. destruct (Datetime.compare_fields a b); reflexivity.
Qed.

(** X21. The timestamps the bot writes sort as text the way the clock
    readings sort in time, so [ORDER BY timestamp DESC] on them is newest
    first: the text comparison of two stamps is the comparison of the
    readings, and [a > b] on the readings is [b < a] on the texts. *)
Theorem isoformat_orders_like_the_clock (a b : Datetime.datetime) :
  Datetime.valid a = true -> Datetime.tzinfo a = None ->
  Datetime.valid b = true -> Datetime.tzinfo b = None ->
  String.compare (Datetime.isoformat a) (Datetime.isoformat b)
  = Datetime.compare_fields a b
  /\ Datetime.gt a b
     = Ok (String.ltb (Datetime.isoformat b) (Datetime.isoformat a)).
Proof. apply isoformat_order. Qed.

Lemma isoformat_orders_like_the_clock_witness :
  String.compare "2024-03-10T12:00:05" "2024-03-10T12:00:11" = Lt
  /\ Datetime.gt (Examples.clock 5) (Examples.clock 11) = Ok false.
Proof.
  destruct (isoformat_orders_like_the_clock
              (Examples.clock 5) (Examples.clock 11)
              eq_refl eq_refl eq_refl eq_refl) as [Hcmp Hgt].
  split; [exact Hcmp|]. rewrite Hgt. reflexivity.
Defined.

(** A limit other than zero keeps the first row. *)
Lemma limited_head {A} limit (x : A) rest :
  limit <> 0 -> exists tail, limited limit (x :: rest) = x :: tail.
Proof.
  intros Hne. unfold limited. destruct (Z.ltb_spec limit 0).
  - now exists rest.
  - destruct (Z.to_nat limit) as [|k] eqn:Hk; [lia|].
    cbn [firstn]. now eexists.
Qed.

(** X22. A check that returns a summary at a clock reading later than the
    readings at which the stored summaries were stamped puts its summary
    first in every listing that selects its repository and has a limit
    other than zero. *)
Theorem newest_summary_listed_first
  (E : oracle) (model : string) (s s' : world) (repo text : string)
  (repo_name : option string) (limit : Z) (result : list summary_entry) :
  let stamp := utcnow E (4 + fetch_tick s repo) in
  Datetime.valid stamp = true -> Datetime.tzinfo stamp = None ->
  Forall (fun row =>
            exists t, Datetime.valid t = true /\ Datetime.tzinfo t = None
                      /\ row_timestamp row = Datetime.isoformat t
                      /\ Datetime.gt stamp t = Ok true)
         (summaries (db s)) ->
  check_repo_for_changes E model repo s = (Ok (Some text), s') ->
  repo_name = None \/ repo_name = Some repo ->
  limit <> 0 ->
  listing (db s') repo_name limit result ->
  exists count tail,
    (0 < count)%nat
    /\ result
       = SummaryEntry repo text count (Datetime.isoformat stamp) :: tail.
Proof.
  intros stamp Hv Hn Hold Hrun Hsel Hlimit (_ & rows & Hperm & Hsorted & ->).
  destruct (check_cases E model s repo) as (r & s1 & Hrun' & _ & Hdb).
  rewrite Hrun in Hrun'. inversion Hrun'; subst r s1. clear Hrun'.
  destruct Hdb as [[Hnone _]|(commits & pulls & Hpos & Htext & Hdb)];
    [discriminate|].
  inversion Htext as [Htext']. clear Htext.
  set (row := cycle_row E model s repo commits pulls) in *.
  assert (Hrow_sel : selected repo_name row = true).
  { destruct Hsel as [->| ->]; [reflexivity|].
    unfold selected. destruct (Str.truthy repo); [|reflexivity].
    apply String.eqb_refl. }
  rewrite Hdb in Hperm. unfold cycle_db in Hperm. cbn [summaries] in Hperm.
  fold row in Hperm.
  rewrite List.filter_app in Hperm. cbn [List.filter] in Hperm.
  rewrite Hrow_sel in Hperm.
  assert (Hin : In row rows).
  { apply (Permutation_in _ (Permutation_sym Hperm)).
    apply in_or_app. right. now left. }
  destruct rows as [|h rest]; [contradiction|].
  assert (Hh : h = row).
  { assert (Hle : not_older h row = true).
    { apply StronglySorted_inv in Hsorted. destruct Hsorted as [_ Hall].
      destruct Hin as [->|Hin].
      - unfold not_older, String.leb. now rewrite string_compare_refl.
      - rewrite List.Forall_forall in Hall. now apply Hall. }
    assert (Hh : In h (List.filter (selected repo_name) (summaries (db s))
                       ++ [row]))
      by (apply (Permutation_in _ Hperm); now left).
    apply in_app_or in Hh. destruct Hh as [Hh|[Hh|[]]]; [|now symmetry].
    exfalso. apply List.filter_In in Hh. destruct Hh as [Hh _].
    rewrite List.Forall_forall in Hold.
    destruct (Hold h Hh) as (t & Hvt & Hnt & Hts & Hgt).
    destruct (isoformat_order stamp t Hv Hn Hvt Hnt) as [_ Hgt'].
    rewrite Hgt' in Hgt. inversion Hgt as [Hlt].
    unfold not_older in Hle. rewrite Hts in Hle.
    change (row_timestamp row) with (Datetime.isoformat stamp) in Hle.
    unfold String.leb in Hle. unfold String.ltb in Hlt.
    rewrite String.compare_antisym in Hle.
    destruct (String.compare (Datetime.isoformat t)
                             (Datetime.isoformat stamp)); discriminate. }
  subst h. destruct (limited_head limit row rest Hlimit) as [tail ->].
  exists (length commits + length pulls)%nat, (map entry_of tail).
  split; [exact Hpos|]. cbn [map]. f_equal.
Qed.

Lemma newest_summary_listed_first_witness :
  let other := "octocat/Spoon-Knife" in
  let s1 := snd (check_repo_for_changes Examples.busy Examples.model
                                        Examples.hello Examples.fresh) in
  let run := check_repo_for_changes Examples.busy Examples.model other s1 in
  map row_timestamp (summaries (db s1)) = ["2024-03-10T12:00:05"]
  /\ run = (Ok (Some "One fix by Alice."), snd run)
  /\ exists result count tail,
       get_recent_summaries None 1 (snd run) = (Ok result, snd run)
       /\ result
          = SummaryEntry other "One fix by Alice." count
                         (Datetime.isoformat (Examples.clock 11)) :: tail.
Proof.
  intros other s1 run.
  assert (Hrun : run = (Ok (Some "One fix by Alice."), snd run))
    by (vm_compute; reflexivity).
  assert (Hrows : summaries (db s1)
                  = [SummaryRow 1 Examples.hello "One fix by Alice." 2
                                (Datetime.isoformat (Examples.clock 5))])
    by (vm_compute; reflexivity).
  assert (Hstamp : utcnow Examples.busy (4 + fetch_tick s1 other)
                   = Examples.clock 11) by (vm_compute; reflexivity).
  split; [vm_compute; reflexivity|]. split; [exact Hrun|].
  destruct (get_recent_summaries_listing None 1 (snd run) eq_refl)
    as (result & Hget & Hlisting).
  destruct (newest_summary_listed_first
              Examples.busy Examples.model s1 (snd run) other
              "One fix by Alice." None 1 result)
    as (count & tail & _ & Hresult).
  - rewrite Hstamp. reflexivity.
  - rewrite Hstamp. reflexivity.
  - rewrite Hrows, Hstamp. constructor; [|constructor].
    exists (Examples.clock 5). repeat split; reflexivity.
  - exact Hrun.
  - now left.
  - discriminate.
  - exact Hlisting.
  - exists result, count, tail. split; [exact Hget|].
    rewrite Hresult, Hstamp. reflexivity.
Defined.

(** ** Construction and the command line *)

(** The constructor, by what the environment lacks. *)
Lemma bot_without_credential env path f name :
  missing_credential env = Some name ->
  GitHubRepoBot env path f
  = (Raise (ValueError (name +:+ " environment variable is required")), f).
Proof.
  unfold missing_credential, GitHubRepoBot. cbv zeta.
  destruct (negb (truthy (env !! "GITHUB_TOKEN")));
    [intros H; inversion H; reflexivity|].
  destruct (negb (truthy (env !! "OPENAI_API_KEY")));
    [intros H; inversion H; reflexivity|discriminate].
Qed.

Lemma bot_with_credentials env path f :
  missing_credential env = None ->
  exists b,
    GitHubRepoBot env path f = (Ok b, Some (init_database f))
    /\ openai_model b = default "gpt-4o-mini" (env !! "OPENAI_MODEL").
Proof.
  unfold missing_credential, GitHubRepoBot. cbv zeta.
  destruct (negb (truthy (env !! "GITHUB_TOKEN"))); [discriminate|].
  destruct (negb (truthy (env !! "OPENAI_API_KEY"))); [discriminate|].
  intros _. eexists. split; reflexivity.
Qed.

(** Both commands when a credential is missing. *)
Lemma missing_credential_run E env name repo p :
  missing_credential env = Some name ->
  let stopped :=
    (Exited 1,
     Process (file p) (ticks p)
             (events p
              ++ [Print ("Error: " +:+ name
                         +:+ " environment variable is required")])) in
  check_single E env repo p = stopped
  /\ forall filter limit, show_summaries env filter limit p = stopped.
Proof.
  intros Hmissing. cbv zeta.
  unfold check_single, show_summaries.
  rewrite (bot_without_credential env _ (file p) name Hmissing).
  split; reflexivity.
Qed.

(** X23. Without a credential nothing happens: [check] and [summaries]
    print the one line "Error: <NAME> environment variable is required",
    for [GITHUB_TOKEN] first and [OPENAI_API_KEY] only when the token is
    there, exit with status 1, call no API and do not create or touch
    the database file.  An empty value counts as missing. *)
Theorem missing_credential_stops_the_command
  (E : oracle) (env : environ) (name repo : string) (filter : option string)
  (limit : Z) (p : process) :
  missing_credential env = Some name ->
  let stopped :=
    (Exited 1,
     Process (file p) (ticks p)
             (events p
              ++ [Print ("Error: " +:+ name
                         +:+ " environment variable is required")])) in
  (name = "GITHUB_TOKEN" \/ name = "OPENAI_API_KEY")
  /\ (name = "OPENAI_API_KEY" -> truthy (env !! "GITHUB_TOKEN") = true)
  /\ check_single E env repo p = stopped
  /\ show_summaries env filter limit p = stopped.
Proof.
  intros Hmissing. cbv zeta.
  destruct (missing_credential_run E env name repo p Hmissing) as [Hc Hs].
  repeat split; [| |exact Hc|apply Hs].
  - unfold missing_credential in Hmissing.
    destruct (negb (truthy (env !! "GITHUB_TOKEN")));
      [inversion Hmissing; now left|].
    destruct (negb (truthy (env !! "OPENAI_API_KEY")));
      [inversion Hmissing; now right|discriminate].
  - intros ->. unfold missing_credential in Hmissing.
    destruct (truthy (env !! "GITHUB_TOKEN")); [reflexivity|].
    cbn in Hmissing. discriminate.
Qed.

Lemma missing_credential_stops_the_command_witness :
  let env : environ := {[ "GITHUB_TOKEN" := ""; "OPENAI_MODEL" := "gpt-4o" ]} in
  missing_credential env = Some "GITHUB_TOKEN"
  /\ check_single Examples.busy env Examples.hello (Process None 0 [])
     = (Exited 1,
        Process None 0
          [Print "Error: GITHUB_TOKEN environment variable is required"]).
Proof.
  intros env.
  assert (Hmissing : missing_credential env = Some "GITHUB_TOKEN")
    by (vm_compute; reflexivity).
  split; [exact Hmissing|].
  destruct (missing_credential_stops_the_command
              Examples.busy env "GITHUB_TOKEN" Examples.hello None 10
              (Process None 0 []) Hmissing) as (_ & _ & Hrun & _).
  exact Hrun.
Defined.

(** [check_single] once the bot is built. *)
Lemma check_single_run E env repo p :
  missing_credential env = None ->
  let model := default "gpt-4o-mini" (env !! "OPENAI_MODEL") in
  let s0 := World (init_database (file p)) (ticks p) (events p) in
  exists r s',
    check_repo_for_changes E model repo s0 = (Ok r, s')
    /\ check_single E env repo p
       = (Returned,
          Process (Some (db s')) (tick s')
                  (trace s' ++ summary_report repo r)).
Proof.
  intros Hcred. cbv zeta.
  destruct (bot_with_credentials env "repo_summaries.db" (file p) Hcred)
    as (b & Hbot & Hmodel).
  destruct (check_cases E (default "gpt-4o-mini" (env !! "OPENAI_MODEL"))
              (World (init_database (file p)) (ticks p) (events p)) repo)
    as (r & s' & Hrun & _).
  exists r, s'. split; [exact Hrun|].
  unfold check_single. rewrite Hbot, Hmodel.
  cbn [init_database]. rewrite Hrun. reflexivity.
Qed.


(** X25. A failed fetch looks like a quiet repository: when the commits
    request raises, [check] prints the error line of the bot, then "No new
    changes found in <repo>", and returns normally with the tables as
    they were. *)
Theorem fetch_failure_reported_as_no_changes
  (E : oracle) (env : environ) (repo since : string) (e : exn) (p : process) :
  let s0 := World (init_database (file p)) (ticks p) (events p) in
  missing_credential env = None ->
  since_param E s0 repo = Ok since ->
  commits_json E (fetch_tick s0 repo) (commits_url repo) [("since", since)]
  = Raise e ->
  check_single E env repo p
  = (Returned,
     Process (Some (init_database (file p))) (S (fetch_tick s0 repo))
             (events p
              ++ [checking repo;
                  HttpGet (commits_url repo) [("since", since)];
                  Print (error_line repo e);
                  Print ("No new changes found in " +:+ repo)])).
Proof.
  intros s0 Hcred Hsince Hfail.
  destruct (check_single_run E env repo p Hcred) as (r & s' & Hcheck & ->).
  fold s0 in Hcheck.
  assert (Hbody : check_repo_body E (default "gpt-4o-mini"
                                       (env !! "OPENAI_MODEL")) repo s0
                  = (Raise e,
                     World (db s0) (S (fetch_tick s0 repo))
                           (trace s0
                            ++ [checking repo;
                                HttpGet (commits_url repo)
                                        [("since", since)]]))).
  { rewrite body_run. cbv zeta. rewrite Hsince, Hfail. reflexivity. }
  rewrite (check_of_raise_line _ _ _ _ _ _ Hbody) in Hcheck.
  inversion Hcheck; subst r s'. cbn [db tick trace summary_report truthy].
  unfold s0. cbn [db trace]. rewrite <- !app_assoc. reflexivity.
Qed.

Lemma fetch_failure_reported_as_no_changes_witness :
  let env : environ :=
    {[ "GITHUB_TOKEN" := "ghp_token"; "OPENAI_API_KEY" := "sk-key" ]} in
  missing_credential env = None
  /\ check_single Examples.partly_down env Examples.broken (Process None 0 [])
     = (Returned,
        Process (Some empty_database) 2
          [Print "Checking repository: ghost/missing";
           HttpGet "https://api.github.com/repos/ghost/missing/commits"
                   [("since", "2024-03-03T12:00:00")];
           Print ("Error fetching data for ghost/missing: "
                  +:+ "404 Client Error: Not Found");
           Print "No new changes found in ghost/missing"]).
Proof.
  intros env.
  assert (Hcred : missing_credential env = None) by (vm_compute; reflexivity).
  split; [exact Hcred|].
  rewrite (fetch_failure_reported_as_no_changes
             Examples.partly_down env Examples.broken "2024-03-03T12:00:00"
             (RequestException "404 Client Error: Not Found")
             (Process None 0 []) Hcred);
    vm_compute; reflexivity.
Defined.

(** X26. A summary the generator returned empty is stored and then
    reported as no change: the check appends the row with its positive
    count and advances the watermark, and [check] prints "No new changes
    found in <repo>" as its last line. *)
Theorem empty_summary_reported_as_no_changes
  (E : oracle) (env : environ) (repo : string) (p : process)
  (commits : list commit) (fetched_pulls pulls : list pull) :
  let model := default "gpt-4o-mini" (env !! "OPENAI_MODEL") in
  let s0 := World (init_database (file p)) (ticks p) (events p) in
  missing_credential env = None ->
  fetched E s0 repo commits fetched_pulls ->
  filter_pulls (last_check_of (db s0) repo) fetched_pulls = Ok pulls ->
  (0 < length commits + length pulls)%nat ->
  chat_completion E (2 + fetch_tick s0 repo) model
                  (summary_prompt (format_changes_for_ai commits pulls) repo)
  = Ok "" ->
  let after := snd (check_single E env repo p) in
  fst (check_single E env repo p) = Returned
  /\ List.last (events after) (Print "")
     = Print ("No new changes found in " +:+ repo)
  /\ exists d,
       file after = Some d
       /\ summaries d
          = summaries (init_database (file p))
            ++ [SummaryRow (next_id (summaries (init_database (file p))))
                           repo "" (length commits + length pulls)
                           (Datetime.isoformat
                              (utcnow E (4 + fetch_tick s0 repo)))].
Proof.
  intros model s0 Hcred Hfetch Hfilter Hpos Hchat. cbv zeta.
  destruct (check_single_run E env repo p Hcred) as (r & s' & Hcheck & ->).
  fold model s0 in Hcheck.
  destruct (check_found E model s0 repo commits fetched_pulls pulls
              Hfetch Hfilter Hpos) as (since & _ & Hrun).
  rewrite Hrun in Hcheck. inversion Hcheck; subst r s'. clear Hcheck.
  assert (Htext : cycle_text E model s0 repo commits pulls = "").
  { unfold cycle_text, generated. now rewrite Hchat. }
  cbn [fst snd events file db]. rewrite Htext.
  cbn [summary_report truthy Str.truthy].
  split; [reflexivity|]. split.
  - apply List.last_last.
  - eexists. split; [reflexivity|].
    unfold cycle_db, cycle_row. cbn [summaries]. rewrite Htext. reflexivity.
Qed.

Lemma empty_summary_reported_as_no_changes_witness :
  let env : environ :=
    {[ "GITHUB_TOKEN" := "ghp_token"; "OPENAI_API_KEY" := "sk-key" ]} in
  let E := Examples.steady (Ok [Examples.fix_bug]) (Ok []) (Ok "") in
  let after := snd (check_single E env Examples.hello (Process None 0 [])) in
  missing_credential env = None
  /\ List.last (events after) (Print "")
     = Print "No new changes found in octocat/Hello-World"
  /\ exists d, file after = Some d /\ length (summaries d) = 1%nat.
Proof.
  intros env E after.
  assert (Hcred : missing_credential env = None) by (vm_compute; reflexivity).
  split; [exact Hcred|].
  destruct (empty_summary_reported_as_no_changes
              E env Examples.hello (Process None 0 [])
              [Examples.fix_bug] [] [] Hcred)
    as (_ & Hlast & d & Hfile & Hrows).
  - eexists. repeat split; vm_compute; reflexivity.
  - vm_compute. reflexivity.
  - cbn. lia.
  - vm_compute. reflexivity.
  - split; [exact Hlast|]. exists d. split; [exact Hfile|].
    rewrite Hrows. reflexivity.
Defined.





(** ** Configuration *)

(** What [create] does to a file system. *)
Lemma create_spec path content fs fs' :
  create path content fs = Some fs' ->
  creatable fs path = true
  /\ present fs' = {[ path ]} ∪ present fs
  /\ readable fs' = <[path := content]> (readable fs)
  /\ creatable fs' = creatable fs.
Proof.
  unfold create. destruct (creatable fs path); [|discriminate].
  intros H. inversion H. repeat split.
Qed.

Lemma create_keeps path content fs fs' :
  create path content fs = Some fs' ->
  path ∉ present fs ->
  forall other,
    other ∈ present fs ->
    (other ∈ present fs') /\ readable fs' !! other = readable fs !! other.
Proof.
  intros Hcreate Hnew other Hother.
  destruct (create_spec _ _ _ _ Hcreate) as (_ & -> & -> & _).
  split; [apply elem_of_union_r; exact Hother|].
  apply lookup_insert_ne. intros <-. contradiction.
Qed.

(** X28. [init] never overwrites or removes: every path that was there is
    still there and reads as it did, also when the command fails.  It
    fails, with status 1, only when a file it has to make cannot be made:
    [.env] because [.env.example] cannot be read or [.env] cannot be
    created, and then nothing was written or printed; or the
    configuration file because it cannot be created, and then [.env] may
    just have been created and announced.  When it returns, both files
    are there, and running it again changes nothing and prints only
    "Configuration files ready!". *)
Theorem init_config_never_overwrites
  (arg : option string) (fs : filesystem) :
  let '(status, fs', printed) := init_config arg fs in
  let created_env :=
    Print "Created .env - please edit it to add your GitHub token" in
  (forall path,
      path ∈ present fs ->
      (path ∈ present fs') /\ readable fs' !! path = readable fs !! path)
  /\ (status = Returned \/ status = Exited 1)
  /\ (status = Returned ->
      (".env" ∈ present fs') /\ (config_path arg ∈ present fs')
      /\ init_config arg fs'
         = (Returned, fs', [Print "Configuration files ready!"]))
  /\ (status = Exited 1 ->
      ((".env" ∉ present fs)
       /\ (readable fs !! ".env.example" = None
           \/ creatable fs ".env" = false)
       /\ fs' = fs /\ printed = [])
      \/ ((config_path arg ∉ present fs')
          /\ creatable fs (config_path arg) = false
          /\ (((".env" ∈ present fs) /\ fs' = fs /\ printed = [])
              \/ ((".env" ∉ present fs) /\ (".env" ∈ present fs')
                  /\ printed = [created_env])))).
Proof.
  unfold init_config. cbv zeta.
  destruct (decide (".env" ∈ present fs)) as [Henv|Henv].
  - destruct (decide (config_path arg ∈ present fs)) as [Hconfig|Hconfig].
    + split; [auto|]. split; [now left|]. split; [|discriminate].
      intros _. split; [exact Henv|]. split; [exact Hconfig|].
      rewrite !decide_True by assumption. reflexivity.
    + destruct (create (config_path arg) sample_config_text fs)
        as [fs2|] eqn:Hcreate.
      * split; [now apply (create_keeps _ _ _ _ Hcreate)|].
        split; [now left|]. split; [|discriminate]. intros _.
        destruct (create_spec _ _ _ _ Hcreate) as (_ & Hp & _).
        assert (Henv2 : ".env" ∈ present fs2)
          by (rewrite Hp; apply elem_of_union_r; exact Henv).
        assert (Hconfig2 : config_path arg ∈ present fs2)
          by (rewrite Hp; apply elem_of_union_l, elem_of_singleton;
              reflexivity).
        split; [exact Henv2|]. split; [exact Hconfig2|].
        rewrite !decide_True by assumption. reflexivity.
      * split; [auto|]. split; [now right|]. split; [discriminate|].
        intros _. right. split; [exact Hconfig|]. split.
        { unfold create in Hcreate.
          destruct (creatable fs (config_path arg)); [discriminate|].
          reflexivity. }
        left. repeat split. exact Henv.
  - destruct (readable fs !! ".env.example") as [example|] eqn:Hexample.
    2:{ split; [auto|]. split; [now right|]. split; [discriminate|].
        intros _. left. repeat split; auto. }
    destruct (create ".env" example fs) as [fs1|] eqn:Hcreate1.
    2:{ split; [auto|]. split; [now right|]. split; [discriminate|].
        intros _. left. split; [exact Henv|]. split; [|split; reflexivity].
        right. unfold create in Hcreate1.
        destruct (creatable fs ".env"); [discriminate|reflexivity]. }
    pose proof (create_keeps _ _ _ _ Hcreate1 Henv) as Hkeep1.
    destruct (create_spec _ _ _ _ Hcreate1) as (_ & Hp1 & _ & Hc1).
    assert (Henv1 : ".env" ∈ present fs1)
      by (rewrite Hp1; apply elem_of_union_l, elem_of_singleton;
          reflexivity).
    destruct (decide (config_path arg ∈ present fs1)) as [Hconfig|Hconfig].
    + split; [exact Hkeep1|]. split; [now left|]. split; [|discriminate].
      intros _. split; [exact Henv1|]. split; [exact Hconfig|].
      rewrite !decide_True by assumption. reflexivity.
    + destruct (create (config_path arg) sample_config_text fs1)
        as [fs2|] eqn:Hcreate2.
      * pose proof (create_keeps _ _ _ _ Hcreate2 Hconfig) as Hkeep2.
        destruct (create_spec _ _ _ _ Hcreate2) as (_ & Hp2 & _).
        split.
        { intros path Hpath. destruct (Hkeep1 path Hpath) as [Hin1 Hread1].
          destruct (Hkeep2 path Hin1) as [Hin2 Hread2].
          split; [exact Hin2|congruence]. }
        split; [now left|]. split; [|discriminate]. intros _.
        assert (Henv2 : ".env" ∈ present fs2)
          by (rewrite Hp2; apply elem_of_union_r; exact Henv1).
        assert (Hconfig2 : config_path arg ∈ present fs2)
          by (rewrite Hp2; apply elem_of_union_l, elem_of_singleton;
              reflexivity).
        split; [exact Henv2|]. split; [exact Hconfig2|].
        rewrite !decide_True by assumption. reflexivity.
      * split; [exact Hkeep1|]. split; [now right|]. split; [discriminate|].
        intros _. right. split; [exact Hconfig|]. split.
        { unfold create in Hcreate2. rewrite Hc1 in Hcreate2.
          destruct (creatable fs (config_path arg)); [discriminate|].
          reflexivity. }
        right. repeat split; assumption.
Qed.

(** A configuration file in a directory that is not there: [.env] is
    created and announced, then making the configuration file fails. *)
Example init_config_missing_directory :
  let fs :=
    Filesystem {[ ".env.example" ]} {[ ".env.example" := "GITHUB_TOKEN=" ]}
               (fun path => String.eqb path ".env") in
  match init_config (Some "missing_dir/repos.json") fs with
  | (status, fs', printed) =>
      status = Exited 1
      /\ printed
         = [Print "Created .env - please edit it to add your GitHub token"]
      /\ readable fs' !! ".env" = Some "GITHUB_TOKEN="
      /\ readable fs' !! "missing_dir/repos.json" = None
  end.
Proof. vm_compute. repeat split. Qed.


